(** * Terrapin-style sequence-number demo: a shallow embedding

    The Python sources embedded here are [src/utils.py] (packet model,
    loader, sequence-number assigner, drop simulator, visibility filter,
    diff printer), [src/attack_proxy.py] (drop-set selector), [src/cli.py]
    (the [explore] command) and [web_app.py] ([build_diff], [api_run]).

    Python objects are mutable and shared by reference, so [Packet] objects
    live in an explicit store and the functions are written in a state and
    exception monad over that store.  Python [int] is unbounded and is
    modelled by [Z]. *)

From Stdlib Require Import QArith Ascii String.
From stdpp Require Import base gmap sets list strings sorting pretty.

Set Warnings "-register-all".
Open Scope Z_scope.

(** ** Python values as produced by [json.load] and [yaml.safe_load] *)

(** A Python [float], by its exact rational value when it is finite. *)
Inductive pyfloat :=
  | FFinite (q : Q)
  | FInf (negative : bool)
  | FNan.

(** The values a parsed JSON or YAML document is made of.  A mapping is
    kept as its list of items under string keys, looked up first match
    first: every lookup in the programs below uses a [str] key, and a [str]
    never compares equal to a key of another type. *)
Inductive value :=
  | VNone
  | VBool (b : bool)
  | VInt (n : Z)
  | VFloat (f : pyfloat)
  | VStr (s : string)
  | VList (l : list value)
  | VDict (d : list (string * value)).

(** Exceptions.  [ValueError] carries the message the program formats;
    the other constructors are the exceptions raised by builtins. *)
Inductive exn :=
  | ValueError (msg : string)
  | IntLiteralError (s : string)   (* ValueError of int(s): invalid literal *)
  | KeyError (key : string)
  | TypeError
  | OverflowError.

(** Results of code that may raise but does not touch the store. *)
Inductive result (A : Type) :=
  | Ok (a : A)
  | Err (e : exn).
Arguments Ok {A} a.
Arguments Err {A} e.

#[global] Instance result_ret : MRet result := λ A a, Ok a.
#[global] Instance result_bind : MBind result :=
  λ A B f r, match r with Ok a => f a | Err e => Err e end.
#[global] Instance result_fmap : FMap result :=
  λ A B f r, match r with Ok a => Ok (f a) | Err e => Err e end.

(** [d.get(k)]: [None] when the key is absent. *)
Fixpoint dict_get (d : list (string * value)) (k : string) : option value :=
  match d with
  | [] => None
  | (k', v) :: d' => if String.eqb k' k then Some v else dict_get d' k
  end.

(** [item[k]] with a [str] key: [KeyError] on a mapping without the key,
    [TypeError] on anything that is not a mapping. *)
Definition subscript (item : value) (k : string) : result value :=
  match item with
  | VDict d => match dict_get d k with Some v => Ok v | None => Err (KeyError k) end
  | _ => Err TypeError
  end.

(** *** The builtin [int()] *)

(** Whitespace skipped by [int()] around a literal in ASCII text: tab,
    line feed, vertical tab, form feed, carriage return and space. *)
Definition is_space (c : ascii) : bool :=
  let n := nat_of_ascii c in
  ((9 <=? n) && (n <=? 13) || (n =? 32))%nat.

Definition digit_of (c : ascii) : option Z :=
  let n := nat_of_ascii c in
  if ((48 <=? n) && (n <=? 57))%nat then Some (Z.of_nat n - 48) else None.

Fixpoint lstrip (s : list ascii) : list ascii :=
  match s with
  | c :: s' => if is_space c then lstrip s' else s
  | [] => []
  end.

Definition strip (s : list ascii) : list ascii :=
  reverse (lstrip (reverse (lstrip s))).

(** Decimal digits, single underscores allowed between digits only. *)
Fixpoint parse_digits (acc : Z) (after_digit : bool) (s : list ascii) : option Z :=
  match s with
  | [] => if after_digit then Some acc else None
  | c :: s' =>
      if Ascii.eqb c "_"%char then
        if after_digit then parse_digits acc false s' else None
      else
        match digit_of c with
        | Some d => parse_digits (10 * acc + d) true s'
        | None => None
        end
  end.

(** [int(s)] for a [str] in base 10: optional surrounding whitespace, an
    optional sign, then the digits.  (Covers ASCII text; the interpreter's
    limit on the number of digits is not modelled.) *)
Definition int_of_str (s : string) : option Z :=
  match strip (list_ascii_of_string s) with
  | c :: ds =>
      if Ascii.eqb c "-"%char then Z.opp <$> parse_digits 0 false ds
      else if Ascii.eqb c "+"%char then parse_digits 0 false ds
      else parse_digits 0 false (c :: ds)
  | [] => None
  end.

(** [int(x)] for a [float]: truncation toward zero. *)
Definition int_of_float (f : pyfloat) : result Z :=
  match f with
  | FFinite q => Ok (Z.quot (Qnum q) (Z.pos (Qden q)))
  | FInf _ => Err OverflowError
  | FNan => Err (ValueError "cannot convert float NaN to integer")
  end.

(** [int(v)]. *)
Definition int_ (v : value) : result Z :=
  match v with
  | VNone => Err TypeError
  | VBool b => Ok (if b then 1 else 0)
  | VInt n => Ok n
  | VFloat f => int_of_float f
  | VStr s => match int_of_str s with Some n => Ok n | None => Err (IntLiteralError s) end
  | VList _ => Err TypeError
  | VDict _ => Err TypeError
  end.

(** [isinstance(v, list)], [isinstance(v, dict)], [isinstance(v, str)]. *)
Definition is_list (v : value) : bool := match v with VList _ => true | _ => false end.
Definition is_dict (v : value) : bool := match v with VDict _ => true | _ => false end.
Definition is_str (v : value) : bool := match v with VStr _ => true | _ => false end.

(** ** utils.py: the packet model *)

Inductive Direction :=
  | CLIENT_TO_SERVER
  | SERVER_TO_CLIENT.

#[global] Instance Direction_eq_dec : EqDecision Direction.
Proof. solve_decision. Defined.

(** [Direction.value]. *)
Definition Direction_value (d : Direction) : string :=
  match d with
  | CLIENT_TO_SERVER => "C->S"
  | SERVER_TO_CLIENT => "S->C"
  end.

(** [Direction(v)]: lookup of an enum member by value; [None] stands for
    the [ValueError] the enum raises. *)
Definition Direction_of_value (v : value) : option Direction :=
  match v with
  | VStr s =>
      if String.eqb s "C->S" then Some CLIENT_TO_SERVER
      else if String.eqb s "S->C" then Some SERVER_TO_CLIENT
      else None
  | _ => None
  end.

Record Packet := mkPacket {
  index : Z;
  direction : Direction;
  payload_len : Z;
  msg_type : string;
  seq_no : option Z;
  dropped : bool
}.

#[global] Instance Packet_eq_dec : EqDecision Packet.
Proof. solve_decision. Defined.

(** Attribute assignments [pkt.seq_no = s] and [pkt.dropped = b]. *)
Definition set_seq_no (s : option Z) (p : Packet) : Packet :=
  mkPacket (index p) (direction p) (payload_len p) (msg_type p) s (dropped p).
Definition set_dropped (b : bool) (p : Packet) : Packet :=
  mkPacket (index p) (direction p) (payload_len p) (msg_type p) (seq_no p) b.

(** ** The object store and the monad of the programs *)

(** References to [Packet] objects; the store is the list of all objects
    allocated so far, a reference being a position in it. *)
Abbreviation loc := nat (only parsing).
Abbreviation heap := (list Packet) (only parsing).

Inductive outcome (A : Type) :=
  | Ret (a : A) (h : heap)       (* normal return *)
  | Raise (e : exn) (h : heap)   (* an exception propagates *)
  | Stuck.                       (* a reference to no object *)
Arguments Ret {A} a h.
Arguments Raise {A} e h.
Arguments Stuck {A}.

Definition M (A : Type) : Type := heap → outcome A.

#[global] Instance M_ret : MRet M := λ A a h, Ret a h.
#[global] Instance M_bind : MBind M :=
  λ A B f m h,
    match m h with
    | Ret a h' => f a h'
    | Raise e h' => Raise e h'
    | Stuck => Stuck
    end.

Definition raise {A} (e : exn) : M A := λ h, Raise e h.

Definition lift {A} (r : result A) : M A :=
  match r with Ok a => mret a | Err e => raise e end.

(** [Packet(...)]: a new object, distinct from all existing ones. *)
Definition alloc (p : Packet) : M loc := λ h, Ret (length h) (h ++ [p]).

(** Reading the attributes of the object behind a reference. *)
Definition load (l : loc) : M Packet :=
  λ h, match h !! l with Some p => Ret p h | None => Stuck end.

(** Assigning to an attribute of the object behind a reference. *)
Definition store (l : loc) (f : Packet → Packet) : M unit :=
  λ h, match h !! l with Some p => Ret tt (<[l := f p]> h) | None => Stuck end.

(** [for x in xs: ...] with the loop-carried local variables as [s]. *)
Fixpoint for_ {A S} (xs : list A) (body : S → A → M S) (s : S) : M S :=
  match xs with
  | [] => mret s
  | x :: xs' => s' ← body s x; for_ xs' body s'
  end.

(** ** utils.py: the transformations *)

Section programs.
(** Builtins the programs call and this development leaves abstract:
    [str(v)] of a value that is not already a [str], and the generator
    behind the [random] module. *)
Variable py_str : value → string.
Variable rng : Type.
(** [random.seed(n)]: the generator state determined by the seed. *)
Variable seed_rng : Z → rng.
(** The selection made by [random.sample(population, k)] for
    [0 <= k <= len(population)] in a given generator state. *)
Variable sample : rng → list Z → nat → list Z.

Definition str_ (v : value) : string :=
  match v with VStr s => s | _ => py_str v end.

(** [load_packet_trace], from the parsed JSON document on: [path] is the
    text of [Path(path)], [raw_packets] the list [json.load] returns. *)
Definition load_packet_trace (path : string) (raw_packets : list value)
  : M (list loc) :=
  '(_, packets) ← for_ raw_packets (λ '(idx, packets) item,
      direction_str ← lift (subscript item "direction");
      direction ← match Direction_of_value direction_str with
                   | Some d => mret d
                   | None =>
                       raise (ValueError ("Invalid direction '" +:+
                                str_ direction_str +:+ "' in " +:+ path))
                   end;
      payload_len ← lift (subscript item "payload_len" ≫= int_);
      msg_type ← lift (str_ <$> subscript item "msg_type");
      pkt ← alloc (mkPacket idx direction payload_len msg_type None false);
      mret (idx + 1, packets ++ [pkt]))
    (0, []);
  mret packets.

Definition compute_sequence_numbers (packets : list loc) : M (list loc) :=
  '(_, _, result) ← for_ packets (λ '(seq_c2s, seq_s2c, result) pkt,
      p ← load pkt;
      pkt_copy ← alloc (mkPacket (index p) (direction p) (payload_len p)
                          (msg_type p) (seq_no p) (dropped p));
      c ← load pkt_copy;
      if decide (direction c = CLIENT_TO_SERVER) then
        store pkt_copy (set_seq_no (Some seq_c2s));;
        mret (seq_c2s + 1, seq_s2c, result ++ [pkt_copy])
      else
        store pkt_copy (set_seq_no (Some seq_s2c));;
        mret (seq_c2s, seq_s2c + 1, result ++ [pkt_copy]))
    (0, 0, []);
  mret result.

Definition apply_drop_indices (packets : list loc) (drop_indices : list Z)
  : M (list loc) :=
  let drop_set : gset Z := list_to_set drop_indices in
  for_ packets (λ result pkt,
      p ← load pkt;
      pkt_copy ← alloc (mkPacket (index p) (direction p) (payload_len p)
                          (msg_type p) (seq_no p) (dropped p));
      c ← load pkt_copy;
      (if decide (index c ∈ drop_set) then store pkt_copy (set_dropped true)
       else mret tt);;
      mret (result ++ [pkt_copy]))
    [].

Definition filter_visible_packets (packets : list loc) : M (list loc) :=
  for_ packets (λ visible pkt,
      p ← load pkt;
      mret (if negb (dropped p) then visible ++ [pkt] else visible))
    [].

(** The dictionary [base_seq_by_index] built by both diff functions:
    later packets overwrite earlier ones with the same index, packets
    without a sequence number are skipped. *)
Definition base_seq_by_index (baseline : list loc) : M (gmap Z Z) :=
  for_ baseline (λ (m : gmap Z Z) pkt,
      p ← load pkt;
      mret (match seq_no p with Some s => <[index p := s]> m | None => m end))
    ∅.

(** One printed line of [print_sequence_diff], column by column (the
    padding of the columns, the title and the header are left out). *)
Record diff_line := mkLine {
  line_index : Z;
  line_direction : string;
  line_msg_type : string;
  before_str : string;
  after_str : string;
  line_changed : string
}.

(** [str(n)] for an [int]. *)
Definition str_int (n : Z) : string := pretty n.

Definition print_sequence_diff (baseline after_attack : list loc)
  : M (list diff_line) :=
  by_index ← base_seq_by_index baseline;
  for_ after_attack (λ printed pkt,
      p ← load pkt;
      let seq_before := by_index !! index p in
      let seq_after := seq_no p in
      let before_str := match seq_before with None => "?" | Some n => str_int n end in
      let after_str := match seq_after with None => "?" | Some n => str_int n end in
      let changed :=
        match seq_before, seq_after with
        | Some b, Some a => if decide (b ≠ a) then "yes" else "no"
        | _, _ => "no"
        end in
      mret (printed ++ [mkLine (index p) (Direction_value (direction p))
                          (msg_type p) before_str after_str changed]))
    [].

(** ** attack_proxy.py *)

(** [d.get(k, default)]. *)
Definition get_ (d : list (string * value)) (k : string) (default : value) : value :=
  match dict_get d k with Some v => v | None => default end.

(** [[int(i) for i in l]]. *)
Fixpoint ints (l : list value) : result (list Z) :=
  match l with
  | [] => Ok []
  | v :: l' => n ← int_ v; ns ← ints l'; Ok (n :: ns)
  end.

Definition load_config (path : string) (config : value)
  : result (list (string * value)) :=
  match config with
  | VDict d => Ok d
  | _ => Err (ValueError ("Configuration in " +:+ path +:+ " must be a mapping"))
  end.

Definition select_drop_indices (config : list (string * value))
  : result (list Z * value) :=
  let profiles := get_ config "profiles" VNone in
  let active_profile := get_ config "active_profile" VNone in
  match profiles, active_profile with
  | VDict profiles, VStr active_profile =>
      let profile := get_ profiles active_profile VNone in
      match profile with
      | VDict profile =>
          let drop_indices := get_ profile "drop_indices" (VList []) in
          match drop_indices with
          | VList drop_indices =>
              let description :=
                get_ profile "description"
                  (VStr ("profile '" +:+ active_profile +:+ "'")) in
              ns ← ints drop_indices; Ok (ns, description)
          | _ =>
              Err (ValueError ("Profile '" +:+ active_profile +:+
                               "' has invalid 'drop_indices'"))
          end
      | _ =>
          Err (ValueError ("Profile '" +:+ active_profile +:+
                           "' not found or not a mapping"))
      end
  | _, _ =>
      let drop_indices := get_ config "drop_indices" (VList []) in
      match drop_indices with
      | VList drop_indices =>
          let description := VStr "top-level drop_indices" in
          ns ← ints drop_indices; Ok (ns, description)
      | _ => Err (ValueError "Config key 'drop_indices' must be a list of integers")
      end
  end.

(** What [run_demo] shows: the baseline trace, the visible trace after
    the attack and the printed diff (log files are not modelled).  The
    trace file named by [pcap_file] is given by its parsed content; a
    [pcap_file] that is not a string makes [Path(...)] raise. *)
Definition run_demo (config_path : string) (config_doc : value)
    (raw_packets : list value)
  : M (list loc * list loc * list diff_line) :=
  config ← lift (load_config config_path config_doc);
  pcap_file ← match dict_get config "pcap_file" with
               | Some v => mret v
               | None => raise (ValueError "Missing required config key: 'pcap_file'")
               end;
  '(drop_indices, desc) ← lift (select_drop_indices config);
  packets ← match pcap_file with
             | VStr path => load_packet_trace path raw_packets
             | _ => raise TypeError
             end;
  baseline ← compute_sequence_numbers packets;
  attacked ← apply_drop_indices baseline drop_indices;
  visible_after_attack ← filter_visible_packets attacked;
  visible_after_attack ← compute_sequence_numbers visible_after_attack;
  diff ← print_sequence_diff baseline visible_after_attack;
  mret (baseline, visible_after_attack, diff).

(** ** cli.py *)

(** [[pkt.index for pkt in baseline if pkt.direction == CLIENT_TO_SERVER]]. *)
Definition client_indices_of (baseline : list loc) : M (list Z) :=
  for_ baseline (λ acc pkt,
      p ← load pkt;
      mret (if decide (direction p = CLIENT_TO_SERVER) then acc ++ [index p] else acc))
    [].

(** [random.sample(population, k)], with the library's range check. *)
Definition random_sample (g : rng) (population : list Z) (k : Z) : result (list Z) :=
  if decide (0 ≤ k ≤ Z.of_nat (length population)) then
    Ok (sample g population (Z.to_nat k))
  else Err (ValueError "Sample larger than population or is negative").

(** [sorted(l)] on integers. *)
Definition sorted (l : list Z) : list Z := merge_sort Z.le l.

(** What [cmd_explore] reports. *)
Inductive explore_report :=
  | NoClientPackets     (* "[!] No client-side packets found to drop." *)
  | NothingToDrop       (* "[*] random_drop is 0 or no droppable packets; ..." *)
  | Dropped (chosen : list Z) (visible_after_attack : list loc)
            (diff : list diff_line).

(** [cmd_explore]; [g] is the state of the process-wide generator when
    the command starts. *)
Definition cmd_explore (pcap : string) (raw_packets : list value)
    (random_drop seed : Z) (g : rng) : M explore_report :=
  packets ← load_packet_trace pcap raw_packets;
  baseline ← compute_sequence_numbers packets;
  client_indices ← client_indices_of baseline;
  match client_indices with
  | [] => mret NoClientPackets
  | _ :: _ =>
      let g := if decide (seed ≠ 0) then seed_rng seed else g in
      let k := Z.max 0 (Z.min random_drop (Z.of_nat (length client_indices))) in
      if decide (k = 0) then mret NothingToDrop
      else
        drawn ← lift (random_sample g client_indices k);
        let chosen := sorted drawn in
        attacked ← apply_drop_indices baseline chosen;
        visible_after_attack ← filter_visible_packets attacked;
        visible_after_attack ← compute_sequence_numbers visible_after_attack;
        diff ← print_sequence_diff baseline visible_after_attack;
        mret (Dropped chosen visible_after_attack diff)
  end.

(** ** web_app.py *)

Record diff_row := mkRow {
  row_index : Z;
  row_direction : string;
  row_msg_type : string;
  seq_before : option Z;
  seq_after : option Z;
  changed : bool
}.

Definition build_diff (baseline after_attack : list loc) : M (list diff_row) :=
  by_index ← base_seq_by_index baseline;
  for_ after_attack (λ diff_rows pkt,
      p ← load pkt;
      let seq_before := by_index !! index p in
      let seq_after := seq_no p in
      let changed :=
        match seq_before, seq_after with
        | Some b, Some a => bool_decide (b ≠ a)
        | _, _ => false
        end in
      mret (diff_rows ++ [mkRow (index p) (Direction_value (direction p))
                            (msg_type p) seq_before seq_after changed]))
    [].

(** [[packet_to_dict(p) for p in packets]]: the six attributes of each
    packet, read at the time of the call. *)
Definition packets_to_dicts (packets : list loc) : M (list Packet) :=
  for_ packets (λ acc pkt, p ← load pkt; mret (acc ++ [p])) [].

(** The JSON bodies [api_run] answers with. *)
Inductive response :=
  | BaselineResponse (baseline after : list Packet) (diff : list diff_row)
  | AttackResponse (description : value) (drop_indices : list Z)
      (baseline after : list Packet) (diff : list diff_row)
  | ExploreErrorResponse (baseline after : list Packet) (diff : list diff_row)
  | ExploreResponse (chosen_indices : list Z)
      (baseline after : list Packet) (diff : list diff_row)
  | UnknownModeResponse (mode : value).   (* status 400 *)

(** [api_run], for a request whose JSON body is the mapping [data] (or
    is missing, [data] being empty then); the trace and the configuration
    files are given by their parsed contents. *)
Definition api_run (data : list (string * value)) (raw_packets : list value)
    (config_doc : value) (g : rng) : M response :=
  let mode := get_ data "mode" (VStr "baseline") in
  packets ← load_packet_trace "data/sample_trace.json" raw_packets;
  baseline ← compute_sequence_numbers packets;
  match mode with
  | VStr "baseline" =>
      b ← packets_to_dicts baseline;
      a ← packets_to_dicts baseline;
      d ← build_diff baseline baseline;
      mret (BaselineResponse b a d)
  | VStr "attack" =>
      config ← lift (load_config "data/demo_config.yaml" config_doc);
      '(drop_indices, desc) ← lift (select_drop_indices config);
      attacked ← apply_drop_indices baseline drop_indices;
      visible ← filter_visible_packets attacked;
      visible_with_seq ← compute_sequence_numbers visible;
      b ← packets_to_dicts baseline;
      a ← packets_to_dicts visible_with_seq;
      d ← build_diff baseline visible_with_seq;
      mret (AttackResponse desc drop_indices b a d)
  | VStr "explore" =>
      random_drop ← lift (int_ (get_ data "random_drop" (VInt 1)));
      seed ← lift (int_ (get_ data "seed" (VInt 0)));
      client_indices ← client_indices_of baseline;
      if bool_decide (client_indices = []) || bool_decide (random_drop ≤ 0) then
        b ← packets_to_dicts baseline;
        a ← packets_to_dicts baseline;
        d ← build_diff baseline baseline;
        mret (ExploreErrorResponse b a d)
      else
        let g := if decide (seed ≠ 0) then seed_rng seed else g in
        let k := Z.max 0 (Z.min random_drop (Z.of_nat (length client_indices))) in
        drawn ← lift (random_sample g client_indices k);
        let chosen := sorted drawn in
        attacked ← apply_drop_indices baseline chosen;
        visible ← filter_visible_packets attacked;
        visible_with_seq ← compute_sequence_numbers visible;
        b ← packets_to_dicts baseline;
        a ← packets_to_dicts visible_with_seq;
        d ← build_diff baseline visible_with_seq;
        mret (ExploreResponse chosen b a d)
  | _ => mret (UnknownModeResponse mode)
  end.
End programs.

(** The three calls every caller makes once the indices to drop are
    chosen ([run_demo], [cmd_explore], [api_run], the unit tests): mark,
    filter, number again. *)
Definition drop_and_renumber (baseline : list loc) (drop_indices : list Z)
  : M (list loc) :=
  attacked ← apply_drop_indices baseline drop_indices;
  visible ← filter_visible_packets attacked;
  compute_sequence_numbers visible.

(** ** utils.py: the packet table *)

(** [c * n] for a one-character string. *)
Fixpoint repeat_char (c : ascii) (n : nat) : string :=
  match n with
  | O => EmptyString
  | S n' => String c (repeat_char c n')
  end.

(** The format specs [>w] and [<w] of an f-string field: padding with
    spaces up to width [w], never truncating.  (Widths count the elements
    of the string, one per character.) *)
Definition rjust (w : nat) (s : string) : string :=
  repeat_char " " (w - String.length s) +:+ s.
Definition ljust (w : nat) (s : string) : string :=
  s +:+ repeat_char " " (w - String.length s).

(** The layout shared by the header and the rows of the table:
    [{:>3}  {:>4}  {:<16}  {:>5}  {:>5}  {:>7}]. *)
Definition table_line (idx dir type len seq dropped : string) : string :=
  rjust 3 idx +:+ "  " +:+ rjust 4 dir +:+ "  " +:+ ljust 16 type +:+ "  " +:+
  rjust 5 len +:+ "  " +:+ rjust 5 seq +:+ "  " +:+ rjust 7 dropped.

Definition table_header : string :=
  table_line "idx" "dir" "type" "len" "seq" "dropped".

(** [print_packet_table]: the strings printed, one per call of [print]. *)
Definition print_packet_table (packets : list loc) (title : option string)
  : M (list string) :=
  let printed :=
    match title with
    | Some (String c t) => [String "010" "=== " +:+ String c t +:+ " ==="]
    | _ => []
    end in
  let header := table_header in
  let printed := printed ++ [header] in
  let printed := printed ++ [repeat_char "-" (String.length header)] in
  printed ← for_ packets (λ printed pkt,
      p ← load pkt;
      let seq_str := match seq_no p with None => "?" | Some n => str_int n end in
      let dropped_str := if dropped p then "yes" else "no" in
      mret (printed ++
            [table_line (str_int (index p)) (Direction_value (direction p))
               (msg_type p) (str_int (payload_len p)) seq_str dropped_str]))
    printed;
  mret (printed ++ [""]).

(** ** attack_proxy.py: the snapshot written to the log *)

(** [serialize_packets_to_json]: the list [data] handed to [json.dump]
    (creating the directory and writing the file are left out). *)
Definition serialize_packets_to_json (packets : list loc) : M (list value) :=
  for_ packets (λ data pkt,
      p ← load pkt;
      mret (data ++
            [VDict [ ("index", VInt (index p));
                     ("direction", VStr (Direction_value (direction p)));
                     ("payload_len", VInt (payload_len p));
                     ("msg_type", VStr (msg_type p));
                     ("seq_no", match seq_no p with
                                | Some n => VInt n
                                | None => VNone
                                end);
                     ("dropped", VBool (dropped p)) ]]))
    [].

(** ** handshake_demo.py and the [baseline] command of cli.py *)

Definition run_handshake_demo (py_str : value → string) (trace_path : string)
    (raw_packets : list value) : M (list string) :=
  packets ← load_packet_trace py_str trace_path raw_packets;
  packets_with_seq ← compute_sequence_numbers packets;
  print_packet_table packets_with_seq (Some "Baseline handshake (no attack)").

Definition cmd_baseline (py_str : value → string) (pcap : string)
    (raw_packets : list value) : M (list string) :=
  run_handshake_demo py_str pcap raw_packets.

(** ** Reading traces out of the store *)

(** [points_to h ls ps]: the references [ls] denote, in store [h], packets
    with the attribute values [ps]. *)
Definition points_to (h : heap) (ls : list loc) (ps : list Packet) : Prop :=
  Forall2 (λ l p, h !! l = Some p) ls ps.

(** All references of [ls] were allocated after store [h] was taken. *)
Definition fresh_for (h : heap) (ls : list loc) : Prop :=
  Forall (λ l, (length h ≤ l)%nat) ls.

(** The number of packets of direction [d] among the first [i] of [ps]:
    the 0-based rank, within its direction, of a packet at position [i]. *)
Definition rank (ps : list Packet) (i : nat) (d : Direction) : Z :=
  Z.of_nat (length (filter (λ q, direction q = d) (take i ps))).

(** The packets of direction [d], in trace order. *)
Definition of_direction (d : Direction) (ps : list Packet) : list Packet :=
  filter (λ q, direction q = d) ps.

(** Each packet with its sequence number replaced by its rank. *)
Definition numbered (ps : list Packet) : list Packet :=
  imap (λ i p, set_seq_no (Some (rank ps i (direction p))) p) ps.

(** The attribute values after [apply_drop_indices]. *)
Definition marked (drop_indices : list Z) (ps : list Packet) : list Packet :=
  (λ p, if decide (index p ∈ drop_indices) then set_dropped true p else p) <$> ps.

(** The packets, and the references, that [filter_visible_packets] keeps. *)
Definition visible (ps : list Packet) : list Packet :=
  filter (λ p, dropped p = false) ps.
Definition visible_locs (ls : list loc) (ps : list Packet) : list loc :=
  zip ls ps ≫= λ lp, if negb (dropped lp.2) then [lp.1] else [].

(** The dictionary of [base_seq_by_index] as a function of the baseline's
    attribute values. *)
Definition seq_by_index (bs : list Packet) : gmap Z Z :=
  foldl (λ m p, match seq_no p with Some s => <[index p := s]> m | None => m end)
    ∅ bs.

(** The row [build_diff] makes for a packet, and the line
    [print_sequence_diff] prints for it. *)
Definition row_of (by_index : gmap Z Z) (p : Packet) : diff_row :=
  mkRow (index p) (Direction_value (direction p)) (msg_type p)
    (by_index !! index p) (seq_no p)
    match by_index !! index p, seq_no p with
    | Some b, Some a => bool_decide (b ≠ a)
    | _, _ => false
    end.
Definition line_of (by_index : gmap Z Z) (p : Packet) : diff_line :=
  mkLine (index p) (Direction_value (direction p)) (msg_type p)
    match by_index !! index p with None => "?" | Some n => str_int n end
    match seq_no p with None => "?" | Some n => str_int n end
    match by_index !! index p, seq_no p with
    | Some b, Some a => if decide (b ≠ a) then "yes" else "no"
    | _, _ => "no"
    end.

(** The packet [load_packet_trace] makes of one record at position [idx],
    or the exception the record makes it raise. *)
Definition record_packet (py_str : value → string) (path : string) (idx : Z)
    (item : value) : result Packet :=
  direction_str ← subscript item "direction";
  direction ← match Direction_of_value direction_str with
               | Some d => Ok d
               | None => Err (ValueError ("Invalid direction '" +:+
                                str_ py_str direction_str +:+ "' in " +:+ path))
               end;
  payload_len ← subscript item "payload_len" ≫= int_;
  msg_type ← str_ py_str <$> subscript item "msg_type";
  Ok (mkPacket idx direction payload_len msg_type None false).

(** The records in order, up to the first one that raises. *)
Fixpoint records_packets (py_str : value → string) (path : string) (idx : Z)
    (raw : list value) : result (list Packet) :=
  match raw with
  | [] => Ok []
  | item :: raw' =>
      p ← record_packet py_str path idx item;
      ps ← records_packets py_str path (idx + 1) raw';
      Ok (p :: ps)
  end.

(** A trace as the loader makes it: packet [j] has index [j], no packet
    is marked as dropped. *)
Definition loaded_trace (ps : list Packet) : Prop :=
  ∀ j p, ps !! j = Some p → index p = Z.of_nat j ∧ dropped p = false.

(** A trace in which the index identifies the packet and nothing is
    dropped yet: what the pipeline is run on. *)
Definition baseline_input (ps : list Packet) : Prop :=
  NoDup (index <$> ps) ∧ Forall (λ p, dropped p = false) ps.

(** The number of packets of direction [d] among the first [j] of [ps]
    whose index is in the drop list: the dropped packets of that direction
    that come earlier than position [j]. *)
Definition dropped_before (drop_indices : list Z) (ps : list Packet) (j : nat)
    (d : Direction) : Z :=
  Z.of_nat (length (filter (λ q, direction q = d ∧ index q ∈ drop_indices)
                      (take j ps))).

(** The baseline sequence number found for index [i]: that of the last
    baseline packet with this index that has one. *)
Definition baseline_seq (bs : list Packet) (i : Z) : option Z :=
  last (omap (λ b, if decide (index b = i) then seq_no b else None) bs).

(** *** A sample trace

    Ten records alternating between the two directions, the first one a
    [KEXINIT]: the shape of the sample trace the unit tests load. *)
Definition record (d : string) (n : Z) (t : string) : value :=
  VDict [("direction", VStr d); ("payload_len", VInt n); ("msg_type", VStr t)].

Definition sample_records : list value :=
  [ record "C->S" 64 "KEXINIT"; record "S->C" 64 "KEXINIT";
    record "C->S" 32 "KEXDH_INIT"; record "S->C" 48 "KEXDH_REPLY";
    record "C->S" 16 "NEWKEYS"; record "S->C" 16 "NEWKEYS";
    record "C->S" 24 "SERVICE_REQUEST"; record "S->C" 24 "SERVICE_ACCEPT";
    record "C->S" 40 "USERAUTH_REQUEST"; record "S->C" 8 "USERAUTH_SUCCESS" ].

(** The packets the loader makes of them. *)
Definition sample_packets : list Packet :=
  match records_packets (λ _, "") "sample_trace.json" 0 sample_records with
  | Ok ps => ps
  | Err _ => []
  end.

Definition sample_refs : list loc := seq 0 (length sample_packets).

(** *** Sample configurations *)

(** A profile whose [drop_indices] is a list, but not of integers. *)
Definition coerced_profile : list (string * value) :=
  [ ("drop_indices", VList [VStr "2"; VFloat (FFinite (9 # 2))]);
    ("description", VStr "demo profile") ].
Definition coerced_profiles : list (string * value) :=
  [ ("demo", VDict coerced_profile) ].
Definition coerced_config : list (string * value) :=
  [ ("profiles", VDict coerced_profiles); ("active_profile", VStr "demo") ].

(** [profiles] without [active_profile], and a top-level [drop_indices]
    that is a string. *)
Definition fallback_config : list (string * value) :=
  [ ("profiles", VDict [("demo", VDict [("drop_indices", VList [VInt 2])])]);
    ("drop_indices", VStr "2") ].

(** A profile without [drop_indices]. *)
Definition bare_profile_config : list (string * value) :=
  [ ("profiles", VDict [("demo", VDict [("description", VStr "nothing")])]);
    ("active_profile", VStr "demo") ].

(** Records whose [payload_len] is a JSON string and a JSON boolean. *)
Definition string_length_record : value :=
  VDict [("direction", VStr "C->S"); ("payload_len", VStr "12");
         ("msg_type", VStr "KEXINIT")].
Definition boolean_length_record : value :=
  VDict [("direction", VStr "S->C"); ("payload_len", VBool true);
         ("msg_type", VStr "KEXINIT")].
Definition coerced_records : list value :=
  [ string_length_record; boolean_length_record ].

(** Whether a parsed JSON value is a number of the document (a JSON
    boolean or string is not one). *)
Definition is_json_number (v : value) : bool :=
  match v with VInt _ | VFloat _ => true | _ => false end.

(** A list whose elements are all integers. *)
Definition is_list_of_integers (v : value) : bool :=
  match v with
  | VList l => forallb (λ x, match x with VInt _ => true | _ => false end) l
  | _ => false
  end.

(** *** Random selection *)

(** [chosen] is a draw for [requested] packets among [clients]: as many
    distinct indices of [clients] as requested, clamped between 0 and the
    number of client packets, in ascending order. *)
Definition drawn_from (clients : list Z) (requested : Z) (chosen : list Z) : Prop :=
  Z.of_nat (length chosen) =
    Z.max 0 (Z.min requested (Z.of_nat (length clients))) ∧
  NoDup chosen ∧
  (∀ i, i ∈ chosen → i ∈ clients) ∧
  Sorted Z.le chosen.

(** A generator that always selects the first [k] elements. *)
Definition first_k (g : unit) (population : list Z) (k : nat) : list Z :=
  take k population.

(** An explore request asking for more packets than the client sent. *)
Definition explore_request : list (string * value) :=
  [ ("mode", VStr "explore"); ("random_drop", VInt 7); ("seed", VInt 42) ].

(** The packets of [coerced_records]. *)
Definition coerced_packets : list Packet :=
  [ mkPacket 0 CLIENT_TO_SERVER 12 "KEXINIT" None false;
    mkPacket 1 SERVER_TO_CLIENT 1 "KEXINIT" None false ].

(** A record that loads: a valid [direction], a [payload_len] that
    [int()] accepts, a [msg_type]. *)
Definition record_fields (item : value) (d : Direction) (n : Z) (mt : value)
  : Prop :=
  ∃ v v',
    subscript item "direction" = Ok v ∧ Direction_of_value v = Some d ∧
    subscript item "payload_len" = Ok v' ∧ int_ v' = Ok n ∧
    subscript item "msg_type" = Ok mt.

(** *** More sample configurations *)

(** A configuration with an active profile and, besides, a top-level list. *)
Definition profile_config : list (string * value) :=
  [ ("pcap_file", VStr "sample_trace.json");
    ("profiles",
     VDict [("early", VDict [("drop_indices", VList [VInt 2; VInt 0; VInt 2]);
                             ("description", VStr "drop early packets")])]);
    ("active_profile", VStr "early");
    ("drop_indices", VList [VInt 9]) ].

(** A flat configuration that names a profile without defining any. *)
Definition flat_config : list (string * value) :=
  [ ("pcap_file", VStr "sample_trace.json");
    ("active_profile", VStr "early");
    ("drop_indices", VList [VInt 4; VInt 4; VInt 1]) ].

(** The line [print_sequence_diff] prints for what [build_diff] puts in a
    row. *)
Definition printed_row (r : diff_row) : diff_line :=
  mkLine (row_index r) (row_direction r) (row_msg_type r)
    match seq_before r with None => "?" | Some n => str_int n end
    match seq_after r with None => "?" | Some n => str_int n end
    (if changed r then "yes" else "no").

(** The lines [print_packet_table] prints before the header, and the row
    it prints for a packet. *)
Definition title_lines (title : option string) : list string :=
  match title with
  | Some (String c t) => [String "010" "=== " +:+ String c t +:+ " ==="]
  | _ => []
  end.
Definition table_row (p : Packet) : string :=
  table_line (str_int (index p)) (Direction_value (direction p)) (msg_type p)
    (str_int (payload_len p))
    match seq_no p with None => "?" | Some n => str_int n end
    (if dropped p then "yes" else "no").

(** A packet whose fields fit the columns of the table. *)
Definition fits_columns (p : Packet) : Prop :=
  0 ≤ index p < 1000 ∧ (String.length (msg_type p) ≤ 16)%nat ∧
  0 ≤ payload_len p < 100000 ∧
  ∀ n, seq_no p = Some n → 0 ≤ n < 100000.

(** The record [serialize_packets_to_json] writes for a packet. *)
Definition snapshot_of (p : Packet) : value :=
  VDict [ ("index", VInt (index p));
          ("direction", VStr (Direction_value (direction p)));
          ("payload_len", VInt (payload_len p));
          ("msg_type", VStr (msg_type p));
          ("seq_no", match seq_no p with Some n => VInt n | None => VNone end);
          ("dropped", VBool (dropped p)) ].

(** ** The loop rule *)

Lemma bind_Ret {A B} (m : M A) (f : A → M B) h a h' :
  m h = Ret a h' → (m ≫= f) h = f a h'.
Proof. intros E. unfold mbind, M_bind. by rewrite E. Qed.

Lemma bind_Raise {A B} (m : M A) (f : A → M B) h e h' :
  m h = Raise e h' → (m ≫= f) h = Raise e h'.
Proof. intros E. unfold mbind, M_bind. by rewrite E. Qed.

Lemma load_Ret h l p : h !! l = Some p → load l h = Ret p h.
Proof. intros E. unfold load. by rewrite E. Qed.

Lemma for_app {A S} (xs ys : list A) (body : S → A → M S) s h :
  for_ (xs ++ ys) body s h =
  match for_ xs body s h with
  | Ret s' h' => for_ ys body s' h'
  | Raise e h' => Raise e h'
  | Stuck => Stuck
  end.
Proof.
  revert s h. induction xs as [|x xs IH]; intros s h; [done|].
  simpl. unfold mbind, M_bind. destruct (body s x h); auto.
Qed.

(** An invariant [P i s h] that holds before iteration [i] and is restored
    by every iteration holds when the loop ends, and the loop returns. *)
Lemma for_rule {A St} (P : nat → St → heap → Prop) (xs : list A)
    (body : St → A → M St) s h :
  P 0%nat s h →
  (∀ i x s h, xs !! i = Some x → P i s h →
     ∃ s' h', body s x h = Ret s' h' ∧ P (S i) s' h') →
  ∃ s' h', for_ xs body s h = Ret s' h' ∧ P (length xs) s' h'.
Proof.
  revert P s h. induction xs as [|x xs IH]; intros P s h H0 Hstep.
  - exists s, h. done.
  - destruct (Hstep 0%nat x s h eq_refl H0) as (s1 & h1 & E1 & P1).
    destruct (IH (λ i, P (S i)) s1 h1 P1) as (s2 & h2 & E2 & P2).
    { intros i y s' h' Hy. apply (Hstep (S i)). done. }
    exists s2, h2. split; [|done].
    simpl. by rewrite (bind_Ret _ _ _ _ _ E1).
Qed.

(** ** The store only grows *)

Lemma points_to_length h ls ps : points_to h ls ps → length ls = length ps.
Proof. apply Forall2_length. Qed.

Lemma points_to_lookup h ls ps i l :
  points_to h ls ps → ls !! i = Some l → ∃ p, ps !! i = Some p ∧ h !! l = Some p.
Proof.
  intros H Hl. destruct (Forall2_lookup_l _ _ _ _ _ H Hl) as (p & ? & ?). eauto.
Qed.

Lemma points_to_app_store h h' ls ps :
  points_to h ls ps → points_to (h ++ h') ls ps.
Proof.
  unfold points_to. intros H. eapply Forall2_impl; [exact H|].
  intros l p E. by apply lookup_app_l_Some.
Qed.

Lemma points_to_fresh h news :
  points_to (h ++ news) (seq (length h) (length news)) news.
Proof.
  apply Forall2_same_length_lookup_2; [by rewrite length_seq|].
  intros i l p Hl Hp. apply lookup_seq in Hl as [-> ?].
  by rewrite lookup_app_r, Nat.add_comm, Nat.add_sub by lia.
Qed.

Lemma points_to_inj h ls ps qs : points_to h ls ps → points_to h ls qs → ps = qs.
Proof.
  unfold points_to. intros H. revert qs.
  induction H as [|l p ls ps E _ IH]; intros qs Hq; inversion Hq; subst; [done|].
  f_equal; [congruence | by apply IH].
Qed.

Lemma fresh_for_seq h n : fresh_for h (seq (length h) n).
Proof. apply Forall_forall. intros l Hl%elem_of_seq. lia. Qed.

Lemma insert_last (h : heap) p q : <[length h := q]> (h ++ [p]) = h ++ [q].
Proof.
  rewrite insert_app_r_alt by lia. by rewrite Nat.sub_diag.
Qed.

Lemma lookup_last (h : heap) p : (h ++ [p]) !! length h = Some p.
Proof. by rewrite lookup_app_r, Nat.sub_diag by lia. Qed.

(** ** Ranks *)

Lemma rank_0 ps d : rank ps 0 d = 0.
Proof. done. Qed.

Lemma rank_S ps i p d :
  ps !! i = Some p →
  rank ps (S i) d = rank ps i d + (if decide (direction p = d) then 1 else 0).
Proof.
  intros Hp. unfold rank. rewrite (take_S_r _ _ _ Hp), filter_app, length_app.
  rewrite filter_cons, filter_nil. destruct (decide (direction p = d)); simpl; lia.
Qed.

Lemma rank_all ps i d :
  (length ps ≤ i)%nat → rank ps i d = Z.of_nat (length (of_direction d ps)).
Proof. intros H. unfold rank, of_direction. by rewrite take_ge. Qed.

Lemma rank_nonneg ps i d : 0 ≤ rank ps i d.
Proof. unfold rank. lia. Qed.

Lemma rank_take ps i j d : (j ≤ i)%nat → rank (take i ps) j d = rank ps j d.
Proof. intros H. unfold rank. by rewrite take_take, Nat.min_l. Qed.

Lemma rank_app_l ps qs j d : (j ≤ length ps)%nat → rank (ps ++ qs) j d = rank ps j d.
Proof. intros H. unfold rank. by rewrite take_app_le. Qed.

Lemma numbered_length ps : length (numbered ps) = length ps.
Proof. apply length_imap. Qed.

Lemma numbered_lookup ps i p :
  ps !! i = Some p →
  numbered ps !! i = Some (set_seq_no (Some (rank ps i (direction p))) p).
Proof. intros Hp. unfold numbered. by rewrite list_lookup_imap, Hp. Qed.

Lemma copy_eq p :
  mkPacket (index p) (direction p) (payload_len p) (msg_type p) (seq_no p)
    (dropped p) = p.
Proof. by destruct p. Qed.

(** ** What each transformation returns and how it leaves the store *)

Ltac step_load E := rewrite (bind_Ret _ _ _ _ _ (load_Ret _ _ _ E)).

Lemma compute_sequence_numbers_ret h ls ps :
  points_to h ls ps →
  compute_sequence_numbers ls h =
    Ret (seq (length h) (length ls)) (h ++ numbered ps).
Proof.
  intros Hpt. unfold compute_sequence_numbers.
  pose (P := λ (i : nat) (st : Z * Z * list nat) (hc : list Packet),
    let '(c, s, res) := st in
    c = rank ps i CLIENT_TO_SERVER ∧ s = rank ps i SERVER_TO_CLIENT ∧
    res = seq (length h) i ∧ hc = h ++ take i (numbered ps)).
  match goal with
  | |- (for_ ?xs ?body ?s ≫= _) _ = _ =>
      destruct (for_rule P xs body s h) as (st & h' & E & HP)
  end.
  - unfold P. by rewrite take_0, app_nil_r.
  - intros i l [[c s] res] hc Hl (-> & -> & -> & ->).
    destruct (points_to_lookup _ _ _ _ _ Hpt Hl) as (p & Hp & Hh).
    assert (Hi : (i < length ps)%nat) by (by eapply lookup_lt_Some).
    assert (Hlen : length (h ++ take i (numbered ps)) = (length h + i)%nat).
    { rewrite length_app, length_take, numbered_length. lia. }
    step_load (lookup_app_l_Some _ (take i (numbered ps)) _ _ Hh).
    unfold alloc at 1. unfold mbind at 1, M_bind at 1. rewrite copy_eq.
    step_load (lookup_last (h ++ take i (numbered ps)) p).
    unfold P. rewrite (rank_S _ _ _ CLIENT_TO_SERVER Hp),
      (rank_S _ _ _ SERVER_TO_CLIENT Hp).
    rewrite (take_S_r _ _ _ (numbered_lookup _ _ _ Hp)), seq_S, Hlen.
    destruct (direction p) eqn:Hd; simpl;
      unfold store, mbind, M_bind; rewrite <- Hlen, lookup_last, insert_last;
      eexists _, _; (split; [reflexivity|]);
      rewrite <- app_assoc; repeat split; lia.
  - rewrite (bind_Ret _ _ _ _ _ E). destruct st as [[c s] res].
    destruct HP as (_ & _ & -> & ->).
    rewrite take_ge; [done|].
    rewrite numbered_length, (points_to_length _ _ _ Hpt). lia.
Qed.

(** A loop that only reads the packets folds over their values and leaves
    the store as it was. *)
Lemma for_fold {St} (f : St → nat → Packet → St) (body : St → nat → M St)
    h ls ps s :
  (∀ s l p, h !! l = Some p → body s l h = Ret (f s l p) h) →
  points_to h ls ps →
  for_ ls body s h = Ret (foldl (λ s lp, f s lp.1 lp.2) s (zip ls ps)) h.
Proof.
  intros Hbody Hpt. revert s.
  induction Hpt as [|l p ls ps E _ IH]; intros s; [done|].
  simpl. rewrite (bind_Ret _ _ _ _ _ (Hbody s l p E)). apply IH.
Qed.

Lemma foldl_collect {A B} (g : A → list B) (xs : list A) (acc : list B) :
  foldl (λ acc x, acc ++ g x) acc xs = acc ++ (xs ≫= g).
Proof.
  revert acc. induction xs as [|x xs IH]; intros acc; simpl.
  - by rewrite app_nil_r.
  - by rewrite IH, app_assoc.
Qed.

Lemma zip_snd_bind {A B C} (g : B → list C) (xs : list A) (ys : list B) :
  length xs = length ys →
  (zip xs ys ≫= λ xy, g xy.2) = (ys ≫= g).
Proof.
  revert ys. induction xs as [|x xs IH]; intros [|y ys] Hlen; simplify_eq/=; [done|].
  by rewrite IH.
Qed.

Lemma bind_singleton {A B} (g : A → B) (xs : list A) :
  (xs ≫= λ x, [g x]) = g <$> xs.
Proof. induction xs as [|x xs IH]; [done|]. simpl. by f_equal. Qed.

Lemma apply_drop_indices_ret h ls ps D :
  points_to h ls ps →
  apply_drop_indices ls D h =
    Ret (seq (length h) (length ls)) (h ++ marked D ps).
Proof.
  intros Hpt. unfold apply_drop_indices.
  pose (P := λ (i : nat) (res : list nat) (hc : list Packet),
    res = seq (length h) i ∧ hc = h ++ take i (marked D ps)).
  match goal with
  | |- for_ ?xs ?body ?s _ = _ =>
      destruct (for_rule P xs body s h) as (res & h' & E & HP)
  end.
  - unfold P. by rewrite take_0, app_nil_r.
  - intros i l res hc Hl (-> & ->).
    destruct (points_to_lookup _ _ _ _ _ Hpt Hl) as (p & Hp & Hh).
    assert (Hi : (i < length ps)%nat) by (by eapply lookup_lt_Some).
    assert (Hlen : length (h ++ take i (marked D ps)) = (length h + i)%nat).
    { unfold marked. rewrite length_app, length_take, length_fmap. lia. }
    assert (Hm : marked D ps !! i =
      Some (if decide (index p ∈ D) then set_dropped true p else p)).
    { unfold marked. by rewrite list_lookup_fmap, Hp. }
    step_load (lookup_app_l_Some _ (take i (marked D ps)) _ _ Hh).
    unfold alloc at 1. unfold mbind at 1, M_bind at 1. rewrite copy_eq.
    step_load (lookup_last (h ++ take i (marked D ps)) p).
    unfold P. rewrite (take_S_r _ _ _ Hm), seq_S, Hlen.
    destruct (decide (index p ∈ D)) as [Hin|Hin].
    + rewrite decide_True by (by apply elem_of_list_to_set).
      unfold store, mbind, M_bind. rewrite <- Hlen, lookup_last, insert_last.
      eexists _, _. split; [reflexivity|]. by rewrite <- app_assoc.
    + rewrite decide_False by (by rewrite elem_of_list_to_set).
      eexists _, _. split; [reflexivity|]. by rewrite <- app_assoc.
  - rewrite E. destruct HP as (-> & ->).
    rewrite take_ge; [done|].
    unfold marked. rewrite length_fmap, (points_to_length _ _ _ Hpt). lia.
Qed.

Lemma filter_visible_packets_ret h ls ps :
  points_to h ls ps →
  filter_visible_packets ls h = Ret (visible_locs ls ps) h.
Proof.
  intros Hpt. unfold filter_visible_packets.
  rewrite (for_fold (λ acc l p, acc ++ if negb (dropped p) then [l] else [])
             _ h ls ps); [|by intros acc l p E; step_load E;
                            destruct (dropped p); simpl; rewrite ?app_nil_r|done].
  by rewrite (foldl_collect (λ lp, if negb (dropped lp.2) then [lp.1] else [])).
Qed.

Lemma points_to_visible h ls ps :
  points_to h ls ps → points_to h (visible_locs ls ps) (visible ps).
Proof.
  unfold visible_locs, visible.
  induction 1 as [|l p ls ps E _ IH]; [constructor|].
  simpl. rewrite filter_cons. destruct (dropped p); simpl.
  - exact IH.
  - by constructor.
Qed.

Lemma visible_locs_all ls ps :
  length ls = length ps → Forall (λ p, dropped p = false) ps →
  visible_locs ls ps = ls.
Proof.
  unfold visible_locs. intros Hlen Hall. revert ls Hlen.
  induction Hall as [|p ps Hp _ IH]; intros [|l ls] Hlen; simplify_eq/=; [done|].
  rewrite Hp. simpl. by rewrite IH.
Qed.

Lemma base_seq_by_index_ret h ls ps :
  points_to h ls ps → base_seq_by_index ls h = Ret (seq_by_index ps) h.
Proof.
  intros Hpt. unfold base_seq_by_index.
  rewrite (for_fold
    (λ m _ p, match seq_no p with Some s => <[index p := s]> m | None => m end)
    _ h ls ps); [|by intros m l p E; step_load E|done].
  f_equal. unfold seq_by_index. generalize (∅ : gmap Z Z).
  induction Hpt as [|l p ls ps _ _ IH]; intros m; [done|]. simpl. apply IH.
Qed.

Lemma build_diff_ret h baseline bs after_attack ps :
  points_to h baseline bs → points_to h after_attack ps →
  build_diff baseline after_attack h = Ret (row_of (seq_by_index bs) <$> ps) h.
Proof.
  intros Hb Ha. unfold build_diff.
  rewrite (bind_Ret _ _ _ _ _ (base_seq_by_index_ret _ _ _ Hb)).
  rewrite (for_fold (λ acc _ p, acc ++ [row_of (seq_by_index bs) p])
             _ h after_attack ps); [|by intros acc l p E; step_load E|done].
  rewrite (foldl_collect (λ lp, [row_of (seq_by_index bs) lp.2])).
  rewrite (zip_snd_bind (λ p, [row_of (seq_by_index bs) p]))
    by (by eapply points_to_length).
  by rewrite bind_singleton.
Qed.

Lemma print_sequence_diff_ret h baseline bs after_attack ps :
  points_to h baseline bs → points_to h after_attack ps →
  print_sequence_diff baseline after_attack h =
    Ret (line_of (seq_by_index bs) <$> ps) h.
Proof.
  intros Hb Ha. unfold print_sequence_diff.
  rewrite (bind_Ret _ _ _ _ _ (base_seq_by_index_ret _ _ _ Hb)).
  rewrite (for_fold (λ acc _ p, acc ++ [line_of (seq_by_index bs) p])
             _ h after_attack ps); [|by intros acc l p E; step_load E|done].
  rewrite (foldl_collect (λ lp, [line_of (seq_by_index bs) lp.2])).
  rewrite (zip_snd_bind (λ p, [line_of (seq_by_index bs) p]))
    by (by eapply points_to_length).
  by rewrite bind_singleton.
Qed.

Lemma packets_to_dicts_ret h ls ps :
  points_to h ls ps → packets_to_dicts ls h = Ret ps h.
Proof.
  intros Hpt. unfold packets_to_dicts.
  rewrite (for_fold (λ acc _ p, acc ++ [p]) _ h ls ps);
    [|by intros acc l p E; step_load E|done].
  rewrite (foldl_collect (λ lp : nat * Packet, [lp.2])).
  rewrite (zip_snd_bind (λ p, [p])) by (by eapply points_to_length).
  by rewrite bind_singleton, list_fmap_id.
Qed.

Lemma client_indices_of_ret h ls ps :
  points_to h ls ps →
  client_indices_of ls h = Ret (index <$> of_direction CLIENT_TO_SERVER ps) h.
Proof.
  intros Hpt. unfold client_indices_of.
  rewrite (for_fold
    (λ acc _ p, acc ++ if decide (direction p = CLIENT_TO_SERVER)
                       then [index p] else [])
    _ h ls ps); [|by intros acc l p E; step_load E;
                   destruct (decide _); simpl; rewrite ?app_nil_r|done].
  rewrite (foldl_collect (λ lp : nat * Packet,
    if decide (direction lp.2 = CLIENT_TO_SERVER) then [index lp.2] else [])).
  simpl. f_equal. unfold of_direction.
  induction Hpt as [|l p ls ps _ _ IH]; [done|].
  simpl. rewrite filter_cons.
  destruct (decide _); simpl; [f_equal|]; exact IH.
Qed.

(** ** The loader *)

Section loader_facts.
Variable py_str : value → string.
Variable path : string.

Lemma records_packets_cons idx item raw :
  records_packets py_str path idx (item :: raw) =
  match record_packet py_str path idx item with
  | Ok p =>
      match records_packets py_str path (idx + 1) raw with
      | Ok ps => Ok (p :: ps)
      | Err e => Err e
      end
  | Err e => Err e
  end.
Proof. reflexivity. Qed.

Lemma load_loop (body : Z * list nat → value → M (Z * list nat)) :
  (∀ idx acc item h,
      body (idx, acc) item h =
      match record_packet py_str path idx item with
      | Ok p => Ret (idx + 1, acc ++ [length h]) (h ++ [p])
      | Err e => Raise e h
      end) →
  ∀ raw idx acc h,
    match records_packets py_str path idx raw with
    | Ok ps =>
        for_ raw body (idx, acc) h =
          Ret (idx + Z.of_nat (length raw), acc ++ seq (length h) (length raw))
              (h ++ ps)
    | Err e => ∃ h', for_ raw body (idx, acc) h = Raise e h'
    end.
Proof.
  intros Hbody. induction raw as [|item raw IH]; intros idx acc h.
  - simpl. by rewrite Z.add_0_r, !app_nil_r.
  - pose proof (Hbody idx acc item h) as Hb.
    rewrite records_packets_cons.
    destruct (record_packet py_str path idx item) as [p|e].
    + specialize (IH (idx + 1) (acc ++ [length h]) (h ++ [p])).
      destruct (records_packets py_str path (idx + 1) raw) as [ps|e].
      * simpl. rewrite (bind_Ret _ _ _ _ _ Hb), IH. f_equal.
        -- f_equal; [lia|]. rewrite <- app_assoc. simpl.
           by rewrite length_app, Nat.add_1_r.
        -- by rewrite <- app_assoc.
      * destruct IH as (h' & IH). exists h'. simpl.
        by rewrite (bind_Ret _ _ _ _ _ Hb).
    + exists h. simpl. by rewrite (bind_Raise _ _ _ _ _ Hb).
Qed.

Lemma load_packet_trace_outcome raw h :
  match records_packets py_str path 0 raw with
  | Ok ps =>
      load_packet_trace py_str path raw h =
        Ret (seq (length h) (length raw)) (h ++ ps)
  | Err e => ∃ h', load_packet_trace py_str path raw h = Raise e h'
  end.
Proof.
  unfold load_packet_trace.
  match goal with
  | |- context [for_ raw ?body _] =>
      pose proof (load_loop body) as Hloop
  end.
  lapply Hloop; clear Hloop.
  - intros Hloop. specialize (Hloop raw 0 [] h).
    destruct (records_packets py_str path 0 raw) as [ps|e].
    + by rewrite (bind_Ret _ _ _ _ _ Hloop).
    + destruct Hloop as (h' & E). exists h'. by rewrite (bind_Raise _ _ _ _ _ E).
  - intros idx acc item h0. unfold record_packet.
    unfold mbind, M_bind, result_bind, fmap, result_fmap, lift, raise, mret,
      M_ret, alloc.
    destruct (subscript item "direction") as [ds|e]; [|done].
    destruct (Direction_of_value ds) as [d|]; [|done].
    destruct (subscript item "payload_len") as [pl|e]; [|done].
    destruct (int_ pl) as [n|e]; [|done].
    by destruct (subscript item "msg_type") as [mt|e].
Qed.

Lemma records_packets_length raw idx ps :
  records_packets py_str path idx raw = Ok ps → length ps = length raw.
Proof.
  revert idx ps. induction raw as [|item raw IH]; intros idx ps; simpl.
  - by intros [= <-].
  - unfold mbind, result_bind.
    destruct (record_packet py_str path idx item) as [p|e]; [|done].
    destruct (records_packets py_str path (idx + 1) raw) as [ps'|e] eqn:E; [|done].
    intros [= <-]. simpl. f_equal. by eapply IH.
Qed.

Lemma record_packet_fields idx item p :
  record_packet py_str path idx item = Ok p →
  index p = idx ∧ seq_no p = None ∧ dropped p = false.
Proof.
  unfold record_packet, mbind, result_bind, fmap, result_fmap.
  destruct (subscript item "direction") as [ds|e]; [|done].
  destruct (Direction_of_value ds) as [d|]; [|done].
  destruct (subscript item "payload_len") as [pl|e]; [|done].
  destruct (int_ pl) as [n|e]; [|done].
  destruct (subscript item "msg_type") as [mt|e]; [|done].
  by intros [= <-].
Qed.

Lemma records_packets_lookup raw idx ps j p :
  records_packets py_str path idx raw = Ok ps → ps !! j = Some p →
  ∃ item, raw !! j = Some item ∧
          record_packet py_str path (idx + Z.of_nat j) item = Ok p.
Proof.
  revert idx ps j. induction raw as [|item raw IH]; intros idx ps j; simpl.
  - by intros [= <-].
  - unfold mbind, result_bind.
    destruct (record_packet py_str path idx item) as [p0|e] eqn:E0; [|done].
    destruct (records_packets py_str path (idx + 1) raw) as [ps'|e] eqn:E; [|done].
    intros [= <-]. destruct j as [|j]; simpl.
    + intros [= <-]. exists item. by rewrite Z.add_0_r.
    + intros Hp. destruct (IH _ _ _ E Hp) as (it & ? & Hit).
      exists it. split; [done|]. rewrite <- Hit. f_equal. lia.
Qed.

Lemma records_packets_loaded raw ps :
  records_packets py_str path 0 raw = Ok ps → loaded_trace ps.
Proof.
  intros E j p Hp.
  destruct (records_packets_lookup _ _ _ _ _ E Hp) as (item & _ & Hitem).
  destruct (record_packet_fields _ _ _ Hitem) as (? & _ & ?). split; [lia|done].
Qed.
End loader_facts.

Lemma loaded_trace_baseline_input ps : loaded_trace ps → baseline_input ps.
Proof.
  intros Hl. split.
  - apply NoDup_alt. intros i j x Hi Hj.
    rewrite list_lookup_fmap in Hi, Hj.
    destruct (ps !! i) as [p|] eqn:Ep; [|done].
    destruct (ps !! j) as [q|] eqn:Eq; [|done].
    simpl in *. simplify_eq.
    destruct (Hl _ _ Ep) as [? _], (Hl _ _ Eq) as [? _]. lia.
  - apply Forall_forall. intros p [j Hj]%list_elem_of_lookup.
    by destruct (Hl _ _ Hj).
Qed.

(** ** Sequence numbers as ranks *)

Lemma set_seq_no_twice s s' p : set_seq_no s (set_seq_no s' p) = set_seq_no s p.
Proof. done. Qed.

Lemma rank_mono ps j1 j2 d : (j1 ≤ j2)%nat → rank ps j1 d ≤ rank ps j2 d.
Proof.
  intros H. unfold rank.
  rewrite <- (take_drop j1 (take j2 ps)), take_take.
  rewrite Nat.min_l by lia. rewrite filter_app, length_app. lia.
Qed.

Lemma rank_lt ps j1 j2 p d :
  ps !! j1 = Some p → direction p = d → (j1 < j2)%nat →
  rank ps j1 d < rank ps j2 d.
Proof.
  intros Hp Hd Hlt. pose proof (rank_mono ps (S j1) j2 d ltac:(lia)) as H.
  rewrite (rank_S _ _ _ d Hp), decide_True in H by done. lia.
Qed.

Lemma numbered_lookup_inv ps i q :
  numbered ps !! i = Some q →
  ∃ p, ps !! i = Some p ∧ q = set_seq_no (Some (rank ps i (direction p))) p.
Proof.
  unfold numbered. rewrite list_lookup_imap.
  destruct (ps !! i) as [p|]; [|done]. intros [= <-]. eauto.
Qed.

Lemma numbered_fmap {A} (f : Packet → A) ps :
  (∀ s p, f (set_seq_no s p) = f p) → f <$> numbered ps = f <$> ps.
Proof.
  intros Hf. apply list_eq. intros i. rewrite !list_lookup_fmap.
  destruct (ps !! i) as [p|] eqn:E.
  - rewrite (numbered_lookup _ _ _ E). simpl. by rewrite Hf.
  - apply lookup_ge_None in E.
    rewrite (proj2 (lookup_ge_None _ _)); [done|]. by rewrite numbered_length.
Qed.

Lemma filter_direction_length d (l : list Packet) :
  length (filter (λ q, direction q = d) l) =
  length (filter (λ x, x = d) (direction <$> l)).
Proof.
  induction l as [|p l IH]; [done|]. simpl. rewrite !filter_cons.
  destruct (decide (direction p = d)); simpl; by rewrite IH.
Qed.

Lemma rank_ext ps qs j d :
  direction <$> ps = direction <$> qs → rank ps j d = rank qs j d.
Proof.
  intros H. unfold rank. by rewrite !filter_direction_length, !fmap_take, H.
Qed.

Lemma rank_numbered ps j d : rank (numbered ps) j d = rank ps j d.
Proof. apply rank_ext. by apply numbered_fmap. Qed.

Lemma numbered_not_dropped ps :
  Forall (λ p, dropped p = false) ps → Forall (λ p, dropped p = false) (numbered ps).
Proof.
  rewrite !Forall_lookup. intros H i q Hq.
  apply numbered_lookup_inv in Hq as (p & Hp & ->). simpl. by eapply H.
Qed.

(** ** The visible trace after a drop *)

Lemma visible_marked D bs :
  Forall (λ p, dropped p = false) bs →
  visible (marked D bs) = filter (λ p, index p ∉ D) bs.
Proof.
  unfold visible, marked. induction 1 as [|b bs Hb _ IH]; [done|].
  rewrite fmap_cons, !filter_cons, IH.
  destruct (decide (index b ∈ D)) as [Hin|Hin].
  - rewrite decide_False by done. by rewrite decide_False by (by intros ?).
  - by rewrite !decide_True by done.
Qed.

Lemma filter_lookup_inv {A} (P : A → Prop) `{∀ x, Decision (P x)}
    (l : list A) k x :
  filter P l !! k = Some x →
  ∃ j, l !! j = Some x ∧ P x ∧ take k (filter P l) = filter P (take j l).
Proof.
  revert k. induction l as [|y l IH]; intros k; [done|].
  rewrite filter_cons. destruct (decide (P y)) as [Hy|Hy].
  - destruct k as [|k]; simpl.
    + intros [= ->]. exists 0%nat. done.
    + intros Hk. destruct (IH _ Hk) as (j & Hj & Hx & Ht).
      exists (S j). simpl. rewrite filter_cons, decide_True by done.
      by rewrite Ht.
  - intros Hk. destruct (IH _ Hk) as (j & Hj & Hx & Ht).
    exists (S j). simpl. by rewrite filter_cons, decide_False by done.
Qed.

Lemma filter_split_length {A} (P Q R : A → Prop) `{∀ x, Decision (P x)}
    `{∀ x, Decision (Q x)} `{∀ x, Decision (R x)} (l : list A) :
  (∀ x, R x ↔ Q x ∧ ¬ P x) →
  length (filter Q l) =
  (length (filter Q (filter P l)) + length (filter R l))%nat.
Proof.
  intros HR. induction l as [|x l IH]; [done|].
  rewrite !filter_cons. specialize (HR x).
  destruct (decide (Q x)), (decide (P x)), (decide (R x)); simpl;
    rewrite ?filter_cons; repeat case_decide; simpl; try tauto; lia.
Qed.

Lemma filter_length_rel {A B} (R : A → B → Prop) (P1 : A → Prop)
    (P2 : B → Prop) `{∀ x, Decision (P1 x)} `{∀ y, Decision (P2 y)} l1 l2 :
  Forall2 R l1 l2 → (∀ x y, R x y → (P1 x ↔ P2 y)) →
  length (filter P1 l1) = length (filter P2 l2).
Proof.
  intros HF HR. induction HF as [|x y l1 l2 Hxy _ IH]; [done|].
  rewrite !filter_cons. specialize (HR _ _ Hxy).
  destruct (decide (P1 x)), (decide (P2 y)); simpl; try tauto; lia.
Qed.

Lemma numbered_rel ps : Forall2 (λ q p, ∃ s, q = set_seq_no s p) (numbered ps) ps.
Proof.
  apply Forall2_same_length_lookup_2; [apply numbered_length|].
  intros i q p Hq Hp. rewrite (numbered_lookup _ _ _ Hp) in Hq.
  injection Hq as <-. eauto.
Qed.

Lemma after_drop_lookup D ps k a :
  Forall (λ p, dropped p = false) ps →
  numbered (visible (marked D (numbered ps))) !! k = Some a →
  ∃ j p, ps !! j = Some p ∧ (index p ∉ D) ∧
    a = set_seq_no
          (Some (rank ps j (direction p) - dropped_before D ps j (direction p))) p.
Proof.
  intros Hnd Ha.
  rewrite visible_marked in Ha by (by apply numbered_not_dropped).
  apply numbered_lookup_inv in Ha as (q & Hq & ->).
  apply filter_lookup_inv in Hq as (j & Hj & Hq & Ht).
  apply numbered_lookup_inv in Hj as (p & Hp & ->).
  exists j, p. split; [done|]. split; [done|].
  rewrite set_seq_no_twice. simpl. do 2 f_equal.
  unfold rank at 1. rewrite Ht.
  pose proof (filter_split_length (λ q, index q ∉ D)
    (λ q, direction q = direction p)
    (λ q, direction q = direction p ∧ index q ∈ D) (take j (numbered ps))) as Hs.
  rewrite <- (rank_numbered ps j). unfold rank, dropped_before.
  rewrite Hs.
  - rewrite (filter_length_rel (λ q p, ∃ s, q = set_seq_no s p)
      (λ q, direction q = direction p ∧ index q ∈ D)
      (λ q, direction q = direction p ∧ index q ∈ D)
      (take j (numbered ps)) (take j ps)); [lia| |].
    + apply Forall2_take, numbered_rel.
    + by intros x y [s ->].
  - intros x. split; [intros [? ?]; split; [done|by intros ?]|].
    intros [? Hn]. split; [done|]. by destruct (decide (index x ∈ D)).
Qed.

Lemma after_drop_indices D ps :
  Forall (λ p, dropped p = false) ps →
  index <$> numbered (visible (marked D (numbered ps))) =
  filter (λ i, i ∉ D) (index <$> ps).
Proof.
  intros Hnd.
  rewrite visible_marked by (by apply numbered_not_dropped).
  rewrite numbered_fmap by done.
  rewrite <- (numbered_fmap index ps) by done.
  induction (numbered ps) as [|q qs IH]; [done|].
  rewrite fmap_cons, !filter_cons. case_decide; [rewrite fmap_cons|]; by rewrite IH.
Qed.

(** ** The sequence numbers of each direction *)

Lemma numbered_snoc ps p :
  numbered (ps ++ [p]) =
  numbered ps ++ [set_seq_no (Some (rank ps (length ps) (direction p))) p].
Proof.
  unfold numbered. rewrite imap_app. simpl. f_equal.
  - apply imap_ext. intros i x Hx. do 2 f_equal.
    apply rank_app_l. apply lookup_lt_Some in Hx. lia.
  - rewrite Nat.add_0_r. do 3 f_equal. by apply rank_app_l.
Qed.

Lemma numbered_of_direction d ps :
  seq_no <$> of_direction d (numbered ps) =
  Some <$> seqZ 0 (Z.of_nat (length (of_direction d ps))).
Proof.
  induction ps as [|p ps IH] using rev_ind; [done|].
  rewrite numbered_snoc. unfold of_direction in *.
  rewrite !filter_app, fmap_app, IH, !filter_cons, !filter_nil. simpl.
  destruct (decide (direction p = d)) as [<-|Hd].
  - rewrite length_app. simpl. rewrite Nat.add_1_r, seqZ_S, fmap_app. simpl.
    do 3 f_equal. unfold rank. by rewrite firstn_all.
  - by rewrite !app_nil_r.
Qed.

Lemma numbered_direction_count d ps :
  length (of_direction d (numbered ps)) = length (of_direction d ps).
Proof.
  unfold of_direction.
  apply (filter_length_rel (λ q p, ∃ s, q = set_seq_no s p));
    [apply numbered_rel|]. by intros x y [s ->].
Qed.

(** [C1] [compute_sequence_numbers] returns, for any packets, a list of
    new packet objects of the same length and in the same order, leaving
    the given objects as they were; the packet at each position is the
    given one with [seq_no] replaced by its 0-based rank among the packets
    of its direction up to and including itself.  Hence, for each
    direction, the sequence numbers read in trace order are [0..k-1] with
    [k] the number of given packets of that direction, and every packet
    present, dropped or not, advances the counter of its direction. *)
Theorem compute_sequence_numbers_ranks h packets ps :
  points_to h packets ps →
  ∃ result h' qs,
    compute_sequence_numbers packets h = Ret result h' ∧
    points_to h' result qs ∧
    length result = length packets ∧
    fresh_for h result ∧ NoDup result ∧
    points_to h' packets ps ∧
    (∀ i p, ps !! i = Some p →
       qs !! i = Some (set_seq_no (Some (rank ps i (direction p))) p)) ∧
    (∀ d, length (of_direction d qs) = length (of_direction d ps) ∧
          seq_no <$> of_direction d qs =
            Some <$> seqZ 0 (Z.of_nat (length (of_direction d ps)))) ∧
    (∀ i p, ps !! i = Some p →
       rank ps (S i) (direction p) = rank ps i (direction p) + 1).
Proof.
  intros Hpt. exists (seq (length h) (length packets)), (h ++ numbered ps), (numbered ps).
  split; [by apply compute_sequence_numbers_ret|].
  split.
  { rewrite (points_to_length _ _ _ Hpt), <- (numbered_length ps).
    apply points_to_fresh. }
  split; [by rewrite length_seq|].
  split; [apply fresh_for_seq|].
  split; [apply NoDup_seq|].
  split; [by apply points_to_app_store|].
  split; [apply numbered_lookup|].
  split.
  - intros d. split; [apply numbered_direction_count|apply numbered_of_direction].
  - intros i p Hp. rewrite (rank_S _ _ _ _ Hp). by rewrite decide_True.
Qed.

Lemma points_to_self (ps : list Packet) : points_to ps (seq 0 (length ps)) ps.
Proof. apply (points_to_fresh [] ps). Qed.

Lemma compute_sequence_numbers_ranks_witness :
  points_to sample_packets sample_refs sample_packets ∧
  ∃ result h' qs,
    compute_sequence_numbers sample_refs sample_packets = Ret result h' ∧
    points_to h' result qs ∧
    length result = length sample_refs ∧
    fresh_for sample_packets result ∧ NoDup result ∧
    points_to h' sample_refs sample_packets ∧
    (∀ i p, sample_packets !! i = Some p →
       qs !! i = Some (set_seq_no (Some (rank sample_packets i (direction p))) p)) ∧
    (∀ d, length (of_direction d qs) = length (of_direction d sample_packets) ∧
          seq_no <$> of_direction d qs =
            Some <$> seqZ 0 (Z.of_nat (length (of_direction d sample_packets)))) ∧
    (∀ i p, sample_packets !! i = Some p →
       rank sample_packets (S i) (direction p) =
       rank sample_packets i (direction p) + 1).
Proof.
  split; [apply points_to_self|].
  apply (compute_sequence_numbers_ranks sample_packets sample_refs sample_packets).
  apply points_to_self.
Defined.


(** ** The drop simulator *)

Lemma marked_lookup D ps i p :
  ps !! i = Some p →
  marked D ps !! i = Some (if decide (index p ∈ D) then set_dropped true p else p).
Proof. intros Hp. unfold marked. by rewrite list_lookup_fmap, Hp. Qed.

Lemma marked_length D ps : length (marked D ps) = length ps.
Proof. unfold marked. by rewrite length_fmap. Qed.

Lemma marked_ext D D' ps :
  (∀ p, p ∈ ps → index p ∈ D ↔ index p ∈ D') → marked D ps = marked D' ps.
Proof.
  intros H. unfold marked. apply list_fmap_ext. intros i p Hp.
  specialize (H p (list_elem_of_lookup_2 _ _ _ Hp)).
  destruct (decide (index p ∈ D)), (decide (index p ∈ D')); tauto.
Qed.

(** [C5] [apply_drop_indices] returns, for any packets and any target
    indices, a list of new packet objects of the same length and order,
    leaving the given objects as they were: a packet whose index is among
    the targets is copied with [dropped = true] and its other five
    attributes unchanged, any other packet is copied unchanged.  No target
    list makes it raise, and two target lists that contain the same indices
    of the trace (whatever indices of no packet and whatever repetitions
    they contain besides) give the same result. *)
Theorem apply_drop_indices_marks h packets ps drop_indices :
  points_to h packets ps →
  ∃ result h' qs,
    apply_drop_indices packets drop_indices h = Ret result h' ∧
    points_to h' result qs ∧
    length result = length packets ∧
    fresh_for h result ∧ NoDup result ∧
    points_to h' packets ps ∧
    (∀ i p, ps !! i = Some p →
       ∃ q, qs !! i = Some q ∧
         index q = index p ∧ direction q = direction p ∧
         payload_len q = payload_len p ∧ msg_type q = msg_type p ∧
         seq_no q = seq_no p ∧
         (index p ∈ drop_indices → dropped q = true) ∧
         (index p ∉ drop_indices → q = p)) ∧
    (∀ drop_indices',
       (∀ p, p ∈ ps → index p ∈ drop_indices ↔ index p ∈ drop_indices') →
       apply_drop_indices packets drop_indices' h = Ret result h').
Proof.
  intros Hpt.
  exists (seq (length h) (length packets)), (h ++ marked drop_indices ps),
    (marked drop_indices ps).
  split; [by apply apply_drop_indices_ret|].
  split.
  { rewrite (points_to_length _ _ _ Hpt), <- (marked_length drop_indices ps).
    apply points_to_fresh. }
  split; [by rewrite length_seq|].
  split; [apply fresh_for_seq|].
  split; [apply NoDup_seq|].
  split; [by apply points_to_app_store|].
  split.
  - intros i p Hp. rewrite (marked_lookup _ _ _ _ Hp).
    destruct (decide (index p ∈ drop_indices)); eexists; (split; [done|]);
      by repeat split.
  - intros D' HD. rewrite (apply_drop_indices_ret _ _ _ _ Hpt).
    by rewrite (marked_ext _ _ _ HD).
Qed.

Lemma apply_drop_indices_marks_witness :
  points_to sample_packets sample_refs sample_packets ∧
  ∃ result h' qs,
    apply_drop_indices sample_refs [2; 2; 77] sample_packets = Ret result h' ∧
    points_to h' result qs ∧
    length result = length sample_refs ∧
    fresh_for sample_packets result ∧ NoDup result ∧
    points_to h' sample_refs sample_packets ∧
    (∀ i p, sample_packets !! i = Some p →
       ∃ q, qs !! i = Some q ∧
         index q = index p ∧ direction q = direction p ∧
         payload_len q = payload_len p ∧ msg_type q = msg_type p ∧
         seq_no q = seq_no p ∧
         (index p ∈ [2; 2; 77] → dropped q = true) ∧
         (index p ∉ [2; 2; 77] → q = p)) ∧
    (∀ drop_indices',
       (∀ p, p ∈ sample_packets → index p ∈ [2; 2; 77] ↔ index p ∈ drop_indices') →
       apply_drop_indices sample_refs drop_indices' sample_packets = Ret result h').
Proof.
  split; [apply points_to_self|].
  apply (apply_drop_indices_marks sample_packets sample_refs sample_packets).
  apply points_to_self.
Defined.

(** ** Filtering a trace without drops *)

(** [C4] On a trace in which no packet is marked as dropped,
    [filter_visible_packets] returns the given packets themselves, so
    that numbering the filtered trace gives what numbering the trace
    gives: the same packets, hence the same [seq_no] for every index. *)
Theorem filter_then_number_without_drops h packets ps :
  points_to h packets ps →
  Forall (λ p, dropped p = false) ps →
  ∃ direct h1 filtered h2 qs,
    compute_sequence_numbers packets h = Ret direct h1 ∧
    (visible ← filter_visible_packets packets;
     compute_sequence_numbers visible) h = Ret filtered h2 ∧
    points_to h1 direct qs ∧ points_to h2 filtered qs ∧
    filter_visible_packets packets h = Ret packets h.
Proof.
  intros Hpt Hnd.
  assert (Hf : filter_visible_packets packets h = Ret packets h).
  { rewrite (filter_visible_packets_ret _ _ _ Hpt).
    by rewrite (visible_locs_all _ _ (points_to_length _ _ _ Hpt) Hnd). }
  exists (seq (length h) (length packets)), (h ++ numbered ps),
    (seq (length h) (length packets)), (h ++ numbered ps), (numbered ps).
  rewrite (bind_Ret _ _ _ _ _ Hf), (compute_sequence_numbers_ret _ _ _ Hpt).
  repeat split; try done;
    rewrite (points_to_length _ _ _ Hpt), <- (numbered_length ps);
    apply points_to_fresh.
Qed.

Lemma sample_packets_not_dropped : Forall (λ p, dropped p = false) sample_packets.
Proof. by repeat constructor. Qed.

Lemma filter_then_number_without_drops_witness :
  points_to sample_packets sample_refs sample_packets ∧
  Forall (λ p, dropped p = false) sample_packets ∧
  ∃ direct h1 filtered h2 qs,
    compute_sequence_numbers sample_refs sample_packets = Ret direct h1 ∧
    (visible ← filter_visible_packets sample_refs;
     compute_sequence_numbers visible) sample_packets = Ret filtered h2 ∧
    points_to h1 direct qs ∧ points_to h2 filtered qs ∧
    filter_visible_packets sample_refs sample_packets = Ret sample_refs sample_packets.
Proof.
  split; [apply points_to_self|]. split; [apply sample_packets_not_dropped|].
  apply (filter_then_number_without_drops sample_packets sample_refs sample_packets).
  - apply points_to_self.
  - apply sample_packets_not_dropped.
Defined.


(** ** Dropping packets and numbering again *)

Lemma drop_stages h baseline bs D :
  points_to h baseline bs →
  ∃ attacked h1 vis after h2,
    apply_drop_indices baseline D h = Ret attacked h1 ∧
    filter_visible_packets attacked h1 = Ret vis h1 ∧
    compute_sequence_numbers vis h1 = Ret after h2 ∧
    points_to h2 after (numbered (visible (marked D bs))) ∧
    points_to h2 baseline bs ∧
    fresh_for h after.
Proof.
  intros Hb.
  pose proof (apply_drop_indices_ret _ _ _ D Hb) as E1.
  assert (Ha : points_to (h ++ marked D bs)
                 (seq (length h) (length baseline)) (marked D bs)).
  { rewrite (points_to_length _ _ _ Hb), <- (marked_length D bs).
    apply points_to_fresh. }
  pose proof (filter_visible_packets_ret _ _ _ Ha) as E2.
  pose proof (points_to_visible _ _ _ Ha) as Hv.
  pose proof (compute_sequence_numbers_ret _ _ _ Hv) as E3.
  eexists _, _, _, _, _. split; [exact E1|]. split; [exact E2|].
  split; [exact E3|]. split; [|split].
  - rewrite (points_to_length _ _ _ Hv),
      <- (numbered_length (visible (marked D bs))).
    apply points_to_fresh.
  - rewrite <- app_assoc. by apply points_to_app_store.
  - apply Forall_forall. intros l Hl%elem_of_seq.
    rewrite length_app in Hl. lia.
Qed.

Lemma drop_and_renumber_ret h baseline bs D :
  points_to h baseline bs →
  ∃ after h',
    drop_and_renumber baseline D h = Ret after h' ∧
    points_to h' after (numbered (visible (marked D bs))) ∧
    points_to h' baseline bs ∧
    fresh_for h after.
Proof.
  intros Hb.
  destruct (drop_stages _ _ _ D Hb) as (at_ & h1 & vis & after & h2 & E1 & E2 & E3 & H).
  exists after, h2. split; [|exact H].
  unfold drop_and_renumber.
  by rewrite (bind_Ret _ _ _ _ _ E1), (bind_Ret _ _ _ _ _ E2).
Qed.

Lemma index_lookup_inj ps j1 j2 p1 p2 :
  NoDup (index <$> ps) → ps !! j1 = Some p1 → ps !! j2 = Some p2 →
  index p1 = index p2 → j1 = j2.
Proof.
  intros Hnd H1 H2 Hi. apply (NoDup_lookup _ _ _ (index p1) Hnd).
  - by rewrite list_lookup_fmap, H1.
  - by rewrite list_lookup_fmap, H2, Hi.
Qed.

Lemma dropped_before_nonneg D ps j d : 0 ≤ dropped_before D ps j d.
Proof. unfold dropped_before. lia. Qed.

Lemma dropped_before_pos D ps j d :
  0 < dropped_before D ps j d ↔
  ∃ j' q, (j' < j)%nat ∧ ps !! j' = Some q ∧ direction q = d ∧ index q ∈ D.
Proof.
  unfold dropped_before.
  destruct (filter _ (take j ps)) as [|x l] eqn:E; simpl; split.
  - lia.
  - intros (j' & q & Hlt & Hq & Hd & Hin). exfalso.
    eapply (filter_nil_not_elem_of _ _ q E); [done|].
    apply elem_of_take. eauto.
  - intros _. assert (Hx : x ∈ x :: l) by left.
    rewrite <- E in Hx. apply list_elem_of_filter in Hx as [[Hd Hin] Hx].
    apply elem_of_take in Hx as (j' & Hj' & Hlt). eauto 10.
  - lia.
Qed.

Lemma dropped_before_single ps ji pi j d :
  NoDup (index <$> ps) → ps !! ji = Some pi →
  dropped_before [index pi] ps j d =
  if decide ((ji < j)%nat ∧ direction pi = d) then 1 else 0.
Proof.
  intros Hnd Hpi.
  assert (Hle : dropped_before [index pi] ps j d ≤ 1).
  { unfold dropped_before.
    set (l := filter _ (take j ps)).
    assert (Hl : NoDup (index <$> l)).
    { eapply sublist_NoDup; [exact Hnd|]. apply fmap_sublist.
      etrans; [apply sublist_filter|apply sublist_take]. }
    assert (Hall : ∀ x, x ∈ l → index x = index pi).
    { intros x [[_ Hx] _]%list_elem_of_filter. by apply list_elem_of_singleton in Hx. }
    destruct l as [|x [|y l]]; simpl; [lia..|]. exfalso.
    rewrite !fmap_cons in Hl. apply NoDup_cons in Hl as [Hl _]. apply Hl.
    rewrite (Hall x), <- (Hall y) by (repeat constructor). left. }
  pose proof (dropped_before_nonneg [index pi] ps j d).
  pose proof (dropped_before_pos [index pi] ps j d) as Hpos.
  destruct (decide _) as [[Hlt Hd]|Hn].
  - assert (0 < dropped_before [index pi] ps j d); [|lia].
    apply Hpos. exists ji, pi. repeat split; try done. by left.
  - destruct (decide (0 < dropped_before [index pi] ps j d)) as [Hp|]; [|lia].
    exfalso. apply Hpos in Hp as (j' & q & Hlt & Hq & Hd & Hin).
    apply list_elem_of_singleton in Hin.
    assert (j' = ji) as -> by (by eapply index_lookup_inj).
    simplify_eq. tauto.
Qed.

Lemma baseline_input_numbered ps : baseline_input ps → baseline_input (numbered ps).
Proof.
  intros [Hnd Hd]. split.
  - by rewrite numbered_fmap.
  - by apply numbered_not_dropped.
Qed.

(** [C2] Take a trace in which the index identifies the packet and no
    packet is marked as dropped, number it (the baseline), and drop the one
    index [i] of a packet [bi] of the baseline, filter and number again.
    The surviving packets are the baseline packets other than [bi], in
    order; a survivor of the other direction keeps its baseline sequence
    number, and a survivor of the direction of [bi] whose baseline rank is
    greater than that of [bi] has its sequence number decreased by 1. *)
Theorem single_drop_shift h packets ps i :
  points_to h packets ps →
  baseline_input ps →
  i ∈ index <$> ps →
  ∃ baseline h1 bs after h2 survivors bi ji ri,
    compute_sequence_numbers packets h = Ret baseline h1 ∧
    points_to h1 baseline bs ∧
    drop_and_renumber baseline [i] h1 = Ret after h2 ∧
    points_to h2 after survivors ∧
    points_to h2 baseline bs ∧
    NoDup (index <$> bs) ∧
    index <$> survivors = filter (λ j, j ∉ [i]) (index <$> bs) ∧
    bs !! ji = Some bi ∧ index bi = i ∧
    seq_no bi = Some ri ∧ ri = rank bs ji (direction bi) ∧
    ∀ a, a ∈ survivors →
      ∃ b j r,
        bs !! j = Some b ∧ index b = index a ∧ direction b = direction a ∧
        seq_no b = Some r ∧ r = rank bs j (direction b) ∧
        (direction b ≠ direction bi → seq_no a = Some r) ∧
        (direction b = direction bi → ri < r → seq_no a = Some (r - 1)).
Proof.
  intros Hpt [Hnd Hd] Hi.
  apply list_elem_of_fmap in Hi as (pi & -> & Hpi).
  apply list_elem_of_lookup in Hpi as (ji & Hpi).
  pose proof (compute_sequence_numbers_ret _ _ _ Hpt) as E1.
  assert (Hb : points_to (h ++ numbered ps) (seq (length h) (length packets))
                 (numbered ps)).
  { rewrite (points_to_length _ _ _ Hpt), <- (numbered_length ps).
    apply points_to_fresh. }
  destruct (drop_and_renumber_ret _ _ _ [index pi] Hb)
    as (after & h2 & E2 & Ha & Hb2 & _).
  eexists _, _, (numbered ps), after, h2, _,
    (set_seq_no (Some (rank ps ji (direction pi))) pi), ji, _.
  split; [exact E1|]. split; [exact Hb|]. split; [exact E2|].
  split; [exact Ha|]. split; [exact Hb2|].
  split; [by rewrite numbered_fmap|].
  split. { rewrite after_drop_indices by done. by rewrite numbered_fmap. }
  split; [by apply numbered_lookup|]. split; [done|]. split; [done|].
  split; [by rewrite rank_numbered|].
  intros a [k Hk]%list_elem_of_lookup.
  destruct (after_drop_lookup _ _ _ _ Hd Hk) as (j & p & Hp & Hni & ->).
  exists (set_seq_no (Some (rank ps j (direction p))) p), j,
    (rank ps j (direction p)).
  split; [by apply numbered_lookup|]. split; [done|]. split; [done|].
  split; [done|]. split; [by rewrite rank_numbered|].
  rewrite (dropped_before_single _ _ _ _ _ Hnd Hpi). simpl. split.
  - intros Hne. rewrite decide_False by (intros [_ ?]; congruence).
    by rewrite Z.sub_0_r.
  - intros He Hlt. rewrite decide_True; [done|]. split; [|done].
    destruct (decide (ji < j)%nat) as [|Hge]; [done|]. exfalso.
    pose proof (rank_mono ps j ji (direction p) ltac:(lia)). rewrite He in *. lia.
Qed.

Lemma sample_packets_loaded :
  records_packets (λ _, "") "sample_trace.json" 0 sample_records = Ok sample_packets.
Proof. reflexivity. Qed.

Lemma sample_packets_baseline_input : baseline_input sample_packets.
Proof.
  apply loaded_trace_baseline_input.
  exact (records_packets_loaded _ _ _ _ sample_packets_loaded).
Qed.

Lemma single_drop_shift_witness :
  points_to sample_packets sample_refs sample_packets ∧
  baseline_input sample_packets ∧
  2 ∈ index <$> sample_packets ∧
  ∃ baseline h1 bs after h2 survivors bi ji ri,
    compute_sequence_numbers sample_refs sample_packets = Ret baseline h1 ∧
    points_to h1 baseline bs ∧
    drop_and_renumber baseline [2] h1 = Ret after h2 ∧
    points_to h2 after survivors ∧
    points_to h2 baseline bs ∧
    NoDup (index <$> bs) ∧
    index <$> survivors = filter (λ j, j ∉ [2]) (index <$> bs) ∧
    bs !! ji = Some bi ∧ index bi = 2 ∧
    seq_no bi = Some ri ∧ ri = rank bs ji (direction bi) ∧
    ∀ a, a ∈ survivors →
      ∃ b j r,
        bs !! j = Some b ∧ index b = index a ∧ direction b = direction a ∧
        seq_no b = Some r ∧ r = rank bs j (direction b) ∧
        (direction b ≠ direction bi → seq_no a = Some r) ∧
        (direction b = direction bi → ri < r → seq_no a = Some (r - 1)).
Proof.
  assert (H2 : 2 ∈ index <$> sample_packets) by (do 2 right; left).
  split; [apply points_to_self|]. split; [apply sample_packets_baseline_input|].
  split; [exact H2|].
  apply (single_drop_shift sample_packets sample_refs sample_packets 2).
  - apply points_to_self.
  - apply sample_packets_baseline_input.
  - exact H2.
Defined.

(** ** The diff *)

Lemma seq_by_index_lookup bs i : seq_by_index bs !! i = baseline_seq bs i.
Proof.
  unfold seq_by_index, baseline_seq.
  induction bs as [|x bs IH] using rev_ind; [done|].
  rewrite foldl_snoc, omap_app, last_app. simpl.
  destruct (seq_no x) as [s|] eqn:Es.
  - destruct (decide (index x = i)) as [<-|Hne].
    + by rewrite lookup_insert_eq.
    + by rewrite lookup_insert_ne.
  - rewrite IH. by destruct (decide (index x = i)).
Qed.

Lemma omap_nil {A B} (f : A → option B) (l : list A) :
  (∀ x, x ∈ l → f x = None) → omap f l = [].
Proof.
  induction l as [|x l IH]; intros H; [done|]. simpl.
  rewrite (H x) by left. apply IH. intros y Hy. apply H. by right.
Qed.

Lemma baseline_seq_unique bs j b :
  NoDup (index <$> bs) → bs !! j = Some b → baseline_seq bs (index b) = seq_no b.
Proof.
  intros Hnd Hb. unfold baseline_seq.
  rewrite <- (take_drop_middle _ _ _ Hb), omap_app. simpl.
  rewrite decide_True by done.
  assert (Hother : ∀ x j', bs !! j' = Some x → j' ≠ j →
            (if decide (index x = index b) then seq_no x else None) = None).
  { intros x j' Hx Hne. rewrite decide_False; [done|].
    intros Hi. apply Hne. by eapply index_lookup_inj. }
  rewrite (omap_nil _ (take j bs)), (omap_nil _ (drop (S j) bs)).
  - by destruct (seq_no b).
  - intros x [k Hk]%list_elem_of_lookup. rewrite lookup_drop in Hk.
    eapply Hother; [exact Hk|lia].
  - intros x (k & Hk & Hlt)%elem_of_take. eapply Hother; [exact Hk|lia].
Qed.

Lemma row_changed_iff m a :
  changed (row_of m a) = true ↔
  ∃ x y, seq_before (row_of m a) = Some x ∧ seq_after (row_of m a) = Some y ∧ x ≠ y.
Proof.
  unfold row_of. simpl.
  destruct (m !! index a) as [x|], (seq_no a) as [y|]; split;
    try (by intros (? & ? & ? & ? & ?)); try done.
  - intros Hne%bool_decide_eq_true. eauto.
  - intros (? & ? & [= <-] & [= <-] & Hne). by apply bool_decide_eq_true.
Qed.

Lemma line_changed_iff m a :
  line_changed (line_of m a) = "yes" ↔ changed (row_of m a) = true.
Proof.
  unfold line_of, row_of. simpl.
  destruct (m !! index a) as [x|], (seq_no a) as [y|]; try done.
  destruct (decide (x ≠ y)).
  - by rewrite bool_decide_eq_true_2.
  - by rewrite bool_decide_eq_false_2.
Qed.

Lemma row_changed_after_drop D ps k a :
  baseline_input ps →
  numbered (visible (marked D (numbered ps))) !! k = Some a →
  ∃ j b,
    numbered ps !! j = Some b ∧ index b = index a ∧ direction b = direction a ∧
    (changed (row_of (seq_by_index (numbered ps)) a) = true ↔
     ∃ j' b', (j' < j)%nat ∧ numbered ps !! j' = Some b' ∧
              direction b' = direction b ∧ index b' ∈ D).
Proof.
  intros [Hnd Hd] Hk.
  destruct (after_drop_lookup _ _ _ _ Hd Hk) as (j & p & Hp & Hni & ->).
  pose proof (numbered_lookup _ _ _ Hp) as Hb.
  exists j, (set_seq_no (Some (rank ps j (direction p))) p).
  split; [done|]. split; [done|]. split; [done|].
  rewrite row_changed_iff. unfold row_of. simpl.
  rewrite seq_by_index_lookup.
  change (index p) with
    (index (set_seq_no (Some (rank ps j (direction p))) p)) at 1.
  rewrite (baseline_seq_unique _ _ _ ltac:(by rewrite numbered_fmap) Hb). simpl.
  pose proof (dropped_before_nonneg D ps j (direction p)).
  pose proof (dropped_before_pos D ps j (direction p)) as Hpos.
  split.
  - intros (x & y & [= <-] & [= <-] & Hne).
    destruct (proj1 Hpos ltac:(lia)) as (j' & q & Hlt & Hq & Hdq & Hin).
    exists j', (set_seq_no (Some (rank ps j' (direction q))) q).
    split; [done|]. split; [by apply numbered_lookup|]. done.
  - intros (j' & b' & Hlt & Hb' & Hdb & Hin).
    apply numbered_lookup_inv in Hb' as (q & Hq & ->).
    assert (0 < dropped_before D ps j (direction p)) by (apply Hpos; eauto 10).
    eexists _, _. split; [done|]. split; [done|]. lia.
Qed.

(** [C3] For any baseline trace and any trace compared with it,
    [build_diff] and [print_sequence_diff] return a row (a line) per packet
    of the compared trace and leave the store exactly as it was, so that
    neither trace is modified; the row carries the packet's own [seq_no],
    the baseline [seq_no] found under the packet's index, and a [changed]
    flag that is true (a marker that is ["yes"]) iff both are present and
    differ.  End to end, on a baseline trace in which the index identifies
    the packet and nothing is dropped yet, after dropping any list of
    indices, filtering and numbering again, the flag of a surviving packet
    is true iff a baseline packet of the same direction that comes earlier
    in the trace was dropped. *)
Theorem diff_changed_flag :
  (∀ h baseline bs after_attack ps,
     points_to h baseline bs → points_to h after_attack ps →
     ∃ rows lines,
       build_diff baseline after_attack h = Ret rows h ∧
       print_sequence_diff baseline after_attack h = Ret lines h ∧
       length rows = length ps ∧ length lines = length ps ∧
       ∀ k a, ps !! k = Some a →
         ∃ row line,
           rows !! k = Some row ∧ lines !! k = Some line ∧
           row_index row = index a ∧ line_index line = index a ∧
           seq_before row = baseline_seq bs (index a) ∧
           seq_after row = seq_no a ∧
           (changed row = true ↔
            ∃ x y, seq_before row = Some x ∧ seq_after row = Some y ∧ x ≠ y) ∧
           (line_changed line = "yes" ↔ changed row = true)) ∧
  (∀ h packets ps drop_indices,
     points_to h packets ps → baseline_input ps →
     ∃ baseline h1 bs after h2 survivors rows lines,
       compute_sequence_numbers packets h = Ret baseline h1 ∧
       points_to h1 baseline bs ∧
       drop_and_renumber baseline drop_indices h1 = Ret after h2 ∧
       points_to h2 after survivors ∧
       points_to h2 baseline bs ∧
       build_diff baseline after h2 = Ret rows h2 ∧
       print_sequence_diff baseline after h2 = Ret lines h2 ∧
       index <$> survivors = filter (λ j, j ∉ drop_indices) (index <$> bs) ∧
       ∀ k a, survivors !! k = Some a →
         ∃ row line j b,
           rows !! k = Some row ∧ lines !! k = Some line ∧
           row_index row = index a ∧
           bs !! j = Some b ∧ index b = index a ∧ direction b = direction a ∧
           (changed row = true ↔
            ∃ j' b', (j' < j)%nat ∧ bs !! j' = Some b' ∧
                     direction b' = direction b ∧ index b' ∈ drop_indices) ∧
           (line_changed line = "yes" ↔ changed row = true)).
Proof.
  split.
  - intros h baseline bs after_attack ps Hb Ha.
    exists (row_of (seq_by_index bs) <$> ps), (line_of (seq_by_index bs) <$> ps).
    split; [by apply build_diff_ret|].
    split; [by apply print_sequence_diff_ret|].
    rewrite !length_fmap. split; [done|]. split; [done|].
    intros k a Hk. exists (row_of (seq_by_index bs) a), (line_of (seq_by_index bs) a).
    rewrite !list_lookup_fmap, Hk. split; [done|]. split; [done|].
    split; [done|]. split; [done|].
    split; [apply seq_by_index_lookup|]. split; [done|].
    split; [apply row_changed_iff|apply line_changed_iff].
  - intros h packets ps D Hpt Hin.
    pose proof (compute_sequence_numbers_ret _ _ _ Hpt) as E1.
    assert (Hb : points_to (h ++ numbered ps) (seq (length h) (length packets))
                   (numbered ps)).
    { rewrite (points_to_length _ _ _ Hpt), <- (numbered_length ps).
      apply points_to_fresh. }
    destruct (drop_and_renumber_ret _ _ _ D Hb) as (after & h2 & E2 & Ha & Hb2 & _).
    eexists _, _, (numbered ps), after, h2, _,
      (row_of (seq_by_index (numbered ps)) <$> _),
      (line_of (seq_by_index (numbered ps)) <$> _).
    split; [exact E1|]. split; [exact Hb|]. split; [exact E2|].
    split; [exact Ha|]. split; [exact Hb2|].
    split; [by apply build_diff_ret|].
    split; [by apply print_sequence_diff_ret|].
    split.
    { rewrite after_drop_indices by apply Hin. by rewrite numbered_fmap. }
    intros k a Hk.
    destruct (row_changed_after_drop _ _ _ _ Hin Hk) as (j & b & Hj & Hi & Hd & Hc).
    exists (row_of (seq_by_index (numbered ps)) a),
      (line_of (seq_by_index (numbered ps)) a), j, b.
    rewrite !list_lookup_fmap, Hk.
    split; [done|]. split; [done|]. split; [done|]. split; [done|].
    split; [done|]. split; [done|]. split; [exact Hc|apply line_changed_iff].
Qed.

Lemma diff_changed_flag_witness :
  (points_to sample_packets sample_refs sample_packets ∧
   ∃ rows lines,
     build_diff sample_refs sample_refs sample_packets = Ret rows sample_packets ∧
     print_sequence_diff sample_refs sample_refs sample_packets =
       Ret lines sample_packets ∧
     length rows = length sample_packets ∧ length lines = length sample_packets ∧
     ∀ k a, sample_packets !! k = Some a →
       ∃ row line,
         rows !! k = Some row ∧ lines !! k = Some line ∧
         row_index row = index a ∧ line_index line = index a ∧
         seq_before row = baseline_seq sample_packets (index a) ∧
         seq_after row = seq_no a ∧
         (changed row = true ↔
          ∃ x y, seq_before row = Some x ∧ seq_after row = Some y ∧ x ≠ y) ∧
         (line_changed line = "yes" ↔ changed row = true)) ∧
  (baseline_input sample_packets ∧
   ∃ baseline h1 bs after h2 survivors rows lines,
     compute_sequence_numbers sample_refs sample_packets = Ret baseline h1 ∧
     points_to h1 baseline bs ∧
     drop_and_renumber baseline [2; 5] h1 = Ret after h2 ∧
     points_to h2 after survivors ∧
     points_to h2 baseline bs ∧
     build_diff baseline after h2 = Ret rows h2 ∧
     print_sequence_diff baseline after h2 = Ret lines h2 ∧
     index <$> survivors = filter (λ j, j ∉ [2; 5]) (index <$> bs) ∧
     ∀ k a, survivors !! k = Some a →
       ∃ row line j b,
         rows !! k = Some row ∧ lines !! k = Some line ∧
         row_index row = index a ∧
         bs !! j = Some b ∧ index b = index a ∧ direction b = direction a ∧
         (changed row = true ↔
          ∃ j' b', (j' < j)%nat ∧ bs !! j' = Some b' ∧
                   direction b' = direction b ∧ index b' ∈ [2; 5]) ∧
         (line_changed line = "yes" ↔ changed row = true)).
Proof.
  split.
  - split; [apply points_to_self|].
    apply (proj1 diff_changed_flag sample_packets sample_refs sample_packets
             sample_refs sample_packets); apply points_to_self.
  - split; [apply sample_packets_baseline_input|].
    apply (proj2 diff_changed_flag sample_packets sample_refs sample_packets [2; 5]).
    + apply points_to_self.
    + apply sample_packets_baseline_input.
Defined.

(** ** The drop-set selector *)

Lemma get_present d k v default : dict_get d k = Some v → get_ d k default = v.
Proof. intros E. unfold get_. by rewrite E. Qed.

Lemma get_absent d k default : dict_get d k = None → get_ d k default = default.
Proof. intros E. unfold get_. by rewrite E. Qed.

(** The resolution of the top-level [drop_indices] key. *)
Lemma select_drop_indices_top_level config :
  (is_dict (get_ config "profiles" VNone)
   && is_str (get_ config "active_profile" VNone) = false) →
  select_drop_indices config =
  match get_ config "drop_indices" (VList []) with
  | VList l => ns ← ints l; Ok (ns, VStr "top-level drop_indices")
  | _ => Err (ValueError "Config key 'drop_indices' must be a list of integers")
  end.
Proof.
  unfold select_drop_indices.
  destruct (get_ config "profiles" VNone), (get_ config "active_profile" VNone);
    simpl; done.
Qed.

(** [C10] When the active profile names a mapping of [profiles] that has
    no [drop_indices] key, [select_drop_indices] returns the empty list of
    indices, with the profile's description (or the default one), and
    raises nothing. *)
Theorem select_drop_indices_profile_without_list config profiles name profile :
  dict_get config "profiles" = Some (VDict profiles) →
  dict_get config "active_profile" = Some (VStr name) →
  dict_get profiles name = Some (VDict profile) →
  dict_get profile "drop_indices" = None →
  select_drop_indices config =
    Ok ([], get_ profile "description" (VStr ("profile '" +:+ name +:+ "'"))).
Proof.
  intros Hp Ha Hn Hd. unfold select_drop_indices.
  rewrite (get_present _ _ _ _ Hp), (get_present _ _ _ _ Ha),
    (get_present _ _ _ _ Hn), (get_absent _ _ _ Hd). done.
Qed.

Lemma select_drop_indices_profile_without_list_witness :
  dict_get bare_profile_config "profiles" =
    Some (VDict [("demo", VDict [("description", VStr "nothing")])]) ∧
  dict_get bare_profile_config "active_profile" = Some (VStr "demo") ∧
  dict_get [("demo", VDict [("description", VStr "nothing")])] "demo" =
    Some (VDict [("description", VStr "nothing")]) ∧
  dict_get [("description", VStr "nothing")] "drop_indices" = None ∧
  select_drop_indices bare_profile_config = Ok ([], VStr "nothing").
Proof.
  repeat (split; [reflexivity|]).
  apply (select_drop_indices_profile_without_list bare_profile_config
           [("demo", VDict [("description", VStr "nothing")])] "demo"
           [("description", VStr "nothing")]); reflexivity.
Defined.

(** [C7], as the program has it: a list of strings and floats is not
    rejected, its elements are converted by [int()]. *)
Lemma select_drop_indices_coerces_elements :
  dict_get coerced_config "profiles" = Some (VDict coerced_profiles) ∧
  dict_get coerced_config "active_profile" = Some (VStr "demo") ∧
  dict_get coerced_profiles "demo" = Some (VDict coerced_profile) ∧
  dict_get coerced_profile "drop_indices" =
    Some (VList [VStr "2"; VFloat (FFinite (9 # 2))]) ∧
  is_list_of_integers (VList [VStr "2"; VFloat (FFinite (9 # 2))]) = false ∧
  select_drop_indices coerced_config = Ok ([2; 4], VStr "demo profile").
Proof. by repeat split. Qed.

(** [C7] (amended) With a [profiles] mapping and a string
    [active_profile]: a name with no entry in [profiles], or with an entry
    that is not a mapping, raises the "not found" [ValueError]; a profile
    whose [drop_indices] is present and not a list (a string, say) raises
    the "invalid 'drop_indices'" [ValueError]; a list is accepted and each
    element goes through [int()], so that the result is the list of
    converted elements, or the exception of the first element [int()]
    rejects. *)
Theorem select_drop_indices_profile_errors config profiles name :
  dict_get config "profiles" = Some (VDict profiles) →
  dict_get config "active_profile" = Some (VStr name) →
  (is_dict (get_ profiles name VNone) = false →
   select_drop_indices config =
     Err (ValueError ("Profile '" +:+ name +:+ "' not found or not a mapping"))) ∧
  (dict_get profiles name = None →
   select_drop_indices config =
     Err (ValueError ("Profile '" +:+ name +:+ "' not found or not a mapping"))) ∧
  (∀ profile v,
     dict_get profiles name = Some (VDict profile) →
     dict_get profile "drop_indices" = Some v →
     is_list v = false →
     select_drop_indices config =
       Err (ValueError ("Profile '" +:+ name +:+ "' has invalid 'drop_indices'"))) ∧
  (∀ profile s,
     dict_get profiles name = Some (VDict profile) →
     dict_get profile "drop_indices" = Some (VStr s) →
     select_drop_indices config =
       Err (ValueError ("Profile '" +:+ name +:+ "' has invalid 'drop_indices'"))) ∧
  (∀ profile l,
     dict_get profiles name = Some (VDict profile) →
     dict_get profile "drop_indices" = Some (VList l) →
     select_drop_indices config =
       match ints l with
       | Ok ns => Ok (ns, get_ profile "description"
                            (VStr ("profile '" +:+ name +:+ "'")))
       | Err e => Err e
       end).
Proof.
  intros Hp Ha. unfold select_drop_indices.
  rewrite (get_present _ _ _ _ Hp), (get_present _ _ _ _ Ha).
  assert (Hnot : is_dict (get_ profiles name VNone) = false →
    match get_ profiles name VNone with
    | VDict profile =>
        match get_ profile "drop_indices" (VList []) with
        | VList drop_indices =>
            ns ← ints drop_indices;
            Ok (ns, get_ profile "description"
                      (VStr ("profile '" +:+ name +:+ "'")))
        | _ => Err (ValueError ("Profile '" +:+ name +:+
                                "' has invalid 'drop_indices'"))
        end
    | _ => Err (ValueError ("Profile '" +:+ name +:+
                            "' not found or not a mapping"))
    end = Err (ValueError ("Profile '" +:+ name +:+
                           "' not found or not a mapping"))).
  { by destruct (get_ profiles name VNone). }
  split; [exact Hnot|]. split.
  { intros Hn. apply Hnot. by rewrite (get_absent _ _ _ Hn). }
  split; [|split].
  - intros profile v Hn Hv Hl.
    rewrite (get_present _ _ _ _ Hn), (get_present _ _ _ _ Hv).
    by destruct v.
  - intros profile s Hn Hv.
    by rewrite (get_present _ _ _ _ Hn), (get_present _ _ _ _ Hv).
  - intros profile l Hn Hv.
    by rewrite (get_present _ _ _ _ Hn), (get_present _ _ _ _ Hv).
Qed.

Lemma select_drop_indices_profile_errors_witness :
  dict_get coerced_config "profiles" = Some (VDict coerced_profiles) ∧
  dict_get coerced_config "active_profile" = Some (VStr "demo") ∧
  (is_dict (get_ coerced_profiles "demo" VNone) = false →
   select_drop_indices coerced_config =
     Err (ValueError ("Profile '" +:+ "demo" +:+ "' not found or not a mapping"))) ∧
  (dict_get coerced_profiles "demo" = None →
   select_drop_indices coerced_config =
     Err (ValueError ("Profile '" +:+ "demo" +:+ "' not found or not a mapping"))) ∧
  (∀ profile v,
     dict_get coerced_profiles "demo" = Some (VDict profile) →
     dict_get profile "drop_indices" = Some v →
     is_list v = false →
     select_drop_indices coerced_config =
       Err (ValueError ("Profile '" +:+ "demo" +:+ "' has invalid 'drop_indices'"))) ∧
  (∀ profile s,
     dict_get coerced_profiles "demo" = Some (VDict profile) →
     dict_get profile "drop_indices" = Some (VStr s) →
     select_drop_indices coerced_config =
       Err (ValueError ("Profile '" +:+ "demo" +:+ "' has invalid 'drop_indices'"))) ∧
  (∀ profile l,
     dict_get coerced_profiles "demo" = Some (VDict profile) →
     dict_get profile "drop_indices" = Some (VList l) →
     select_drop_indices coerced_config =
       match ints l with
       | Ok ns => Ok (ns, get_ profile "description"
                            (VStr ("profile '" +:+ "demo" +:+ "'")))
       | Err e => Err e
       end).
Proof.
  split; [reflexivity|]. split; [reflexivity|].
  apply (select_drop_indices_profile_errors coerced_config coerced_profiles "demo");
    reflexivity.
Defined.

Lemma int_error_kind v e :
  int_ v = Err e →
  e = TypeError ∨ e = OverflowError ∨ (∃ s, e = IntLiteralError s) ∨
  e = ValueError "cannot convert float NaN to integer".
Proof.
  destruct v as [|b|n|f|s|l|d]; simpl; try (intros [= <-]; eauto; fail); try done.
  - destruct f; simpl; intros [= <-]; eauto.
  - destruct (int_of_str s); [done|]. intros [= <-]. eauto 10.
Qed.

Lemma ints_error_kind l e :
  ints l = Err e →
  e = TypeError ∨ e = OverflowError ∨ (∃ s, e = IntLiteralError s) ∨
  e = ValueError "cannot convert float NaN to integer".
Proof.
  induction l as [|v l IH]; simpl; [done|].
  unfold mbind, result_bind.
  destruct (int_ v) as [n|e'] eqn:E.
  - destruct (ints l) as [ns|e'']; [done|]. intros [= <-]. by apply IH.
  - intros [= <-]. by eapply int_error_kind.
Qed.

(** [C9], as the program has it: without [active_profile] the top-level
    [drop_indices] is used, and it is checked: a string raises. *)
Lemma select_drop_indices_fallback_raises :
  is_Some (dict_get fallback_config "profiles") ∧
  dict_get fallback_config "active_profile" = None ∧
  select_drop_indices fallback_config =
    Err (ValueError "Config key 'drop_indices' must be a list of integers").
Proof. split; [by eexists|]. split; reflexivity. Qed.

(** [C9] (amended) When [profiles] is present and [active_profile] is
    absent or not a string, [select_drop_indices] ignores the profiles and
    resolves the top-level [drop_indices] key: the empty list when the key
    is absent, the elements converted by [int()] when it is a list, and the
    "must be a list" [ValueError] when it is anything else.  It raises no
    [KeyError] and no "profile not found" error. *)
Theorem select_drop_indices_without_active_profile config :
  is_Some (dict_get config "profiles") →
  (dict_get config "active_profile" = None ∨
   ∃ v, dict_get config "active_profile" = Some v ∧ is_str v = false) →
  (dict_get config "drop_indices" = None →
   select_drop_indices config = Ok ([], VStr "top-level drop_indices")) ∧
  (∀ l, dict_get config "drop_indices" = Some (VList l) →
        select_drop_indices config =
        match ints l with
        | Ok ns => Ok (ns, VStr "top-level drop_indices")
        | Err e => Err e
        end) ∧
  (∀ v, dict_get config "drop_indices" = Some v → is_list v = false →
        select_drop_indices config =
        Err (ValueError "Config key 'drop_indices' must be a list of integers")) ∧
  (∀ key, select_drop_indices config ≠ Err (KeyError key)) ∧
  (∀ name, select_drop_indices config ≠
           Err (ValueError ("Profile '" +:+ name +:+ "' not found or not a mapping"))).
Proof.
  intros _ Ha.
  assert (Hs : is_dict (get_ config "profiles" VNone)
               && is_str (get_ config "active_profile" VNone) = false).
  { apply andb_false_iff. right.
    destruct Ha as [Ha|(v & Ha & Hv)].
    - by rewrite (get_absent _ _ _ Ha).
    - by rewrite (get_present _ _ _ _ Ha). }
  rewrite (select_drop_indices_top_level _ Hs).
  split; [|split; [|split; [|split]]].
  - intros Hd. by rewrite (get_absent _ _ _ Hd).
  - intros l Hd. by rewrite (get_present _ _ _ _ Hd).
  - intros v Hd Hl. rewrite (get_present _ _ _ _ Hd). by destruct v.
  - intros key.
    destruct (get_ config "drop_indices" (VList [])); try done.
    unfold mbind, result_bind. destruct (ints l) as [ns|e] eqn:E; [done|].
    intros [= ->]. apply ints_error_kind in E.
    destruct E as [E|[E|[[s E]|E]]]; done.
  - intros name.
    destruct (get_ config "drop_indices" (VList [])); try done.
    unfold mbind, result_bind. destruct (ints l) as [ns|e] eqn:E; [done|].
    intros [= ->]. apply ints_error_kind in E.
    destruct E as [E|[E|[[s E]|E]]]; done.
Qed.

Lemma select_drop_indices_without_active_profile_witness :
  is_Some (dict_get fallback_config "profiles") ∧
  (dict_get fallback_config "active_profile" = None ∨
   ∃ v, dict_get fallback_config "active_profile" = Some v ∧ is_str v = false) ∧
  (dict_get fallback_config "drop_indices" = None →
   select_drop_indices fallback_config = Ok ([], VStr "top-level drop_indices")) ∧
  (∀ l, dict_get fallback_config "drop_indices" = Some (VList l) →
        select_drop_indices fallback_config =
        match ints l with
        | Ok ns => Ok (ns, VStr "top-level drop_indices")
        | Err e => Err e
        end) ∧
  (∀ v, dict_get fallback_config "drop_indices" = Some v → is_list v = false →
        select_drop_indices fallback_config =
        Err (ValueError "Config key 'drop_indices' must be a list of integers")) ∧
  (∀ key, select_drop_indices fallback_config ≠ Err (KeyError key)) ∧
  (∀ name, select_drop_indices fallback_config ≠
           Err (ValueError ("Profile '" +:+ name +:+ "' not found or not a mapping"))).
Proof.
  assert (H1 : is_Some (dict_get fallback_config "profiles")) by (by eexists).
  assert (H2 : dict_get fallback_config "active_profile" = None ∨
    ∃ v, dict_get fallback_config "active_profile" = Some v ∧ is_str v = false)
    by (left; reflexivity).
  split; [exact H1|]. split; [exact H2|].
  exact (select_drop_indices_without_active_profile fallback_config H1 H2).
Defined.

(** ** Malformed records *)

(** [C6], as the program has it: a [payload_len] that is a JSON string or
    a JSON boolean is converted by [int()], and the trace loads. *)
Lemma load_packet_trace_coerces_payload_len :
  subscript string_length_record "payload_len" = Ok (VStr "12") ∧
  is_json_number (VStr "12") = false ∧
  subscript boolean_length_record "payload_len" = Ok (VBool true) ∧
  is_json_number (VBool true) = false ∧
  load_packet_trace (λ _, "") "trace.json" coerced_records [] =
    Ret [0%nat; 1%nat]
      [ mkPacket 0 CLIENT_TO_SERVER 12 "KEXINIT" None false;
        mkPacket 1 SERVER_TO_CLIENT 1 "KEXINIT" None false ].
Proof. by repeat split. Qed.

Section malformed_records.
Variable py_str : value → string.
Variable path : string.

Lemma records_packets_app idx good raw :
  records_packets py_str path idx (good ++ raw) =
  match records_packets py_str path idx good with
  | Ok ps =>
      match records_packets py_str path (idx + Z.of_nat (length good)) raw with
      | Ok ps' => Ok (ps ++ ps')
      | Err e => Err e
      end
  | Err e => Err e
  end.
Proof.
  revert idx. induction good as [|item good IH]; intros idx.
  - simpl. rewrite Z.add_0_r. by destruct (records_packets _ _ _ raw).
  - rewrite <- app_comm_cons, !records_packets_cons, IH.
    destruct (record_packet py_str path idx item); [|done].
    destruct (records_packets py_str path (idx + 1) good); [|done].
    replace (idx + 1 + Z.of_nat (length good))
      with (idx + Z.of_nat (length (item :: good))) by (simpl; lia).
    by destruct (records_packets _ _ _ raw).
Qed.

Lemma load_packet_trace_first_error good ps item rest e h :
  records_packets py_str path 0 good = Ok ps →
  record_packet py_str path (Z.of_nat (length good)) item = Err e →
  ∃ h', load_packet_trace py_str path (good ++ item :: rest) h = Raise e h'.
Proof.
  intros Hgood Hitem.
  pose proof (load_packet_trace_outcome py_str path (good ++ item :: rest) h) as H.
  rewrite records_packets_app, Hgood, records_packets_cons, Z.add_0_l, Hitem in H.
  exact H.
Qed.

Lemma load_packet_trace_all_or_nothing raw h :
  match load_packet_trace py_str path raw h with
  | Ret packets h' =>
      ∃ ps, records_packets py_str path 0 raw = Ok ps ∧
            length packets = length raw ∧ points_to h' packets ps
  | Raise e _ => records_packets py_str path 0 raw = Err e
  | Stuck => False
  end.
Proof.
  pose proof (load_packet_trace_outcome py_str path raw h) as H.
  destruct (records_packets py_str path 0 raw) as [ps|e] eqn:E.
  - rewrite H. exists ps. split; [done|]. split; [by rewrite length_seq|].
    rewrite <- (records_packets_length _ _ _ _ _ E). apply points_to_fresh.
  - destruct H as (h' & ->). done.
Qed.

(** [C6] (amended) The first record that does not load decides how the
    load fails.  If its [direction] is a string other than ["C->S"] and
    ["S->C"], a [ValueError] is raised whose message names the string and
    the path.  If its direction is valid and it is a mapping without
    [payload_len], the [KeyError] of that key is raised; if [payload_len]
    is there and [int()] rejects it ([None], a list, a mapping, a string
    that is no integer literal), the exception of [int()] is raised, while
    a boolean or a string that is an integer literal is converted and
    accepted.  The load returns the packets of all the records or raises
    and returns no list at all. *)
Theorem load_packet_trace_malformed good ps item rest h :
  records_packets py_str path 0 good = Ok ps →
  (∀ s, subscript item "direction" = Ok (VStr s) → s ≠ "C->S" → s ≠ "S->C" →
     ∃ h', load_packet_trace py_str path (good ++ item :: rest) h =
           Raise (ValueError ("Invalid direction '" +:+ s +:+ "' in " +:+ path)) h') ∧
  (∀ fields v d,
     item = VDict fields → dict_get fields "direction" = Some v →
     Direction_of_value v = Some d → dict_get fields "payload_len" = None →
     ∃ h', load_packet_trace py_str path (good ++ item :: rest) h =
           Raise (KeyError "payload_len") h') ∧
  (∀ v d v' e,
     subscript item "direction" = Ok v → Direction_of_value v = Some d →
     subscript item "payload_len" = Ok v' → int_ v' = Err e →
     ∃ h', load_packet_trace py_str path (good ++ item :: rest) h = Raise e h') ∧
  (int_ VNone = Err TypeError ∧
   (∀ l, int_ (VList l) = Err TypeError) ∧
   (∀ d, int_ (VDict d) = Err TypeError) ∧
   (∀ s, int_of_str s = None → int_ (VStr s) = Err (IntLiteralError s)) ∧
   (∀ s n, int_of_str s = Some n → int_ (VStr s) = Ok n) ∧
   (∀ b, int_ (VBool b) = Ok (if b then 1 else 0))) ∧
  (∀ raw h0,
     match load_packet_trace py_str path raw h0 with
     | Ret packets h' =>
         ∃ ps', records_packets py_str path 0 raw = Ok ps' ∧
                length packets = length raw ∧ points_to h' packets ps'
     | Raise e _ => records_packets py_str path 0 raw = Err e
     | Stuck => False
     end).
Proof.
  intros Hgood. split; [|split; [|split; [|split]]].
  - intros s Hs H1 H2.
    apply (load_packet_trace_first_error _ _ _ _ _ _ Hgood).
    unfold record_packet. rewrite Hs. simpl.
    apply String.eqb_neq in H1, H2. by rewrite H1, H2.
  - intros fields v d -> Hv Hd Hp.
    apply (load_packet_trace_first_error _ _ _ _ _ _ Hgood).
    unfold record_packet. simpl. rewrite Hv. simpl. rewrite Hd. simpl.
    by rewrite Hp.
  - intros v d v' e Hv Hd Hp He.
    apply (load_packet_trace_first_error _ _ _ _ _ _ Hgood).
    unfold record_packet. rewrite Hv. simpl. rewrite Hd. simpl.
    rewrite Hp. simpl. by rewrite He.
  - repeat split; try done.
    + intros s Hs. simpl. by rewrite Hs.
    + intros s n Hs. simpl. by rewrite Hs.
  - apply load_packet_trace_all_or_nothing.
Qed.
End malformed_records.

(** ** Random selection of client packets *)

Lemma submseteq_NoDup {A} (l1 l2 : list A) : l1 ⊆+ l2 → NoDup l2 → NoDup l1.
Proof.
  intros (l & Hp & Hs)%submseteq_sublist_r Hnd.
  rewrite Hp. by eapply sublist_NoDup.
Qed.

Lemma fmap_filter_rel {A B C} (R : A → B → Prop) (f : A → C) (g : B → C)
    (P1 : A → Prop) (P2 : B → Prop)
    `{∀ x, Decision (P1 x)} `{∀ y, Decision (P2 y)} l1 l2 :
  Forall2 R l1 l2 → (∀ x y, R x y → (P1 x ↔ P2 y) ∧ f x = g y) →
  f <$> filter P1 l1 = g <$> filter P2 l2.
Proof.
  intros HF HR. induction HF as [|x y l1 l2 Hxy _ IH]; [done|].
  rewrite !filter_cons. destruct (HR _ _ Hxy) as [HP Hfg].
  destruct (decide (P1 x)), (decide (P2 y)); try tauto;
    rewrite ?fmap_cons, ?IH, ?Hfg; done.
Qed.

Lemma numbered_direction_indices d ps :
  index <$> of_direction d (numbered ps) = index <$> of_direction d ps.
Proof.
  unfold of_direction.
  apply (fmap_filter_rel (λ q p, ∃ s, q = set_seq_no s p));
    [apply numbered_rel|]. by intros x y [s ->].
Qed.

Lemma direction_indices_NoDup d ps :
  NoDup (index <$> ps) → NoDup (index <$> of_direction d ps).
Proof.
  intros H. eapply sublist_NoDup; [exact H|].
  apply fmap_sublist, sublist_filter.
Qed.

Lemma of_direction_numbered_nil d ps :
  of_direction d ps = [] → of_direction d (numbered ps) = [].
Proof.
  intros H. apply nil_length_inv. by rewrite numbered_direction_count, H.
Qed.

Lemma no_client_left chosen clients ps :
  clients = index <$> of_direction CLIENT_TO_SERVER ps →
  chosen ≡ₚ clients →
  Forall (λ p, dropped p = false) ps →
  of_direction CLIENT_TO_SERVER
    (numbered (visible (marked chosen (numbered ps)))) = [].
Proof.
  intros -> Hperm Hd. apply of_direction_numbered_nil.
  rewrite visible_marked by (by apply numbered_not_dropped).
  unfold of_direction.
  destruct (filter _ (filter _ (numbered ps))) as [|x l] eqn:E; [done|].
  exfalso. assert (Hx : x ∈ x :: l) by left. rewrite <- E in Hx.
  apply list_elem_of_filter in Hx as [Hdir Hx].
  apply list_elem_of_filter in Hx as [Hni Hx].
  apply Hni. rewrite Hperm, <- numbered_direction_indices.
  apply list_elem_of_fmap. exists x. split; [done|].
  by apply list_elem_of_filter.
Qed.

Lemma record_packet_path py_str path path' idx item p :
  record_packet py_str path idx item = Ok p →
  record_packet py_str path' idx item = Ok p.
Proof.
  unfold record_packet, mbind, result_bind.
  destruct (subscript item "direction") as [ds|e]; [|done].
  by destruct (Direction_of_value ds).
Qed.

Lemma records_packets_path py_str path path' idx raw ps :
  records_packets py_str path idx raw = Ok ps →
  records_packets py_str path' idx raw = Ok ps.
Proof.
  revert idx ps. induction raw as [|item raw IH]; intros idx ps; [done|].
  rewrite !records_packets_cons.
  destruct (record_packet py_str path idx item) as [p|e] eqn:E; [|done].
  rewrite (record_packet_path _ _ path' _ _ _ E).
  destruct (records_packets py_str path (idx + 1) raw) as [ps'|e] eqn:E'; [|done].
  by rewrite (IH _ _ E').
Qed.

Section random_selection.
Variable py_str : value → string.
Variable rng : Type.
Variable seed_rng : Z → rng.
Variable sample : rng → list Z → nat → list Z.

(** What [random.sample] promises: [k] elements taken at distinct
    positions of the population. *)
Hypothesis sample_spec : ∀ g population k,
  (k ≤ length population)%nat →
  sample g population k ⊆+ population ∧ length (sample g population k) = k.

Lemma drawn_from_sample g clients random_drop :
  NoDup clients →
  let k := Z.max 0 (Z.min random_drop (Z.of_nat (length clients))) in
  drawn_from clients random_drop (sorted (sample g clients (Z.to_nat k))) ∧
  (Z.of_nat (length clients) ≤ random_drop →
   sorted (sample g clients (Z.to_nat k)) ≡ₚ clients).
Proof.
  intros Hnd k.
  destruct (sample_spec g clients (Z.to_nat k) ltac:(lia)) as [Hsub Hlen].
  pose proof (merge_sort_Permutation Z.le (sample g clients (Z.to_nat k))) as Hp.
  fold (sorted (sample g clients (Z.to_nat k))) in Hp.
  split; [split; [|split; [|split]]|].
  - rewrite Hp, Hlen. lia.
  - rewrite Hp. by eapply submseteq_NoDup.
  - intros i Hi. rewrite Hp in Hi. by eapply elem_of_submseteq.
  - apply (Sorted_merge_sort Z.le).
  - intros Hall. rewrite Hp. apply submseteq_length_Permutation; [done|].
    rewrite Hlen. lia.
Qed.
Lemma bind_lift_Ok {A B} (a : A) (f : A → M B) h : (lift (Ok a) ≫= f) h = f a h.
Proof. done. Qed.

Lemma explore_setup path raw ps h :
  records_packets py_str path 0 raw = Ok ps →
  ∃ packets h0 baseline h1,
    load_packet_trace py_str path raw h = Ret packets h0 ∧
    compute_sequence_numbers packets h0 = Ret baseline h1 ∧
    points_to h1 baseline (numbered ps) ∧
    client_indices_of baseline h1 =
      Ret (index <$> of_direction CLIENT_TO_SERVER ps) h1.
Proof.
  intros Hok.
  pose proof (load_packet_trace_outcome py_str path raw h) as E0.
  rewrite Hok in E0.
  assert (Hpt : points_to (h ++ ps) (seq (length h) (length raw)) ps).
  { rewrite <- (records_packets_length _ _ _ _ _ Hok). apply points_to_fresh. }
  pose proof (compute_sequence_numbers_ret _ _ _ Hpt) as E1.
  assert (Hb : points_to ((h ++ ps) ++ numbered ps)
                 (seq (length (h ++ ps)) (length (seq (length h) (length raw))))
                 (numbered ps)).
  { rewrite length_seq, <- (records_packets_length _ _ _ _ _ Hok),
      <- (numbered_length ps). apply points_to_fresh. }
  eexists _, _, _, _. split; [exact E0|]. split; [exact E1|]. split; [exact Hb|].
  rewrite (client_indices_of_ret _ _ _ Hb). by rewrite numbered_direction_indices.
Qed.

Lemma list_match_nonempty {A B} (l : list A) (a b : B) :
  l ≠ [] → match l with [] => a | _ :: _ => b end = b.
Proof. by destruct l. Qed.

Lemma cmd_explore_outcome pcap raw ps random_drop seed g h clients k chosen :
  records_packets py_str pcap 0 raw = Ok ps →
  clients = index <$> of_direction CLIENT_TO_SERVER ps →
  k = Z.max 0 (Z.min random_drop (Z.of_nat (length clients))) →
  chosen = sorted (sample (if decide (seed ≠ 0) then seed_rng seed else g)
                     clients (Z.to_nat k)) →
  ∃ report h',
    cmd_explore py_str rng seed_rng sample pcap raw random_drop seed g h =
      Ret report h' ∧
    match report with
    | NoClientPackets => clients = []
    | NothingToDrop => clients ≠ [] ∧ k = 0
    | Dropped chosen' visible_after_attack diff =>
        clients ≠ [] ∧ 0 < k ∧ chosen' = chosen ∧
        points_to h' visible_after_attack
          (numbered (visible (marked chosen (numbered ps))))
    end.
Proof.
  intros Hok Hclients Hk Hchosen.
  destruct (explore_setup _ _ _ h Hok)
    as (packets & h0 & baseline & h1 & E0 & E1 & Hb & E2).
  unfold cmd_explore.
  rewrite (bind_Ret _ _ _ _ _ E0), (bind_Ret _ _ _ _ _ E1), (bind_Ret _ _ _ _ _ E2).
  rewrite <- Hclients.
  destruct (decide (clients = [])) as [Hc|Hc].
  { rewrite Hc. by exists NoClientPackets, h1. }
  rewrite (list_match_nonempty clients _ _ Hc), <- Hk.
  destruct (decide (k = 0)) as [Hk0|Hk0].
  { by exists NothingToDrop, h1. }
  unfold random_sample. rewrite decide_True by lia. rewrite bind_lift_Ok.
  rewrite <- Hchosen.
  destruct (drop_stages _ _ _ chosen Hb)
    as (attacked & h2 & vis & after & h3 & E3 & E4 & E5 & Ha & Hb3 & _).
  rewrite (bind_Ret _ _ _ _ _ E3), (bind_Ret _ _ _ _ _ E4), (bind_Ret _ _ _ _ _ E5).
  rewrite (bind_Ret _ _ _ _ _ (print_sequence_diff_ret _ _ _ _ _ Hb3 Ha)).
  eexists _, _. split; [reflexivity|]. simpl.
  split; [done|]. split; [lia|]. done.
Qed.
Lemma api_run_explore_outcome data raw config_doc ps random_drop seed g h
    clients k chosen :
  records_packets py_str "data/sample_trace.json" 0 raw = Ok ps →
  get_ data "mode" (VStr "baseline") = VStr "explore" →
  int_ (get_ data "random_drop" (VInt 1)) = Ok random_drop →
  int_ (get_ data "seed" (VInt 0)) = Ok seed →
  clients = index <$> of_direction CLIENT_TO_SERVER ps →
  k = Z.max 0 (Z.min random_drop (Z.of_nat (length clients))) →
  chosen = sorted (sample (if decide (seed ≠ 0) then seed_rng seed else g)
                     clients (Z.to_nat k)) →
  ∃ resp h',
    api_run py_str rng seed_rng sample data raw config_doc g h = Ret resp h' ∧
    match resp with
    | ExploreErrorResponse b a d =>
        k = 0 ∧ b = numbered ps ∧ a = numbered ps
    | ExploreResponse chosen' b a d =>
        0 < k ∧ chosen' = chosen ∧ b = numbered ps ∧
        a = numbered (visible (marked chosen (numbered ps)))
    | _ => False
    end.
Proof.
  intros Hok Hmode Hrd Hseed Hclients Hk Hchosen.
  destruct (explore_setup _ _ _ h Hok)
    as (packets & h0 & baseline & h1 & E0 & E1 & Hb & E2).
  unfold api_run.
  rewrite (bind_Ret _ _ _ _ _ E0), (bind_Ret _ _ _ _ _ E1), Hmode.
  cbv beta iota.
  rewrite Hrd, bind_lift_Ok, Hseed, bind_lift_Ok, (bind_Ret _ _ _ _ _ E2).
  rewrite <- Hclients.
  destruct (decide (clients = [] ∨ random_drop ≤ 0)) as [Hz|Hnz].
  - assert (Hif : bool_decide (clients = []) || bool_decide (random_drop ≤ 0) = true).
    { apply orb_true_iff. destruct Hz; [left|right]; by apply bool_decide_eq_true. }
    rewrite Hif.
    rewrite (bind_Ret _ _ _ _ _ (packets_to_dicts_ret _ _ _ Hb)).
    rewrite (bind_Ret _ _ _ _ _ (packets_to_dicts_ret _ _ _ Hb)).
    rewrite (bind_Ret _ _ _ _ _ (build_diff_ret _ _ _ _ _ Hb Hb)).
    eexists _, _. split; [reflexivity|]. simpl. split; [|done].
    destruct Hz as [Hz|Hz]; [rewrite Hz in Hk; simpl in Hk|]; lia.
  - assert (Hif : bool_decide (clients = []) || bool_decide (random_drop ≤ 0) = false).
    { apply orb_false_iff. split; apply bool_decide_eq_false; tauto. }
    rewrite Hif, <- Hk.
    assert (0 < k).
    { destruct clients; [tauto|]. simpl in Hk. lia. }
    unfold random_sample. rewrite decide_True by lia. rewrite bind_lift_Ok.
    rewrite <- Hchosen.
    destruct (drop_stages _ _ _ chosen Hb)
      as (attacked & h2 & vis & after & h3 & E3 & E4 & E5 & Ha & Hb3 & _).
    rewrite (bind_Ret _ _ _ _ _ E3), (bind_Ret _ _ _ _ _ E4), (bind_Ret _ _ _ _ _ E5).
    rewrite (bind_Ret _ _ _ _ _ (packets_to_dicts_ret _ _ _ Hb3)).
    rewrite (bind_Ret _ _ _ _ _ (packets_to_dicts_ret _ _ _ Ha)).
    rewrite (bind_Ret _ _ _ _ _ (build_diff_ret _ _ _ _ _ Hb3 Ha)).
    eexists _, _. split; [reflexivity|]. done.
Qed.

(** [C8] For a trace that loads, [cmd_explore] and the explore mode of
    [api_run] select [k = max(0, min(requested, number of client
    packets))] indices.  When [k = 0] they drop nothing and raise nothing.
    Otherwise, [random.sample] selecting without replacement, the chosen
    indices are [k] distinct indices of client packets in ascending order,
    the visible trace is the trace without the chosen packets, and when the
    request reaches the number of client packets all of them are chosen and
    no client packet is left visible.  With a non-zero seed the outcome
    does not depend on the state of the generator. *)
Theorem random_drop_selection pcap raw ps data config_doc random_drop seed g h :
  records_packets py_str pcap 0 raw = Ok ps →
  get_ data "mode" (VStr "baseline") = VStr "explore" →
  int_ (get_ data "random_drop" (VInt 1)) = Ok random_drop →
  int_ (get_ data "seed" (VInt 0)) = Ok seed →
  let clients := index <$> of_direction CLIENT_TO_SERVER ps in
  let k := Z.max 0 (Z.min random_drop (Z.of_nat (length clients))) in
  (∃ report h',
     cmd_explore py_str rng seed_rng sample pcap raw random_drop seed g h =
       Ret report h' ∧
     match report with
     | NoClientPackets => k = 0
     | NothingToDrop => k = 0
     | Dropped chosen visible_after_attack diff =>
         0 < k ∧ drawn_from clients random_drop chosen ∧
         ∃ vs, points_to h' visible_after_attack vs ∧
               index <$> vs = filter (λ i, i ∉ chosen) (index <$> ps) ∧
               (Z.of_nat (length clients) ≤ random_drop →
                chosen ≡ₚ clients ∧ of_direction CLIENT_TO_SERVER vs = [])
     end) ∧
  (∃ resp h',
     api_run py_str rng seed_rng sample data raw config_doc g h = Ret resp h' ∧
     match resp with
     | ExploreErrorResponse baseline after diff => k = 0 ∧ after = baseline
     | ExploreResponse chosen baseline after diff =>
         0 < k ∧ drawn_from clients random_drop chosen ∧
         index <$> after = filter (λ i, i ∉ chosen) (index <$> ps) ∧
         (Z.of_nat (length clients) ≤ random_drop →
          chosen ≡ₚ clients ∧ of_direction CLIENT_TO_SERVER after = [])
     | _ => False
     end) ∧
  (seed ≠ 0 →
   ∀ g',
     cmd_explore py_str rng seed_rng sample pcap raw random_drop seed g' h =
     cmd_explore py_str rng seed_rng sample pcap raw random_drop seed g h ∧
     api_run py_str rng seed_rng sample data raw config_doc g' h =
     api_run py_str rng seed_rng sample data raw config_doc g h).
Proof.
  intros Hok Hmode Hrd Hseed clients k.
  pose proof (loaded_trace_baseline_input _ (records_packets_loaded _ _ _ _ Hok))
    as [Hnd Hd].
  pose proof (direction_indices_NoDup CLIENT_TO_SERVER _ Hnd) as Hcl.
  fold clients in Hcl.
  set (chosen := sorted (sample (if decide (seed ≠ 0) then seed_rng seed else g)
                           clients (Z.to_nat k))).
  destruct (drawn_from_sample (if decide (seed ≠ 0) then seed_rng seed else g)
              clients random_drop Hcl) as [Hdrawn Hall].
  fold k in Hdrawn, Hall. fold chosen in Hdrawn, Hall.
  split; [|split].
  - destruct (cmd_explore_outcome pcap raw ps random_drop seed g h clients k chosen
                Hok eq_refl eq_refl eq_refl) as (report & h' & E & Hr).
    exists report, h'. split; [exact E|].
    destruct report as [| |chosen' vis diff].
    + subst k. rewrite Hr. simpl. lia.
    + tauto.
    + destruct Hr as (_ & Hk & -> & Hv). split; [done|]. split; [done|].
      eexists. split; [exact Hv|]. split; [by apply after_drop_indices|].
      intros Hge. split; [by apply Hall|].
      apply (no_client_left chosen clients); [done|by apply Hall|done].
  - destruct (api_run_explore_outcome data raw config_doc ps random_drop seed g h
                clients k chosen
                (records_packets_path _ _ "data/sample_trace.json" _ _ _ Hok)
                Hmode Hrd Hseed eq_refl eq_refl eq_refl)
      as (resp & h' & E & Hr).
    exists resp, h'. split; [exact E|].
    destruct resp as [| |b a d|chosen' b a d|]; try done.
    + destruct Hr as (Hk & -> & ->). done.
    + destruct Hr as (Hk & -> & -> & ->). split; [done|]. split; [done|].
      split; [by apply after_drop_indices|].
      intros Hge. split; [by apply Hall|].
      apply (no_client_left chosen clients); [done|by apply Hall|done].
  - intros Hs g'. unfold cmd_explore, api_run.
    destruct (decide (seed ≠ 0)); [|done].
    rewrite Hmode. cbv beta iota. rewrite Hseed.
    split; [reflexivity|].
    cbv beta iota delta [lift mbind M_bind mret M_ret].
    destruct (decide (seed ≠ 0)); done.
Qed.
End random_selection.

Lemma first_k_spec (g : unit) (population : list Z) (k : nat) :
  (k ≤ length population)%nat →
  first_k g population k ⊆+ population ∧ length (first_k g population k) = k.
Proof.
  intros Hk. unfold first_k. split.
  - apply sublist_submseteq, sublist_take.
  - rewrite length_take. lia.
Qed.

Lemma random_drop_selection_witness :
  (∀ (g : unit) population k,
     (k ≤ length population)%nat →
     first_k g population k ⊆+ population ∧ length (first_k g population k) = k) ∧
  records_packets (λ _, "") "sample_trace.json" 0 sample_records = Ok sample_packets ∧
  get_ explore_request "mode" (VStr "baseline") = VStr "explore" ∧
  int_ (get_ explore_request "random_drop" (VInt 1)) = Ok 7 ∧
  int_ (get_ explore_request "seed" (VInt 0)) = Ok 42 ∧
  let clients := index <$> of_direction CLIENT_TO_SERVER sample_packets in
  let k := Z.max 0 (Z.min 7 (Z.of_nat (length clients))) in
  (∃ report h',
     cmd_explore (λ _, "") unit (λ _, tt) first_k "sample_trace.json"
       sample_records 7 42 tt [] = Ret report h' ∧
     match report with
     | NoClientPackets => k = 0
     | NothingToDrop => k = 0
     | Dropped chosen visible_after_attack diff =>
         0 < k ∧ drawn_from clients 7 chosen ∧
         ∃ vs, points_to h' visible_after_attack vs ∧
               index <$> vs = filter (λ i, i ∉ chosen) (index <$> sample_packets) ∧
               (Z.of_nat (length clients) ≤ 7 →
                chosen ≡ₚ clients ∧ of_direction CLIENT_TO_SERVER vs = [])
     end) ∧
  (∃ resp h',
     api_run (λ _, "") unit (λ _, tt) first_k explore_request sample_records
       VNone tt [] = Ret resp h' ∧
     match resp with
     | ExploreErrorResponse baseline after diff => k = 0 ∧ after = baseline
     | ExploreResponse chosen baseline after diff =>
         0 < k ∧ drawn_from clients 7 chosen ∧
         index <$> after = filter (λ i, i ∉ chosen) (index <$> sample_packets) ∧
         (Z.of_nat (length clients) ≤ 7 →
          chosen ≡ₚ clients ∧ of_direction CLIENT_TO_SERVER after = [])
     | _ => False
     end) ∧
  (42 ≠ 0 →
   ∀ g',
     cmd_explore (λ _, "") unit (λ _, tt) first_k "sample_trace.json"
       sample_records 7 42 g' [] =
     cmd_explore (λ _, "") unit (λ _, tt) first_k "sample_trace.json"
       sample_records 7 42 tt [] ∧
     api_run (λ _, "") unit (λ _, tt) first_k explore_request sample_records
       VNone g' [] =
     api_run (λ _, "") unit (λ _, tt) first_k explore_request sample_records
       VNone tt []).
Proof.
  split; [exact first_k_spec|].
  split; [reflexivity|]. split; [reflexivity|]. split; [reflexivity|].
  split; [reflexivity|].
  apply (random_drop_selection (λ _, "") unit (λ _, tt) first_k first_k_spec
           "sample_trace.json" sample_records sample_packets explore_request
           VNone 7 42 tt []); reflexivity.
Defined.

Lemma load_packet_trace_malformed_witness :
  records_packets (λ _, "") "trace.json" 0 coerced_records = Ok coerced_packets ∧
  (∃ h', load_packet_trace (λ _, "") "trace.json"
           (coerced_records ++ [record "X->Y" 64 "KEXINIT"]) [] =
         Raise (ValueError "Invalid direction 'X->Y' in trace.json") h') ∧
  (∃ h', load_packet_trace (λ _, "") "trace.json"
           (coerced_records ++ [VDict [("direction", VStr "S->C")]]) [] =
         Raise (KeyError "payload_len") h') ∧
  (∃ h', load_packet_trace (λ _, "") "trace.json"
           (coerced_records ++
            [VDict [("direction", VStr "S->C"); ("payload_len", VStr "12 bytes")]])
           [] =
         Raise (IntLiteralError "12 bytes") h').
Proof.
  assert (Hgood : records_packets (λ _, "") "trace.json" 0 coerced_records =
                  Ok coerced_packets) by reflexivity.
  split; [exact Hgood|]. split; [|split].
  - apply (proj1 (load_packet_trace_malformed (λ _, "") "trace.json"
             coerced_records coerced_packets (record "X->Y" 64 "KEXINIT") [] []
             Hgood) "X->Y"); [reflexivity|discriminate|discriminate].
  - apply (proj1 (proj2 (load_packet_trace_malformed (λ _, "") "trace.json"
             coerced_records coerced_packets (VDict [("direction", VStr "S->C")])
             [] [] Hgood)) [("direction", VStr "S->C")] (VStr "S->C")
             SERVER_TO_CLIENT); reflexivity.
  - apply (proj1 (proj2 (proj2 (load_packet_trace_malformed (λ _, "") "trace.json"
             coerced_records coerced_packets
             (VDict [("direction", VStr "S->C"); ("payload_len", VStr "12 bytes")])
             [] [] Hgood))) (VStr "S->C") SERVER_TO_CLIENT (VStr "12 bytes"));
      reflexivity.
Defined.

(** ** The shipped scenarios *)

(** The sample trace loads into ten packets, the first one a client
    [KEXINIT], the second one from the server. *)
Example sample_trace_loads :
  ∃ packets h ps,
    load_packet_trace (λ _, "") "sample_trace.json" sample_records [] =
      Ret packets h ∧
    points_to h packets ps ∧ length ps = 10%nat ∧
    direction <$> ps !! 0%nat = Some CLIENT_TO_SERVER ∧
    direction <$> ps !! 1%nat = Some SERVER_TO_CLIENT ∧
    msg_type <$> ps !! 0%nat = Some "KEXINIT".
Proof.
  exists sample_refs, sample_packets, sample_packets.
  split; [reflexivity|]. split; [apply points_to_self|]. by repeat split.
Qed.

(** Its baseline numbers are [0..4] in each direction. *)
Example sample_trace_baseline :
  ∃ baseline h bs,
    compute_sequence_numbers sample_refs sample_packets = Ret baseline h ∧
    points_to h baseline bs ∧
    seq_no <$> of_direction CLIENT_TO_SERVER bs = Some <$> [0; 1; 2; 3; 4] ∧
    seq_no <$> of_direction SERVER_TO_CLIENT bs = Some <$> [0; 1; 2; 3; 4].
Proof.
  exists (seq (length sample_packets) (length sample_refs)),
    (sample_packets ++ numbered sample_packets), (numbered sample_packets).
  split; [apply compute_sequence_numbers_ret, points_to_self|].
  split; [apply (points_to_fresh sample_packets (numbered sample_packets))|].
  split; vm_compute; reflexivity.
Qed.

(** After dropping index 2 the client packets read [0..3] and the server
    packets are as before. *)
Example sample_trace_drop_2 :
  ∃ baseline h after h' survivors,
    compute_sequence_numbers sample_refs sample_packets = Ret baseline h ∧
    drop_and_renumber baseline [2] h = Ret after h' ∧
    points_to h' after survivors ∧
    index <$> survivors = [0; 1; 3; 4; 5; 6; 7; 8; 9] ∧
    seq_no <$> of_direction CLIENT_TO_SERVER survivors = Some <$> [0; 1; 2; 3] ∧
    seq_no <$> of_direction SERVER_TO_CLIENT survivors = Some <$> [0; 1; 2; 3; 4].
Proof.
  pose proof (compute_sequence_numbers_ret _ _ _ (points_to_self sample_packets))
    as E1.
  assert (Hb : points_to (sample_packets ++ numbered sample_packets)
                 (seq (length sample_packets) (length sample_refs))
                 (numbered sample_packets))
    by apply (points_to_fresh sample_packets (numbered sample_packets)).
  destruct (drop_and_renumber_ret _ _ _ [2] Hb) as (after & h' & E2 & Ha & _).
  eexists _, _, after, h', _. split; [exact E1|]. split; [exact E2|].
  split; [exact Ha|]. vm_compute. repeat split; reflexivity.
Qed.

(** * Further properties of the programs *)

(** ** The loader on well-formed records *)

Section loader_contract.
Variable py_str : value → string.
Variable path : string.

Lemma record_packet_of_fields idx item d n mt :
  record_fields item d n mt →
  record_packet py_str path idx item =
    Ok (mkPacket idx d n (str_ py_str mt) None false).
Proof.
  intros (v & v' & Hv & Hd & Hp & Hn & Hm). unfold record_packet.
  rewrite Hv. simpl. rewrite Hd. simpl. rewrite Hp. simpl. rewrite Hn. simpl.
  by rewrite Hm.
Qed.

Lemma records_packets_of_fields raw idx :
  (∀ item, item ∈ raw → ∃ d n mt, record_fields item d n mt) →
  ∃ ps, records_packets py_str path idx raw = Ok ps.
Proof.
  revert idx. induction raw as [|item raw IH]; intros idx Hwf; [by eexists|].
  destruct (Hwf item) as (d & n & mt & Hf); [left|].
  destruct (IH (idx + 1)) as (ps & Hps).
  { intros it Hit. apply Hwf. by right. }
  rewrite records_packets_cons, (record_packet_of_fields _ _ _ _ _ Hf), Hps.
  by eexists.
Qed.

(** [X1] When every record has a valid direction, a payload length that
    [int()] accepts and a message type, [load_packet_trace] returns one
    new packet per record, in order: packet [j] carries index [j], the
    record's direction, converted length and message type, no sequence
    number and [dropped = False].  Objects already in the store are left as
    they were. *)
Theorem load_packet_trace_well_formed raw h :
  (∀ item, item ∈ raw → ∃ d n mt, record_fields item d n mt) →
  ∃ packets h' ps,
    load_packet_trace py_str path raw h = Ret packets h' ∧
    points_to h' packets ps ∧
    length packets = length raw ∧
    fresh_for h packets ∧ NoDup packets ∧
    (∀ l p, h !! l = Some p → h' !! l = Some p) ∧
    ∀ j item d n mt,
      raw !! j = Some item → record_fields item d n mt →
      ps !! j = Some (mkPacket (Z.of_nat j) d n (str_ py_str mt) None false).
Proof.
  intros Hwf. destruct (records_packets_of_fields raw 0 Hwf) as (ps & Hps).
  pose proof (load_packet_trace_outcome py_str path raw h) as E.
  rewrite Hps in E.
  exists (seq (length h) (length raw)), (h ++ ps), ps.
  split; [exact E|]. split.
  { rewrite <- (records_packets_length _ _ _ _ _ Hps). apply points_to_fresh. }
  split; [by rewrite length_seq|]. split; [apply fresh_for_seq|].
  split; [apply NoDup_seq|]. split; [intros l p; apply lookup_app_l_Some|].
  intros j item d n mt Hitem Hf.
  assert (Hj : (j < length ps)%nat).
  { rewrite (records_packets_length _ _ _ _ _ Hps). by eapply lookup_lt_Some. }
  destruct (lookup_lt_is_Some_2 _ _ Hj) as [p Hp].
  destruct (records_packets_lookup _ _ _ _ _ _ _ Hps Hp) as (item' & Hitem' & Hrec).
  rewrite Hitem in Hitem'. injection Hitem' as <-.
  rewrite (record_packet_of_fields _ _ _ _ _ Hf) in Hrec.
  injection Hrec as <-. by rewrite Hp.
Qed.

(** [X2] How a record that does not load makes [load_packet_trace] fail,
    once the records before it have loaded: a record that is not a mapping
    raises [TypeError]; a mapping without [direction] raises the [KeyError]
    of that key; a [direction] of any value that is no member of the enum,
    string or not, raises the "Invalid direction" [ValueError], whatever
    the rest of the record holds; a record whose direction and payload
    length are fine but that has no [msg_type] raises the [KeyError] of
    that key. *)
Theorem load_packet_trace_record_errors good ps item rest h :
  records_packets py_str path 0 good = Ok ps →
  (is_dict item = false →
   ∃ h', load_packet_trace py_str path (good ++ item :: rest) h =
         Raise TypeError h') ∧
  (∀ fields,
     item = VDict fields → dict_get fields "direction" = None →
     ∃ h', load_packet_trace py_str path (good ++ item :: rest) h =
           Raise (KeyError "direction") h') ∧
  (∀ v,
     subscript item "direction" = Ok v → Direction_of_value v = None →
     ∃ h', load_packet_trace py_str path (good ++ item :: rest) h =
           Raise (ValueError ("Invalid direction '" +:+ str_ py_str v +:+
                              "' in " +:+ path)) h') ∧
  (∀ fields d n,
     item = VDict fields →
     (∃ v, dict_get fields "direction" = Some v ∧ Direction_of_value v = Some d) →
     (∃ v', dict_get fields "payload_len" = Some v' ∧ int_ v' = Ok n) →
     dict_get fields "msg_type" = None →
     ∃ h', load_packet_trace py_str path (good ++ item :: rest) h =
           Raise (KeyError "msg_type") h').
Proof.
  intros Hgood. split; [|split; [|split]].
  - intros Hitem.
    apply (load_packet_trace_first_error _ _ _ _ _ _ _ _ Hgood).
    by destruct item.
  - intros fields -> Hd.
    apply (load_packet_trace_first_error _ _ _ _ _ _ _ _ Hgood).
    unfold record_packet. simpl. by rewrite Hd.
  - intros v Hv Hd.
    apply (load_packet_trace_first_error _ _ _ _ _ _ _ _ Hgood).
    unfold record_packet. rewrite Hv. simpl. by rewrite Hd.
  - intros fields d n -> (v & Hv & Hd) (v' & Hp & Hn) Hm.
    apply (load_packet_trace_first_error _ _ _ _ _ _ _ _ Hgood).
    unfold record_packet. simpl. rewrite Hv. simpl. rewrite Hd. simpl.
    rewrite Hp. simpl. rewrite Hn. simpl. by rewrite Hm.
Qed.
End loader_contract.

Lemma sample_records_fields item :
  item ∈ sample_records → ∃ d n mt, record_fields item d n mt.
Proof.
  intros Hitem. apply list_elem_of_In in Hitem. simpl in Hitem.
  repeat (destruct Hitem as [<-|Hitem];
          [by eexists _, _, _, _, _; repeat split|]).
  destruct Hitem.
Qed.

Lemma load_packet_trace_well_formed_witness :
  (∀ item, item ∈ sample_records → ∃ d n mt, record_fields item d n mt) ∧
  ∃ packets h' ps,
    load_packet_trace (λ _, "") "sample_trace.json" sample_records [] =
      Ret packets h' ∧
    points_to h' packets ps ∧
    length packets = length sample_records ∧
    fresh_for [] packets ∧ NoDup packets ∧
    (∀ l p, ([] : list Packet) !! l = Some p → h' !! l = Some p) ∧
    ∀ j item d n mt,
      sample_records !! j = Some item → record_fields item d n mt →
      ps !! j = Some (mkPacket (Z.of_nat j) d n (str_ (λ _, "") mt) None false).
Proof.
  split; [exact sample_records_fields|].
  apply (load_packet_trace_well_formed (λ _, "") "sample_trace.json"
           sample_records [] sample_records_fields).
Defined.

Lemma load_packet_trace_record_errors_witness :
  records_packets (λ _, "") "sample_trace.json" 0 sample_records =
    Ok sample_packets ∧
  (∃ h', load_packet_trace (λ _, "") "sample_trace.json"
           (sample_records ++ [VStr "C->S"]) [] = Raise TypeError h') ∧
  (∃ h', load_packet_trace (λ _, "") "sample_trace.json"
           (sample_records ++ [VDict [("payload_len", VInt 1)]]) [] =
         Raise (KeyError "direction") h') ∧
  (∃ h', load_packet_trace (λ _, "") "sample_trace.json"
           (sample_records ++ [VDict [("direction", VInt 7)]]) [] =
         Raise (ValueError "Invalid direction '' in sample_trace.json") h') ∧
  (∃ h', load_packet_trace (λ _, "") "sample_trace.json"
           (sample_records ++
            [VDict [("direction", VStr "S->C"); ("payload_len", VInt 1)]]) [] =
         Raise (KeyError "msg_type") h').
Proof.
  pose proof (load_packet_trace_record_errors (λ _, "") "sample_trace.json"
                sample_records sample_packets) as H.
  split; [exact sample_packets_loaded|]. split; [|split; [|split]].
  - apply (proj1 (H (VStr "C->S") [] [] sample_packets_loaded)). reflexivity.
  - apply (proj1 (proj2 (H (VDict [("payload_len", VInt 1)]) [] []
             sample_packets_loaded)) [("payload_len", VInt 1)]); reflexivity.
  - apply (proj1 (proj2 (proj2 (H (VDict [("direction", VInt 7)]) [] []
             sample_packets_loaded))) (VInt 7)); reflexivity.
  - apply (proj2 (proj2 (proj2 (H
             (VDict [("direction", VStr "S->C"); ("payload_len", VInt 1)]) [] []
             sample_packets_loaded)))
             [("direction", VStr "S->C"); ("payload_len", VInt 1)]
             SERVER_TO_CLIENT 1); [reflexivity| | |reflexivity];
      eexists; split; reflexivity.
Defined.

(** ** The transformations, one after the other *)

Lemma visible_locs_sublist ls ps :
  length ls = length ps → visible_locs ls ps `sublist_of` ls.
Proof.
  unfold visible_locs. revert ps.
  induction ls as [|l ls IH]; intros [|p ps] Hlen; simplify_eq/=;
    [constructor..|].
  destruct (dropped p); simpl.
  - by apply sublist_cons, IH.
  - by apply sublist_skip, IH.
Qed.

Lemma visible_not_dropped ps : Forall (λ p, dropped p = false) (visible ps).
Proof. apply Forall_forall. by intros p [? _]%list_elem_of_filter. Qed.

(** [X3] [filter_visible_packets] makes no copies: it returns, in their
    order, the very objects of the given list that are not marked as
    dropped, and leaves the store as it was.  Filtering its result again
    returns the same list. *)
Theorem filter_visible_packets_same_objects h packets ps :
  points_to h packets ps →
  ∃ vis,
    filter_visible_packets packets h = Ret vis h ∧
    vis `sublist_of` packets ∧
    points_to h vis (filter (λ p, dropped p = false) ps) ∧
    filter_visible_packets vis h = Ret vis h.
Proof.
  intros Hpt. exists (visible_locs packets ps).
  pose proof (points_to_visible _ _ _ Hpt) as Hv.
  split; [by apply filter_visible_packets_ret|].
  split; [apply visible_locs_sublist; by eapply points_to_length|].
  split; [exact Hv|].
  rewrite (filter_visible_packets_ret _ _ _ Hv).
  by rewrite (visible_locs_all _ _ (points_to_length _ _ _ Hv)
                (visible_not_dropped ps)).
Qed.

Lemma filter_visible_packets_same_objects_witness :
  points_to (marked [2; 5] sample_packets) sample_refs
    (marked [2; 5] sample_packets) ∧
  ∃ vis,
    filter_visible_packets sample_refs (marked [2; 5] sample_packets) =
      Ret vis (marked [2; 5] sample_packets) ∧
    vis `sublist_of` sample_refs ∧
    points_to (marked [2; 5] sample_packets) vis
      (filter (λ p, dropped p = false) (marked [2; 5] sample_packets)) ∧
    filter_visible_packets vis (marked [2; 5] sample_packets) =
      Ret vis (marked [2; 5] sample_packets).
Proof.
  assert (H : points_to (marked [2; 5] sample_packets) sample_refs
                (marked [2; 5] sample_packets))
    by apply (points_to_self (marked [2; 5] sample_packets)).
  split; [exact H|].
  exact (filter_visible_packets_same_objects _ _ _ H).
Defined.

Lemma numbered_ext ps ps' :
  Forall2 (λ p p', ∃ s, p' = set_seq_no s p) ps ps' → numbered ps' = numbered ps.
Proof.
  intros HF. apply list_eq. intros i.
  assert (Hdir : direction <$> ps' = direction <$> ps).
  { induction HF as [|p p' ps ps' [s ->] _ IH]; [done|].
    rewrite !fmap_cons. by f_equal. }
  destruct (ps !! i) as [p|] eqn:Ep.
  - destruct (Forall2_lookup_l _ _ _ _ _ HF Ep) as (p' & Ep' & s & ->).
    rewrite (numbered_lookup _ _ _ Ep), (numbered_lookup _ _ _ Ep').
    simpl. by rewrite (rank_ext ps' ps _ _ Hdir).
  - rewrite !(proj2 (lookup_ge_None _ _)); [done| |].
    + rewrite numbered_length. by apply lookup_ge_None.
    + rewrite numbered_length, <- (Forall2_length _ _ _ HF).
      by apply lookup_ge_None.
Qed.

Lemma numbered_twice ps : numbered (numbered ps) = numbered ps.
Proof. apply numbered_ext, Forall2_flip, numbered_rel. Qed.

(** [X4] [compute_sequence_numbers] does not read the sequence numbers
    it replaces: numbering an already numbered trace gives the same
    attribute values again, and two traces that differ in their [seq_no]
    attributes only are numbered alike. *)
Theorem compute_sequence_numbers_idempotent h packets ps :
  points_to h packets ps →
  ∃ once h1 twice h2 qs,
    compute_sequence_numbers packets h = Ret once h1 ∧
    points_to h1 once qs ∧
    compute_sequence_numbers once h1 = Ret twice h2 ∧
    points_to h2 twice qs ∧
    ∀ h' packets' ps',
      points_to h' packets' ps' →
      Forall2 (λ p p', ∃ s, p' = set_seq_no s p) ps ps' →
      ∃ result h'',
        compute_sequence_numbers packets' h' = Ret result h'' ∧
        points_to h'' result qs.
Proof.
  intros Hpt.
  pose proof (compute_sequence_numbers_ret _ _ _ Hpt) as E1.
  assert (H1 : points_to (h ++ numbered ps) (seq (length h) (length packets))
                 (numbered ps)).
  { rewrite (points_to_length _ _ _ Hpt), <- (numbered_length ps).
    apply points_to_fresh. }
  pose proof (compute_sequence_numbers_ret _ _ _ H1) as E2.
  eexists _, _, _, _, (numbered ps).
  split; [exact E1|]. split; [exact H1|]. split; [exact E2|]. split.
  { pose proof (points_to_fresh (h ++ numbered ps) (numbered (numbered ps)))
      as HF.
    rewrite numbered_twice in HF. rewrite numbered_length in HF.
    by rewrite numbered_twice, length_seq, (points_to_length _ _ _ Hpt). }
  intros h' packets' ps' Hpt' Hrel.
  eexists _, _. split; [by apply compute_sequence_numbers_ret|].
  rewrite (numbered_ext _ _ Hrel).
  rewrite (points_to_length _ _ _ Hpt'), <- (Forall2_length _ _ _ Hrel),
    <- (numbered_length ps).
  apply points_to_fresh.
Qed.

Lemma compute_sequence_numbers_idempotent_witness :
  points_to sample_packets sample_refs sample_packets ∧
  ∃ once h1 twice h2 qs,
    compute_sequence_numbers sample_refs sample_packets = Ret once h1 ∧
    points_to h1 once qs ∧
    compute_sequence_numbers once h1 = Ret twice h2 ∧
    points_to h2 twice qs ∧
    ∀ h' packets' ps',
      points_to h' packets' ps' →
      Forall2 (λ p p', ∃ s, p' = set_seq_no s p) sample_packets ps' →
      ∃ result h'',
        compute_sequence_numbers packets' h' = Ret result h'' ∧
        points_to h'' result qs.
Proof.
  split; [apply points_to_self|].
  exact (compute_sequence_numbers_idempotent sample_packets sample_refs
           sample_packets (points_to_self sample_packets)).
Defined.

Lemma marked_twice D1 D2 ps : marked D2 (marked D1 ps) = marked (D1 ++ D2) ps.
Proof.
  unfold marked. rewrite <- list_fmap_compose. apply list_fmap_ext.
  intros i p _. simpl.
  destruct (decide (index p ∈ D1)) as [H1|H1]; simpl;
    destruct (decide (index p ∈ D2)) as [H2|H2];
    destruct (decide (index p ∈ D1 ++ D2)) as [H|H]; try done;
    exfalso; rewrite elem_of_app in H; tauto.
Qed.

(** [X5] Two calls of [apply_drop_indices] in a row mark what one call
    with both index lists marks, and no call clears a [dropped] flag that
    was already set. *)
Theorem apply_drop_indices_compose h packets ps D1 D2 :
  points_to h packets ps →
  ∃ first h1 second h2 both h3 qs,
    apply_drop_indices packets D1 h = Ret first h1 ∧
    apply_drop_indices first D2 h1 = Ret second h2 ∧
    apply_drop_indices packets (D1 ++ D2) h = Ret both h3 ∧
    points_to h2 second qs ∧ points_to h3 both qs ∧
    ∀ i p q, ps !! i = Some p → qs !! i = Some q →
             dropped p = true → dropped q = true.
Proof.
  intros Hpt.
  pose proof (apply_drop_indices_ret _ _ _ D1 Hpt) as E1.
  assert (H1 : points_to (h ++ marked D1 ps) (seq (length h) (length packets))
                 (marked D1 ps)).
  { rewrite (points_to_length _ _ _ Hpt), <- (marked_length D1 ps).
    apply points_to_fresh. }
  pose proof (apply_drop_indices_ret _ _ _ D2 H1) as E2.
  pose proof (apply_drop_indices_ret _ _ _ (D1 ++ D2) Hpt) as E3.
  eexists _, _, _, _, _, _, (marked (D1 ++ D2) ps).
  split; [exact E1|]. split; [exact E2|]. split; [exact E3|].
  split; [|split].
  - rewrite <- marked_twice.
    rewrite (points_to_length _ _ _ H1), <- (marked_length D2 (marked D1 ps)).
    apply points_to_fresh.
  - rewrite (points_to_length _ _ _ Hpt), <- (marked_length (D1 ++ D2) ps).
    apply points_to_fresh.
  - intros i p q Hp Hq Hd. rewrite (marked_lookup _ _ _ _ Hp) in Hq.
    injection Hq as <-. by destruct (decide _).
Qed.

Lemma apply_drop_indices_compose_witness :
  points_to sample_packets sample_refs sample_packets ∧
  ∃ first h1 second h2 both h3 qs,
    apply_drop_indices sample_refs [2] sample_packets = Ret first h1 ∧
    apply_drop_indices first [5; 2] h1 = Ret second h2 ∧
    apply_drop_indices sample_refs ([2] ++ [5; 2]) sample_packets = Ret both h3 ∧
    points_to h2 second qs ∧ points_to h3 both qs ∧
    ∀ i p q, sample_packets !! i = Some p → qs !! i = Some q →
             dropped p = true → dropped q = true.
Proof.
  split; [apply points_to_self|].
  exact (apply_drop_indices_compose sample_packets sample_refs sample_packets
           [2] [5; 2] (points_to_self sample_packets)).
Defined.

(** ** Dropping any list of indices *)

Lemma dropped_before_numbered D ps j d :
  dropped_before D (numbered ps) j d = dropped_before D ps j d.
Proof.
  unfold dropped_before. f_equal.
  apply (filter_length_rel (λ q p, ∃ s, q = set_seq_no s p)).
  - apply Forall2_take, numbered_rel.
  - by intros x y [s ->].
Qed.

Lemma dropped_before_le_rank D ps j d : dropped_before D ps j d ≤ rank ps j d.
Proof.
  unfold dropped_before, rank.
  rewrite <- (list_filter_filter_l (λ q, direction q = d ∧ index q ∈ D)
                (λ q, direction q = d)) by (by intros x [? _]).
  pose proof (length_filter (λ q, direction q = d ∧ index q ∈ D)
                (filter (λ q, direction q = d) (take j ps))).
  lia.
Qed.

(** [X6] On a baseline whose packets have distinct indices and are not
    dropped, dropping any list of indices, filtering and numbering again
    leaves each surviving packet with its baseline sequence number minus
    the number of dropped packets of its direction that come before it: a
    number that is never negative and never greater than the baseline one,
    and the baseline one itself when no packet of that direction is
    dropped.  Its other attributes are those of the baseline packet. *)
Theorem drop_and_renumber_shift h packets ps drop_indices :
  points_to h packets ps →
  baseline_input ps →
  ∃ baseline h1 bs after h2 survivors,
    compute_sequence_numbers packets h = Ret baseline h1 ∧
    points_to h1 baseline bs ∧
    drop_and_renumber baseline drop_indices h1 = Ret after h2 ∧
    points_to h2 after survivors ∧
    ∀ a, a ∈ survivors →
      ∃ b j r shift,
        bs !! j = Some b ∧ (index b ∉ drop_indices) ∧ seq_no b = Some r ∧
        shift = dropped_before drop_indices bs j (direction b) ∧
        a = set_seq_no (Some (r - shift)) b ∧
        0 ≤ r - shift ≤ r ∧
        ((∀ q, q ∈ bs → direction q = direction b → index q ∉ drop_indices) →
         shift = 0).
Proof.
  intros Hpt [Hnd Hd].
  pose proof (compute_sequence_numbers_ret _ _ _ Hpt) as E1.
  assert (Hb : points_to (h ++ numbered ps) (seq (length h) (length packets))
                 (numbered ps)).
  { rewrite (points_to_length _ _ _ Hpt), <- (numbered_length ps).
    apply points_to_fresh. }
  destruct (drop_and_renumber_ret _ _ _ drop_indices Hb)
    as (after & h2 & E2 & Ha & _).
  eexists _, _, (numbered ps), after, h2, _.
  split; [exact E1|]. split; [exact Hb|]. split; [exact E2|]. split; [exact Ha|].
  intros a [k Hk]%list_elem_of_lookup.
  destruct (after_drop_lookup _ _ _ _ Hd Hk) as (j & p & Hp & Hni & ->).
  exists (set_seq_no (Some (rank ps j (direction p))) p), j,
    (rank ps j (direction p)), (dropped_before drop_indices ps j (direction p)).
  split; [by apply numbered_lookup|]. split; [done|]. split; [done|].
  split; [by rewrite dropped_before_numbered|]. split; [done|].
  pose proof (dropped_before_nonneg drop_indices ps j (direction p)).
  pose proof (dropped_before_le_rank drop_indices ps j (direction p)).
  split; [lia|].
  intros Hnone.
  destruct (decide (0 < dropped_before drop_indices ps j (direction p)))
    as [Hpos|]; [|lia].
  exfalso. apply dropped_before_pos in Hpos as (j' & q & _ & Hq & Hdq & Hin).
  apply (Hnone (set_seq_no (Some (rank ps j' (direction q))) q)); [|done..].
  apply list_elem_of_lookup. exists j'. by apply numbered_lookup.
Qed.

Lemma drop_and_renumber_shift_witness :
  points_to sample_packets sample_refs sample_packets ∧
  baseline_input sample_packets ∧
  ∃ baseline h1 bs after h2 survivors,
    compute_sequence_numbers sample_refs sample_packets = Ret baseline h1 ∧
    points_to h1 baseline bs ∧
    drop_and_renumber baseline [0; 4; 33] h1 = Ret after h2 ∧
    points_to h2 after survivors ∧
    ∀ a, a ∈ survivors →
      ∃ b j r shift,
        bs !! j = Some b ∧ (index b ∉ [0; 4; 33]) ∧ seq_no b = Some r ∧
        shift = dropped_before [0; 4; 33] bs j (direction b) ∧
        a = set_seq_no (Some (r - shift)) b ∧
        0 ≤ r - shift ≤ r ∧
        ((∀ q, q ∈ bs → direction q = direction b → index q ∉ [0; 4; 33]) →
         shift = 0).
Proof.
  split; [apply points_to_self|]. split; [apply sample_packets_baseline_input|].
  exact (drop_and_renumber_shift sample_packets sample_refs sample_packets
           [0; 4; 33] (points_to_self sample_packets)
           sample_packets_baseline_input).
Defined.

Lemma visible_marked_any D bs :
  visible (marked D bs) =
  filter (λ p, dropped p = false ∧ index p ∉ D) bs.
Proof.
  unfold visible, marked. induction bs as [|b bs IH]; [done|].
  rewrite fmap_cons, !filter_cons, IH.
  destruct (decide (index b ∈ D)) as [Hin|Hin].
  - rewrite decide_False by done.
    by rewrite decide_False by (intros [_ ?]; done).
  - destruct (dropped b) eqn:Hb.
    + rewrite decide_False by done.
      by rewrite decide_False by (by intros [? _]).
    + rewrite decide_True by done. by rewrite decide_True.
Qed.

(** [X7] After [apply_drop_indices], [filter_visible_packets] and
    [compute_sequence_numbers], whatever the packets and the indices, the
    visible trace holds the packets that were neither marked before nor
    targeted now, and the sequence numbers of each direction are again
    [0..k-1] without a gap, [k] being the number of such packets of that
    direction. *)
Theorem drop_and_renumber_gap_free h baseline bs drop_indices :
  points_to h baseline bs →
  ∃ after h' survivors,
    drop_and_renumber baseline drop_indices h = Ret after h' ∧
    points_to h' after survivors ∧
    points_to h' baseline bs ∧
    index <$> survivors =
      index <$> filter (λ p, dropped p = false ∧ index p ∉ drop_indices) bs ∧
    ∀ d,
      seq_no <$> of_direction d survivors =
      Some <$> seqZ 0 (Z.of_nat (length
        (filter (λ p, direction p = d ∧ dropped p = false ∧
                      index p ∉ drop_indices) bs))).
Proof.
  intros Hb.
  destruct (drop_and_renumber_ret _ _ _ drop_indices Hb)
    as (after & h' & E & Ha & Hb' & _).
  exists after, h', (numbered (visible (marked drop_indices bs))).
  split; [exact E|]. split; [exact Ha|]. split; [exact Hb'|]. split.
  - rewrite numbered_fmap by done. by rewrite visible_marked_any.
  - intros d. rewrite numbered_of_direction, visible_marked_any.
    unfold of_direction. by rewrite list_filter_filter.
Qed.

Lemma drop_and_renumber_gap_free_witness :
  points_to (marked [1] sample_packets) sample_refs (marked [1] sample_packets) ∧
  ∃ after h' survivors,
    drop_and_renumber sample_refs [2; 2; 40] (marked [1] sample_packets) =
      Ret after h' ∧
    points_to h' after survivors ∧
    points_to h' sample_refs (marked [1] sample_packets) ∧
    index <$> survivors =
      index <$> filter (λ p, dropped p = false ∧ index p ∉ [2; 2; 40])
                  (marked [1] sample_packets) ∧
    ∀ d,
      seq_no <$> of_direction d survivors =
      Some <$> seqZ 0 (Z.of_nat (length
        (filter (λ p, direction p = d ∧ dropped p = false ∧
                      index p ∉ [2; 2; 40]) (marked [1] sample_packets)))).
Proof.
  assert (H : points_to (marked [1] sample_packets) sample_refs
                (marked [1] sample_packets))
    by apply (points_to_self (marked [1] sample_packets)).
  split; [exact H|].
  exact (drop_and_renumber_gap_free _ _ _ [2; 2; 40] H).
Defined.

(** ** More on the drop-set selector *)

(** [X8] With a [profiles] mapping and a string [active_profile] the
    selector looks at nothing else: two configurations that agree on these
    two keys resolve alike, errors included, so that a top-level
    [drop_indices] neither overrides a profile nor rescues a broken one. *)
Theorem select_drop_indices_profile_precedence config config' profiles name :
  dict_get config "profiles" = Some (VDict profiles) →
  dict_get config "active_profile" = Some (VStr name) →
  dict_get config' "profiles" = Some (VDict profiles) →
  dict_get config' "active_profile" = Some (VStr name) →
  select_drop_indices config = select_drop_indices config'.
Proof.
  intros Hp Ha Hp' Ha'. unfold select_drop_indices.
  by rewrite (get_present _ _ _ _ Hp), (get_present _ _ _ _ Ha),
    (get_present _ _ _ _ Hp'), (get_present _ _ _ _ Ha').
Qed.

Lemma select_drop_indices_profile_precedence_witness :
  dict_get profile_config "profiles" =
    Some (VDict [("early", VDict [("drop_indices",
                                   VList [VInt 2; VInt 0; VInt 2]);
                                  ("description", VStr "drop early packets")])]) ∧
  dict_get profile_config "active_profile" = Some (VStr "early") ∧
  select_drop_indices profile_config =
    select_drop_indices
      [ ("profiles",
         VDict [("early", VDict [("drop_indices",
                                  VList [VInt 2; VInt 0; VInt 2]);
                                 ("description", VStr "drop early packets")])]);
        ("active_profile", VStr "early") ].
Proof.
  split; [reflexivity|]. split; [reflexivity|].
  apply (select_drop_indices_profile_precedence profile_config _
           [("early", VDict [("drop_indices", VList [VInt 2; VInt 0; VInt 2]);
                             ("description", VStr "drop early packets")])]
           "early"); reflexivity.
Defined.

Lemma ints_integers ns : ints (VInt <$> ns) = Ok ns.
Proof.
  induction ns as [|n ns IH]; [done|]. rewrite fmap_cons.
  change (ints (VInt n :: (VInt <$> ns)))
    with (ints (VInt <$> ns) ≫= λ ns', Ok (n :: ns')).
  by rewrite IH.
Qed.

(** [X9] A list of integers is resolved to itself, in the given order
    and with its repetitions, from the active profile as well as from the
    top-level key. *)
Theorem select_drop_indices_integers config ns :
  (∀ profiles name profile,
     dict_get config "profiles" = Some (VDict profiles) →
     dict_get config "active_profile" = Some (VStr name) →
     dict_get profiles name = Some (VDict profile) →
     dict_get profile "drop_indices" = Some (VList (VInt <$> ns)) →
     select_drop_indices config =
       Ok (ns, get_ profile "description"
                 (VStr ("profile '" +:+ name +:+ "'")))) ∧
  (is_dict (get_ config "profiles" VNone)
   && is_str (get_ config "active_profile" VNone) = false →
   dict_get config "drop_indices" = Some (VList (VInt <$> ns)) →
   select_drop_indices config = Ok (ns, VStr "top-level drop_indices")).
Proof.
  split.
  - intros profiles name profile Hp Ha Hn Hd. unfold select_drop_indices.
    rewrite (get_present _ _ _ _ Hp), (get_present _ _ _ _ Ha),
      (get_present _ _ _ _ Hn), (get_present _ _ _ _ Hd).
    by rewrite ints_integers.
  - intros Hflat Hd. rewrite (select_drop_indices_top_level _ Hflat).
    rewrite (get_present _ _ _ _ Hd). by rewrite ints_integers.
Qed.

Lemma select_drop_indices_integers_witness :
  select_drop_indices profile_config = Ok ([2; 0; 2], VStr "drop early packets") ∧
  select_drop_indices flat_config = Ok ([4; 4; 1], VStr "top-level drop_indices").
Proof.
  split.
  - apply (proj1 (select_drop_indices_integers profile_config [2; 0; 2])
             [("early", VDict [("drop_indices", VList [VInt 2; VInt 0; VInt 2]);
                               ("description", VStr "drop early packets")])]
             "early"
             [("drop_indices", VList [VInt 2; VInt 0; VInt 2]);
              ("description", VStr "drop early packets")]); reflexivity.
  - apply (proj2 (select_drop_indices_integers flat_config [4; 4; 1]));
      reflexivity.
Defined.

(** [X10] Without a [profiles] mapping (the key absent, or holding
    anything but a mapping) an [active_profile] is ignored without a word:
    the top-level [drop_indices] is resolved, the empty list when it is
    absent, and no "profile not found" error is raised. *)
Theorem select_drop_indices_without_profiles config :
  (dict_get config "profiles" = None ∨
   ∃ v, dict_get config "profiles" = Some v ∧ is_dict v = false) →
  (dict_get config "drop_indices" = None →
   select_drop_indices config = Ok ([], VStr "top-level drop_indices")) ∧
  (∀ l, dict_get config "drop_indices" = Some (VList l) →
        select_drop_indices config =
        match ints l with
        | Ok ns => Ok (ns, VStr "top-level drop_indices")
        | Err e => Err e
        end) ∧
  (∀ v, dict_get config "drop_indices" = Some v → is_list v = false →
        select_drop_indices config =
        Err (ValueError "Config key 'drop_indices' must be a list of integers")) ∧
  (∀ name, select_drop_indices config ≠
           Err (ValueError ("Profile '" +:+ name +:+ "' not found or not a mapping"))).
Proof.
  intros Hp.
  assert (Hs : is_dict (get_ config "profiles" VNone)
               && is_str (get_ config "active_profile" VNone) = false).
  { apply andb_false_iff. left.
    destruct Hp as [Hp|(v & Hp & Hv)].
    - by rewrite (get_absent _ _ _ Hp).
    - by rewrite (get_present _ _ _ _ Hp). }
  rewrite (select_drop_indices_top_level _ Hs).
  split; [|split; [|split]].
  - intros Hd. by rewrite (get_absent _ _ _ Hd).
  - intros l Hd. by rewrite (get_present _ _ _ _ Hd).
  - intros v Hd Hl. rewrite (get_present _ _ _ _ Hd). by destruct v.
  - intros name.
    destruct (get_ config "drop_indices" (VList [])); try done.
    unfold mbind, result_bind. destruct (ints l) as [ns|e] eqn:E; [done|].
    intros [= ->]. apply ints_error_kind in E.
    destruct E as [E|[E|[[s E]|E]]]; done.
Qed.

Lemma select_drop_indices_without_profiles_witness :
  (dict_get flat_config "profiles" = None ∨
   ∃ v, dict_get flat_config "profiles" = Some v ∧ is_dict v = false) ∧
  dict_get flat_config "active_profile" = Some (VStr "early") ∧
  select_drop_indices flat_config =
    match ints [VInt 4; VInt 4; VInt 1] with
    | Ok ns => Ok (ns, VStr "top-level drop_indices")
    | Err e => Err e
    end.
Proof.
  assert (H : dict_get flat_config "profiles" = None ∨
              ∃ v, dict_get flat_config "profiles" = Some v ∧ is_dict v = false)
    by (left; reflexivity).
  split; [exact H|]. split; [reflexivity|].
  apply (proj1 (proj2 (select_drop_indices_without_profiles flat_config H))).
  reflexivity.
Defined.

(** ** The attack demo, end to end *)

Lemma bind_lift_Err {A B} (e : exn) (f : A → M B) h :
  (lift (Err e) ≫= f) h = Raise e h.
Proof. done. Qed.

Lemma bind_mret {A B} (a : A) (f : A → M B) h : (mret a ≫= f) h = f a h.
Proof. done. Qed.

Lemma load_config_mapping path config : load_config path (VDict config) = Ok config.
Proof. done. Qed.

Lemma diff_after_drop D ps k a :
  baseline_input ps →
  numbered (visible (marked D (numbered ps))) !! k = Some a →
  ∃ j p,
    ps !! j = Some p ∧ (index p ∉ D) ∧
    a = set_seq_no (Some (rank ps j (direction p) -
                          dropped_before D ps j (direction p))) p ∧
    row_of (seq_by_index (numbered ps)) a =
      mkRow (index p) (Direction_value (direction p)) (msg_type p)
        (Some (rank ps j (direction p)))
        (Some (rank ps j (direction p) - dropped_before D ps j (direction p)))
        (bool_decide (dropped_before D ps j (direction p) ≠ 0)) ∧
    line_of (seq_by_index (numbered ps)) a =
      mkLine (index p) (Direction_value (direction p)) (msg_type p)
        (str_int (rank ps j (direction p)))
        (str_int (rank ps j (direction p) -
                  dropped_before D ps j (direction p)))
        (if decide (dropped_before D ps j (direction p) ≠ 0)
         then "yes" else "no").
Proof.
  intros [Hnd Hd] Hk.
  destruct (after_drop_lookup _ _ _ _ Hd Hk) as (j & p & Hp & Hni & ->).
  exists j, p. split; [done|]. split; [done|]. split; [done|].
  assert (Hseq : seq_by_index (numbered ps) !! index p =
                 Some (rank ps j (direction p))).
  { rewrite seq_by_index_lookup.
    change (index p) with
      (index (set_seq_no (Some (rank ps j (direction p))) p)).
    rewrite (baseline_seq_unique (numbered ps) j); [done| |].
    - by rewrite numbered_fmap.
    - by apply numbered_lookup. }
  unfold row_of, line_of. simpl. rewrite Hseq. split.
  - f_equal. apply bool_decide_ext. lia.
  - f_equal. destruct (decide _), (decide _); try done; lia.
Qed.

Section attack_demo.
Variable py_str : value → string.

(** [X11] [run_demo] checks its configuration before it touches the
    trace: a configuration that is not a mapping, a mapping without
    [pcap_file], a selection that fails and a [pcap_file] that is not a
    string make it raise, in this order of precedence, with nothing loaded
    and the store as it was, whatever the trace holds. *)
Theorem run_demo_config_errors config_path config_doc raw_packets h :
  (is_dict config_doc = false →
   run_demo py_str config_path config_doc raw_packets h =
     Raise (ValueError ("Configuration in " +:+ config_path +:+
                        " must be a mapping")) h) ∧
  (∀ config,
     config_doc = VDict config → dict_get config "pcap_file" = None →
     run_demo py_str config_path config_doc raw_packets h =
       Raise (ValueError "Missing required config key: 'pcap_file'") h) ∧
  (∀ config e,
     config_doc = VDict config → is_Some (dict_get config "pcap_file") →
     select_drop_indices config = Err e →
     run_demo py_str config_path config_doc raw_packets h = Raise e h) ∧
  (∀ config v selected,
     config_doc = VDict config → dict_get config "pcap_file" = Some v →
     is_str v = false → select_drop_indices config = Ok selected →
     run_demo py_str config_path config_doc raw_packets h = Raise TypeError h).
Proof.
  split; [|split; [|split]].
  - intros Hd. unfold run_demo. by destruct config_doc.
  - intros config -> Hp. unfold run_demo.
    by rewrite load_config_mapping, bind_lift_Ok, Hp.
  - intros config e -> [v Hp] He. unfold run_demo.
    by rewrite load_config_mapping, bind_lift_Ok, Hp, bind_mret, He.
  - intros config v [D desc] -> Hp Hv Hs. unfold run_demo.
    rewrite load_config_mapping, bind_lift_Ok, Hp, bind_mret, Hs, bind_lift_Ok.
    by destruct v.
Qed.

(** [X12] On a configuration that selects the indices [D] and a trace
    that loads, [run_demo] returns the numbered baseline, the visible
    trace without the packets of [D] and one diff line per visible packet.
    The line shows the packet's index, direction and message type, its
    baseline number, its new number (the baseline one minus the number of
    dropped packets of its direction before it), never a ["?"], and
    ["yes"] exactly when the two numbers differ. *)
Theorem run_demo_outcome config_path config path raw_packets ps D desc h :
  dict_get config "pcap_file" = Some (VStr path) →
  select_drop_indices config = Ok (D, desc) →
  records_packets py_str path 0 raw_packets = Ok ps →
  ∃ baseline visible_after_attack diff h' survivors,
    run_demo py_str config_path (VDict config) raw_packets h =
      Ret (baseline, visible_after_attack, diff) h' ∧
    points_to h' baseline (numbered ps) ∧
    points_to h' visible_after_attack survivors ∧
    index <$> survivors = filter (λ i, i ∉ D) (index <$> ps) ∧
    length diff = length survivors ∧
    ∀ k a, survivors !! k = Some a →
      ∃ j p r shift,
        ps !! j = Some p ∧ index a = index p ∧
        r = rank ps j (direction p) ∧
        shift = dropped_before D ps j (direction p) ∧
        seq_no a = Some (r - shift) ∧
        diff !! k =
          Some (mkLine (index p) (Direction_value (direction p)) (msg_type p)
                  (str_int r) (str_int (r - shift))
                  (if decide (shift ≠ 0) then "yes" else "no")).
Proof.
  intros Hp Hs Hok.
  pose proof (loaded_trace_baseline_input _ (records_packets_loaded _ _ _ _ Hok))
    as Hin.
  pose proof (load_packet_trace_outcome py_str path raw_packets h) as E0.
  rewrite Hok in E0.
  assert (Hpt : points_to (h ++ ps) (seq (length h) (length raw_packets)) ps).
  { rewrite <- (records_packets_length _ _ _ _ _ Hok). apply points_to_fresh. }
  pose proof (compute_sequence_numbers_ret _ _ _ Hpt) as E1.
  assert (Hb : points_to ((h ++ ps) ++ numbered ps)
                 (seq (length (h ++ ps)) (length (seq (length h) (length raw_packets))))
                 (numbered ps)).
  { rewrite length_seq, <- (records_packets_length _ _ _ _ _ Hok),
      <- (numbered_length ps). apply points_to_fresh. }
  destruct (drop_stages _ _ _ D Hb)
    as (attacked & h2 & vis & after & h3 & E3 & E4 & E5 & Ha & Hb3 & _).
  eexists _, after, _, h3, _.
  split.
  { unfold run_demo.
    rewrite load_config_mapping, bind_lift_Ok, Hp, bind_mret, Hs, bind_lift_Ok.
    cbv beta iota.
    rewrite (bind_Ret _ _ _ _ _ E0), (bind_Ret _ _ _ _ _ E1),
      (bind_Ret _ _ _ _ _ E3), (bind_Ret _ _ _ _ _ E4), (bind_Ret _ _ _ _ _ E5).
    rewrite (bind_Ret _ _ _ _ _ (print_sequence_diff_ret _ _ _ _ _ Hb3 Ha)).
    reflexivity. }
  split; [exact Hb3|]. split; [exact Ha|].
  split; [apply after_drop_indices, Hin|].
  split; [by rewrite length_fmap|].
  intros k a Hk.
  destruct (diff_after_drop _ _ _ _ Hin Hk) as (j & p & Hj & _ & -> & _ & Hl).
  exists j, p, (rank ps j (direction p)),
    (dropped_before D ps j (direction p)).
  split; [done|]. split; [done|]. split; [done|].
  split; [done|]. split; [done|].
  by rewrite list_lookup_fmap, Hk, <- Hl.
Qed.
End attack_demo.

Lemma run_demo_config_errors_witness :
  run_demo (λ _, "") "demo_config.yaml" (VList []) sample_records [] =
    Raise (ValueError "Configuration in demo_config.yaml must be a mapping") [] ∧
  run_demo (λ _, "") "demo_config.yaml"
    (VDict [("drop_indices", VStr "2")]) sample_records [] =
    Raise (ValueError "Missing required config key: 'pcap_file'") [] ∧
  run_demo (λ _, "") "demo_config.yaml"
    (VDict [("pcap_file", VStr "sample_trace.json"); ("drop_indices", VStr "2")])
    [VNone] [] =
    Raise (ValueError "Config key 'drop_indices' must be a list of integers") [] ∧
  run_demo (λ _, "") "demo_config.yaml"
    (VDict [("pcap_file", VInt 3)]) sample_records [] = Raise TypeError [].
Proof.
  split; [|split; [|split]].
  - apply (proj1 (run_demo_config_errors (λ _, "") "demo_config.yaml" (VList [])
             sample_records [])). reflexivity.
  - apply (proj1 (proj2 (run_demo_config_errors (λ _, "") "demo_config.yaml"
             (VDict [("drop_indices", VStr "2")]) sample_records []))
             [("drop_indices", VStr "2")]); reflexivity.
  - apply (proj1 (proj2 (proj2 (run_demo_config_errors (λ _, "")
             "demo_config.yaml"
             (VDict [("pcap_file", VStr "sample_trace.json");
                     ("drop_indices", VStr "2")]) [VNone] [])))
             [("pcap_file", VStr "sample_trace.json"); ("drop_indices", VStr "2")]);
      [reflexivity|by eexists|reflexivity].
  - apply (proj2 (proj2 (proj2 (run_demo_config_errors (λ _, "")
             "demo_config.yaml" (VDict [("pcap_file", VInt 3)]) sample_records [])))
             [("pcap_file", VInt 3)] (VInt 3) ([], VStr "top-level drop_indices"));
      reflexivity.
Defined.

Lemma run_demo_outcome_witness :
  dict_get profile_config "pcap_file" = Some (VStr "sample_trace.json") ∧
  select_drop_indices profile_config = Ok ([2; 0; 2], VStr "drop early packets") ∧
  records_packets (λ _, "") "sample_trace.json" 0 sample_records =
    Ok sample_packets ∧
  ∃ baseline visible_after_attack diff h' survivors,
    run_demo (λ _, "") "demo_config.yaml" (VDict profile_config) sample_records [] =
      Ret (baseline, visible_after_attack, diff) h' ∧
    points_to h' baseline (numbered sample_packets) ∧
    points_to h' visible_after_attack survivors ∧
    index <$> survivors = filter (λ i, i ∉ [2; 0; 2]) (index <$> sample_packets) ∧
    length diff = length survivors ∧
    ∀ k a, survivors !! k = Some a →
      ∃ j p r shift,
        sample_packets !! j = Some p ∧ index a = index p ∧
        r = rank sample_packets j (direction p) ∧
        shift = dropped_before [2; 0; 2] sample_packets j (direction p) ∧
        seq_no a = Some (r - shift) ∧
        diff !! k =
          Some (mkLine (index p) (Direction_value (direction p)) (msg_type p)
                  (str_int r) (str_int (r - shift))
                  (if decide (shift ≠ 0) then "yes" else "no")).
Proof.
  split; [reflexivity|]. split; [reflexivity|]. split; [reflexivity|].
  apply (run_demo_outcome (λ _, "") "demo_config.yaml" profile_config
           "sample_trace.json" sample_records sample_packets [2; 0; 2]
           (VStr "drop early packets") []); reflexivity.
Defined.

(** ** The web front end *)

Lemma row_of_baseline bs j b :
  NoDup (index <$> bs) → bs !! j = Some b →
  row_of (seq_by_index bs) b =
    mkRow (index b) (Direction_value (direction b)) (msg_type b)
      (seq_no b) (seq_no b) false.
Proof.
  intros Hnd Hb. unfold row_of.
  rewrite seq_by_index_lookup, (baseline_seq_unique _ _ _ Hnd Hb).
  destruct (seq_no b); [|done]. by rewrite bool_decide_eq_false_2 by (by intros ?).
Qed.

Section web_front_end.
Variable py_str : value → string.
Variable rng : Type.
Variable seed_rng : Z → rng.
Variable sample : rng → list Z → nat → list Z.

Lemma api_run_setup raw ps h :
  records_packets py_str "data/sample_trace.json" 0 raw = Ok ps →
  ∃ packets h0 baseline h1,
    load_packet_trace py_str "data/sample_trace.json" raw h = Ret packets h0 ∧
    compute_sequence_numbers packets h0 = Ret baseline h1 ∧
    points_to h1 baseline (numbered ps).
Proof.
  intros Hok.
  pose proof (load_packet_trace_outcome py_str "data/sample_trace.json" raw h)
    as E0.
  rewrite Hok in E0.
  assert (Hpt : points_to (h ++ ps) (seq (length h) (length raw)) ps).
  { rewrite <- (records_packets_length _ _ _ _ _ Hok). apply points_to_fresh. }
  pose proof (compute_sequence_numbers_ret _ _ _ Hpt) as E1.
  eexists _, _, _, _. split; [exact E0|]. split; [exact E1|].
  rewrite length_seq, <- (records_packets_length _ _ _ _ _ Hok),
    <- (numbered_length ps). apply points_to_fresh.
Qed.

(** [X13] In baseline mode (the request names it or names no mode)
    [api_run] answers, for a trace that loads, with the numbered trace
    twice, as [baseline] and as [after], and a diff in which every row
    shows the packet's own number before and after and [changed = False].
    The configuration file and the random generator play no part. *)
Theorem api_run_baseline_mode data raw config_doc ps g h :
  (dict_get data "mode" = None ∨
   dict_get data "mode" = Some (VStr "baseline")) →
  records_packets py_str "data/sample_trace.json" 0 raw = Ok ps →
  ∃ baseline diff h',
    api_run py_str rng seed_rng sample data raw config_doc g h =
      Ret (BaselineResponse baseline baseline diff) h' ∧
    length baseline = length raw ∧
    (∀ j p, ps !! j = Some p →
       baseline !! j = Some (set_seq_no (Some (rank ps j (direction p))) p)) ∧
    diff = (λ b, mkRow (index b) (Direction_value (direction b)) (msg_type b)
                   (seq_no b) (seq_no b) false) <$> baseline.
Proof.
  intros Hmode Hok.
  assert (Hm : get_ data "mode" (VStr "baseline") = VStr "baseline").
  { destruct Hmode as [Hm|Hm];
      [by rewrite (get_absent _ _ _ Hm)|by rewrite (get_present _ _ _ _ Hm)]. }
  destruct (api_run_setup _ _ h Hok) as (packets & h0 & baseline & h1 & E0 & E1 & Hb).
  pose proof (loaded_trace_baseline_input _ (records_packets_loaded _ _ _ _ Hok))
    as [Hnd _].
  exists (numbered ps), (row_of (seq_by_index (numbered ps)) <$> numbered ps), h1.
  split.
  { unfold api_run.
    rewrite (bind_Ret _ _ _ _ _ E0), (bind_Ret _ _ _ _ _ E1), Hm.
    cbv beta iota.
    rewrite (bind_Ret _ _ _ _ _ (packets_to_dicts_ret _ _ _ Hb)).
    rewrite (bind_Ret _ _ _ _ _ (packets_to_dicts_ret _ _ _ Hb)).
    by rewrite (bind_Ret _ _ _ _ _ (build_diff_ret _ _ _ _ _ Hb Hb)). }
  split; [by rewrite numbered_length, (records_packets_length _ _ _ _ _ Hok)|].
  split; [apply numbered_lookup|].
  apply list_fmap_ext. intros j b Hj. apply (row_of_baseline _ j); [|done].
  by rewrite numbered_fmap.
Qed.

(** [X14] In attack mode [api_run] loads and numbers the trace first
    and then reads the configuration: a configuration that is not a
    mapping or whose selection fails makes it raise that error; one that
    selects the indices [D] is answered with [D] as selected, the numbered
    baseline, the visible trace without the packets of [D] and one diff row
    per visible packet, holding the baseline number, the new number (the
    baseline one minus the number of dropped packets of the same direction
    before it) and a [changed] flag that is true iff they differ.  No
    [pcap_file] key is needed. *)
Theorem api_run_attack_mode data raw config_doc ps g h :
  dict_get data "mode" = Some (VStr "attack") →
  records_packets py_str "data/sample_trace.json" 0 raw = Ok ps →
  (is_dict config_doc = false →
   ∃ h', api_run py_str rng seed_rng sample data raw config_doc g h =
         Raise (ValueError "Configuration in data/demo_config.yaml must be a mapping")
           h') ∧
  (∀ config e,
     config_doc = VDict config → select_drop_indices config = Err e →
     ∃ h', api_run py_str rng seed_rng sample data raw config_doc g h =
           Raise e h') ∧
  (∀ config D desc,
     config_doc = VDict config → select_drop_indices config = Ok (D, desc) →
     ∃ after diff h',
       api_run py_str rng seed_rng sample data raw config_doc g h =
         Ret (AttackResponse desc D (numbered ps) after diff) h' ∧
       index <$> after = filter (λ i, i ∉ D) (index <$> ps) ∧
       length diff = length after ∧
       ∀ k a, after !! k = Some a →
         ∃ j p r shift,
           ps !! j = Some p ∧ index a = index p ∧
           r = rank ps j (direction p) ∧
           shift = dropped_before D ps j (direction p) ∧
           seq_no a = Some (r - shift) ∧
           diff !! k =
             Some (mkRow (index p) (Direction_value (direction p)) (msg_type p)
                     (Some r) (Some (r - shift)) (bool_decide (shift ≠ 0)))).
Proof.
  intros Hmode Hok.
  assert (Hm : get_ data "mode" (VStr "baseline") = VStr "attack")
    by (by rewrite (get_present _ _ _ _ Hmode)).
  destruct (api_run_setup _ _ h Hok) as (packets & h0 & baseline & h1 & E0 & E1 & Hb).
  pose proof (loaded_trace_baseline_input _ (records_packets_loaded _ _ _ _ Hok))
    as Hin.
  assert (Hstart : ∀ k : list nat → M response,
    (packets ← load_packet_trace py_str "data/sample_trace.json" raw;
     baseline ← compute_sequence_numbers packets; k baseline) h = k baseline h1).
  { intros k. by rewrite (bind_Ret _ _ _ _ _ E0), (bind_Ret _ _ _ _ _ E1). }
  split; [|split].
  - intros Hd. exists h1. unfold api_run. rewrite Hm. cbv beta iota.
    rewrite (bind_Ret _ _ _ _ _ E0), (bind_Ret _ _ _ _ _ E1).
    by destruct config_doc.
  - intros config e -> He. exists h1. unfold api_run. rewrite Hm. cbv beta iota.
    rewrite (bind_Ret _ _ _ _ _ E0), (bind_Ret _ _ _ _ _ E1).
    by rewrite load_config_mapping, bind_lift_Ok, He.
  - intros config D desc -> Hs.
    destruct (drop_stages _ _ _ D Hb)
      as (attacked & h2 & vis & after & h3 & E3 & E4 & E5 & Ha & Hb3 & _).
    eexists _, _, h3. split.
    { unfold api_run. rewrite Hm. cbv beta iota.
      rewrite (bind_Ret _ _ _ _ _ E0), (bind_Ret _ _ _ _ _ E1).
      rewrite load_config_mapping, bind_lift_Ok, Hs, bind_lift_Ok.
      cbv beta iota.
      rewrite (bind_Ret _ _ _ _ _ E3), (bind_Ret _ _ _ _ _ E4),
        (bind_Ret _ _ _ _ _ E5).
      rewrite (bind_Ret _ _ _ _ _ (packets_to_dicts_ret _ _ _ Hb3)).
      rewrite (bind_Ret _ _ _ _ _ (packets_to_dicts_ret _ _ _ Ha)).
      rewrite (bind_Ret _ _ _ _ _ (build_diff_ret _ _ _ _ _ Hb3 Ha)).
      reflexivity. }
    split; [apply after_drop_indices, Hin|].
    split; [by rewrite length_fmap|].
    intros k a Hk.
    destruct (diff_after_drop _ _ _ _ Hin Hk) as (j & p & Hj & _ & -> & Hr & _).
    exists j, p, (rank ps j (direction p)),
      (dropped_before D ps j (direction p)).
    split; [done|]. split; [done|]. split; [done|].
    split; [done|]. split; [done|].
    by rewrite list_lookup_fmap, Hk, <- Hr.
Qed.
End web_front_end.

Lemma api_run_baseline_mode_witness :
  (dict_get [] "mode" = None ∨ dict_get [] "mode" = Some (VStr "baseline")) ∧
  records_packets (λ _, "") "data/sample_trace.json" 0 sample_records =
    Ok sample_packets ∧
  ∃ baseline diff h',
    api_run (λ _, "") unit (λ _, tt) first_k [] sample_records VNone tt [] =
      Ret (BaselineResponse baseline baseline diff) h' ∧
    length baseline = length sample_records ∧
    (∀ j p, sample_packets !! j = Some p →
       baseline !! j =
         Some (set_seq_no (Some (rank sample_packets j (direction p))) p)) ∧
    diff = (λ b, mkRow (index b) (Direction_value (direction b)) (msg_type b)
                   (seq_no b) (seq_no b) false) <$> baseline.
Proof.
  split; [by left|]. split; [reflexivity|].
  apply (api_run_baseline_mode (λ _, "") unit (λ _, tt) first_k []
           sample_records VNone sample_packets tt []); [by left|reflexivity].
Defined.

Lemma api_run_attack_mode_witness :
  dict_get [("mode", VStr "attack")] "mode" = Some (VStr "attack") ∧
  records_packets (λ _, "") "data/sample_trace.json" 0 sample_records =
    Ok sample_packets ∧
  select_drop_indices flat_config = Ok ([4; 4; 1], VStr "top-level drop_indices") ∧
  ∃ after diff h',
    api_run (λ _, "") unit (λ _, tt) first_k [("mode", VStr "attack")]
      sample_records (VDict flat_config) tt [] =
      Ret (AttackResponse (VStr "top-level drop_indices") [4; 4; 1]
             (numbered sample_packets) after diff) h' ∧
    index <$> after = filter (λ i, i ∉ [4; 4; 1]) (index <$> sample_packets) ∧
    length diff = length after ∧
    ∀ k a, after !! k = Some a →
      ∃ j p r shift,
        sample_packets !! j = Some p ∧ index a = index p ∧
        r = rank sample_packets j (direction p) ∧
        shift = dropped_before [4; 4; 1] sample_packets j (direction p) ∧
        seq_no a = Some (r - shift) ∧
        diff !! k =
          Some (mkRow (index p) (Direction_value (direction p)) (msg_type p)
                  (Some r) (Some (r - shift)) (bool_decide (shift ≠ 0))).
Proof.
  split; [reflexivity|]. split; [reflexivity|]. split; [reflexivity|].
  apply (proj2 (proj2 (api_run_attack_mode (λ _, "") unit (λ _, tt) first_k
           [("mode", VStr "attack")] sample_records (VDict flat_config)
           sample_packets tt [] eq_refl eq_refl))
           flat_config [4; 4; 1] (VStr "top-level drop_indices"));
    reflexivity.
Defined.

(** ** The two explore front ends *)

Lemma printed_row_of m p : line_of m p = printed_row (row_of m p).
Proof.
  unfold line_of, row_of, printed_row. cbn.
  destruct (m !! index p) as [b|], (seq_no p) as [a|]; try done.
  destruct (decide (b ≠ a)).
  - by rewrite bool_decide_eq_true_2.
  - by rewrite bool_decide_eq_false_2.
Qed.

Lemma mode_dispatch {B} (mode : value) (a b c d : B) :
  mode ≠ VStr "baseline" → mode ≠ VStr "attack" → mode ≠ VStr "explore" →
  match mode with
  | VStr "baseline" => a
  | VStr "attack" => b
  | VStr "explore" => c
  | _ => d
  end = d.
Proof.
  intros H1 H2 H3. destruct mode as [| | | |s| |]; try done.
  repeat (destruct s as [|[[] [] [] [] [] [] [] []] s]; try done).
Qed.

Section front_ends.
Variable py_str : value → string.
Variable rng : Type.
Variable seed_rng : Z → rng.
Variable sample : rng → list Z → nat → list Z.

(** [X15] The command line and the web front end explore alike.  On the
    same trace, request and generator, [cmd_explore] and the explore mode
    of [api_run] either both drop nothing ([cmd_explore] reporting that
    there are no client packets or nothing to drop, [api_run] answering
    with its error body), or choose the same indices, leave the same
    visible trace, and the lines the one prints are the rows the other
    returns, number for number, with ["yes"] for [changed = True]. *)
Theorem explore_front_ends_agree pcap raw ps data config_doc random_drop seed g h :
  records_packets py_str pcap 0 raw = Ok ps →
  dict_get data "mode" = Some (VStr "explore") →
  int_ (get_ data "random_drop" (VInt 1)) = Ok random_drop →
  int_ (get_ data "seed" (VInt 0)) = Ok seed →
  ∃ report h1 resp h2,
    cmd_explore py_str rng seed_rng sample pcap raw random_drop seed g h =
      Ret report h1 ∧
    api_run py_str rng seed_rng sample data raw config_doc g h = Ret resp h2 ∧
    match report, resp with
    | NoClientPackets, ExploreErrorResponse _ _ _ =>
        of_direction CLIENT_TO_SERVER ps = []
    | NothingToDrop, ExploreErrorResponse _ _ _ => random_drop ≤ 0
    | Dropped chosen visible_after_attack lines,
      ExploreResponse chosen' _ after rows =>
        chosen' = chosen ∧ points_to h1 visible_after_attack after ∧
        lines = printed_row <$> rows
    | _, _ => False
    end.
Proof.
  intros Hok Hmode Hrd Hseed.
  assert (Hm : get_ data "mode" (VStr "baseline") = VStr "explore")
    by (by rewrite (get_present _ _ _ _ Hmode)).
  destruct (explore_setup py_str pcap raw ps h Hok)
    as (packets & h0 & baseline & h1 & E0 & E1 & Hb & E2).
  destruct (explore_setup py_str "data/sample_trace.json" raw ps h
              (records_packets_path _ _ "data/sample_trace.json" _ _ _ Hok))
    as (packets' & h0' & baseline' & h1' & E0' & E1' & Hb' & E2').
  set (clients := index <$> of_direction CLIENT_TO_SERVER ps) in *.
  set (k := Z.max 0 (Z.min random_drop (Z.of_nat (length clients)))).
  set (chosen := sorted (sample (if decide (seed ≠ 0) then seed_rng seed else g)
                           clients (Z.to_nat k))).
  assert (Hcmd : ∀ r,
    (match clients with
     | [] => mret NoClientPackets
     | _ :: _ =>
         let g := if decide (seed ≠ 0) then seed_rng seed else g in
         let k := Z.max 0 (Z.min random_drop (Z.of_nat (length clients))) in
         if decide (k = 0) then mret NothingToDrop
         else
           drawn ← lift (random_sample rng sample g clients k);
           let chosen := sorted drawn in
           attacked ← apply_drop_indices baseline chosen;
           visible_after_attack ← filter_visible_packets attacked;
           visible_after_attack ← compute_sequence_numbers visible_after_attack;
           diff ← print_sequence_diff baseline visible_after_attack;
           mret (Dropped chosen visible_after_attack diff)
     end) h1 = r →
    cmd_explore py_str rng seed_rng sample pcap raw random_drop seed g h = r).
  { intros r <-. unfold cmd_explore.
    by rewrite (bind_Ret _ _ _ _ _ E0), (bind_Ret _ _ _ _ _ E1),
      (bind_Ret _ _ _ _ _ E2). }
  assert (Hapi : ∀ r,
    (if bool_decide (clients = []) || bool_decide (random_drop ≤ 0) then
       b ← packets_to_dicts baseline';
       a ← packets_to_dicts baseline';
       d ← build_diff baseline' baseline';
       mret (ExploreErrorResponse b a d)
     else
       let g := if decide (seed ≠ 0) then seed_rng seed else g in
       let k := Z.max 0 (Z.min random_drop (Z.of_nat (length clients))) in
       drawn ← lift (random_sample rng sample g clients k);
       let chosen := sorted drawn in
       attacked ← apply_drop_indices baseline' chosen;
       visible ← filter_visible_packets attacked;
       visible_with_seq ← compute_sequence_numbers visible;
       b ← packets_to_dicts baseline';
       a ← packets_to_dicts visible_with_seq;
       d ← build_diff baseline' visible_with_seq;
       mret (ExploreResponse chosen b a d)) h1' = r →
    api_run py_str rng seed_rng sample data raw config_doc g h = r).
  { intros r <-. unfold api_run.
    rewrite (bind_Ret _ _ _ _ _ E0'), (bind_Ret _ _ _ _ _ E1'), Hm.
    cbv beta iota.
    by rewrite Hrd, bind_lift_Ok, Hseed, bind_lift_Ok, (bind_Ret _ _ _ _ _ E2'). }
  assert (Herr : (b ← packets_to_dicts baseline';
                  a ← packets_to_dicts baseline';
                  d ← build_diff baseline' baseline';
                  mret (ExploreErrorResponse b a d)) h1' =
                 Ret (ExploreErrorResponse (numbered ps) (numbered ps)
                        (row_of (seq_by_index (numbered ps)) <$> numbered ps)) h1').
  { rewrite (bind_Ret _ _ _ _ _ (packets_to_dicts_ret _ _ _ Hb')).
    rewrite (bind_Ret _ _ _ _ _ (packets_to_dicts_ret _ _ _ Hb')).
    by rewrite (bind_Ret _ _ _ _ _ (build_diff_ret _ _ _ _ _ Hb' Hb')). }
  destruct (decide (clients = [])) as [Hc|Hc].
  { exists NoClientPackets, h1,
      (ExploreErrorResponse (numbered ps) (numbered ps)
      (row_of (seq_by_index (numbered ps)) <$> numbered ps)), h1'.
    split; [apply Hcmd; by rewrite Hc|].
    split; [apply Hapi; rewrite Hc; exact Herr|].
    by apply fmap_nil_inv in Hc. }
  assert (0 < Z.of_nat (length clients)) by (destruct clients; [done|simpl; lia]).
  destruct (decide (random_drop ≤ 0)) as [Hz|Hz].
  { exists NothingToDrop, h1,
      (ExploreErrorResponse (numbered ps) (numbered ps)
      (row_of (seq_by_index (numbered ps)) <$> numbered ps)), h1'.
    split; [|split; [apply Hapi|exact Hz]].
    - apply Hcmd. rewrite (list_match_nonempty clients _ _ Hc).
      cbv zeta. by rewrite decide_True by lia.
    - rewrite (bool_decide_eq_true_2 (random_drop ≤ 0) Hz), orb_true_r.
      exact Herr. }
  destruct (drop_stages _ _ _ chosen Hb)
    as (attacked & h2 & vis & after & h3 & E3 & E4 & E5 & Ha & Hb3 & _).
  destruct (drop_stages _ _ _ chosen Hb')
    as (attacked' & h2' & vis' & after' & h3' & E3' & E4' & E5' & Ha' & Hb3' & _).
  assert (Hk : 0 ≤ k ≤ Z.of_nat (length clients)) by (subst k; lia).
  assert (Hk0 : k ≠ 0) by (subst k; lia).
  eexists (Dropped chosen after _), h3, (ExploreResponse chosen _ _ _), h3'.
  split; [|split; [|split; [reflexivity|split; [exact Ha|]]]].
  - apply Hcmd. rewrite (list_match_nonempty clients _ _ Hc).
    cbv zeta. fold k. rewrite (decide_False (P := k = 0)) by done.
    unfold random_sample. rewrite decide_True by done. rewrite bind_lift_Ok.
    fold chosen.
    rewrite (bind_Ret _ _ _ _ _ E3), (bind_Ret _ _ _ _ _ E4),
      (bind_Ret _ _ _ _ _ E5).
    by rewrite (bind_Ret _ _ _ _ _ (print_sequence_diff_ret _ _ _ _ _ Hb3 Ha)).
  - apply Hapi.
    rewrite (bool_decide_eq_false_2 (clients = []) Hc),
      (bool_decide_eq_false_2 (random_drop ≤ 0) Hz).
    change (false || false) with false. cbv iota zeta. fold k.
    unfold random_sample. rewrite decide_True by done. rewrite bind_lift_Ok.
    fold chosen.
    rewrite (bind_Ret _ _ _ _ _ E3'), (bind_Ret _ _ _ _ _ E4'),
      (bind_Ret _ _ _ _ _ E5').
    rewrite (bind_Ret _ _ _ _ _ (packets_to_dicts_ret _ _ _ Hb3')).
    rewrite (bind_Ret _ _ _ _ _ (packets_to_dicts_ret _ _ _ Ha')).
    by rewrite (bind_Ret _ _ _ _ _ (build_diff_ret _ _ _ _ _ Hb3' Ha')).
  - rewrite <- list_fmap_compose. apply list_fmap_ext.
    intros ? p _. apply printed_row_of.
Qed.

(** [X16] [api_run] loads the trace before it looks at the request: when
    the trace does not load, every request, whatever its mode and its
    parameters, fails with the loader's error. *)
Theorem api_run_trace_errors data raw config_doc e g h :
  records_packets py_str "data/sample_trace.json" 0 raw = Err e →
  ∃ h', api_run py_str rng seed_rng sample data raw config_doc g h = Raise e h'.
Proof.
  intros Herr.
  pose proof (load_packet_trace_outcome py_str "data/sample_trace.json" raw h)
    as E. rewrite Herr in E. destruct E as [h' E].
  exists h'. unfold api_run. by rewrite (bind_Raise _ _ _ _ _ E).
Qed.

(** [X17] A request whose [mode] is none of ["baseline"], ["attack"] and
    ["explore"] (another string, or a value that is no string) is answered,
    once the trace is loaded, with the unknown-mode body (status 400);
    neither the configuration nor the explore parameters are looked at. *)
Theorem api_run_unknown_mode data raw config_doc ps mode g h :
  records_packets py_str "data/sample_trace.json" 0 raw = Ok ps →
  dict_get data "mode" = Some mode →
  mode ≠ VStr "baseline" → mode ≠ VStr "attack" → mode ≠ VStr "explore" →
  ∃ h', api_run py_str rng seed_rng sample data raw config_doc g h =
        Ret (UnknownModeResponse mode) h'.
Proof.
  intros Hok Hmode H1 H2 H3.
  destruct (api_run_setup py_str _ _ h Hok)
    as (packets & h0 & baseline & h1 & E0 & E1 & _).
  exists h1. unfold api_run.
  rewrite (bind_Ret _ _ _ _ _ E0), (bind_Ret _ _ _ _ _ E1).
  rewrite (get_present _ _ _ _ Hmode).
  by rewrite (mode_dispatch mode _ _ _ _ H1 H2 H3).
Qed.

(** [X18] In explore mode the two parameters go through [int()] after
    the trace is loaded and before anything is selected: a [random_drop]
    that [int()] rejects makes [api_run] raise that error, and so does a
    [seed] that it rejects, also when [random_drop] asks for nothing. *)
Theorem api_run_explore_parameter_errors data raw config_doc ps e g h :
  records_packets py_str "data/sample_trace.json" 0 raw = Ok ps →
  dict_get data "mode" = Some (VStr "explore") →
  int_ (get_ data "random_drop" (VInt 1)) = Err e ∨
  (∃ random_drop, int_ (get_ data "random_drop" (VInt 1)) = Ok random_drop ∧
                  int_ (get_ data "seed" (VInt 0)) = Err e) →
  ∃ h', api_run py_str rng seed_rng sample data raw config_doc g h = Raise e h'.
Proof.
  intros Hok Hmode Hbad.
  destruct (api_run_setup py_str _ _ h Hok)
    as (packets & h0 & baseline & h1 & E0 & E1 & _).
  exists h1. unfold api_run.
  rewrite (bind_Ret _ _ _ _ _ E0), (bind_Ret _ _ _ _ _ E1).
  rewrite (get_present _ _ _ _ Hmode). cbv beta iota.
  destruct Hbad as [Hrd|(random_drop & Hrd & Hseed)].
  - by rewrite Hrd, bind_lift_Err.
  - by rewrite Hrd, bind_lift_Ok, Hseed, bind_lift_Err.
Qed.
End front_ends.

Lemma explore_front_ends_agree_witness :
  records_packets (λ _, "") "sample_trace.json" 0 sample_records =
    Ok sample_packets ∧
  dict_get explore_request "mode" = Some (VStr "explore") ∧
  int_ (get_ explore_request "random_drop" (VInt 1)) = Ok 7 ∧
  int_ (get_ explore_request "seed" (VInt 0)) = Ok 42 ∧
  ∃ report h1 resp h2,
    cmd_explore (λ _, "") unit (λ _, tt) first_k "sample_trace.json"
      sample_records 7 42 tt [] = Ret report h1 ∧
    api_run (λ _, "") unit (λ _, tt) first_k explore_request sample_records
      VNone tt [] = Ret resp h2 ∧
    match report, resp with
    | NoClientPackets, ExploreErrorResponse _ _ _ =>
        of_direction CLIENT_TO_SERVER sample_packets = []
    | NothingToDrop, ExploreErrorResponse _ _ _ => 7 ≤ 0
    | Dropped chosen visible_after_attack lines,
      ExploreResponse chosen' _ after rows =>
        chosen' = chosen ∧ points_to h1 visible_after_attack after ∧
        lines = printed_row <$> rows
    | _, _ => False
    end.
Proof.
  split; [reflexivity|]. split; [reflexivity|]. split; [reflexivity|].
  split; [reflexivity|].
  apply (explore_front_ends_agree (λ _, "") unit (λ _, tt) first_k
           "sample_trace.json" sample_records sample_packets explore_request
           VNone 7 42 tt []); reflexivity.
Defined.

Lemma api_run_trace_errors_witness :
  records_packets (λ _, "") "data/sample_trace.json" 0
    (sample_records ++ [record "X->Y" 64 "KEXINIT"]) =
    Err (ValueError "Invalid direction 'X->Y' in data/sample_trace.json") ∧
  ∃ h', api_run (λ _, "") unit (λ _, tt) first_k [("mode", VStr "status")]
          (sample_records ++ [record "X->Y" 64 "KEXINIT"]) VNone tt [] =
        Raise (ValueError "Invalid direction 'X->Y' in data/sample_trace.json") h'.
Proof.
  split; [reflexivity|].
  apply (api_run_trace_errors (λ _, "") unit (λ _, tt) first_k
           [("mode", VStr "status")]
           (sample_records ++ [record "X->Y" 64 "KEXINIT"]) VNone
           (ValueError "Invalid direction 'X->Y' in data/sample_trace.json") tt []).
  reflexivity.
Defined.

Lemma api_run_unknown_mode_witness :
  records_packets (λ _, "") "data/sample_trace.json" 0 sample_records =
    Ok sample_packets ∧
  dict_get [("mode", VStr "attacks")] "mode" = Some (VStr "attacks") ∧
  VStr "attacks" ≠ VStr "baseline" ∧ VStr "attacks" ≠ VStr "attack" ∧
  VStr "attacks" ≠ VStr "explore" ∧
  ∃ h', api_run (λ _, "") unit (λ _, tt) first_k [("mode", VStr "attacks")]
          sample_records VNone tt [] =
        Ret (UnknownModeResponse (VStr "attacks")) h'.
Proof.
  split; [reflexivity|]. split; [reflexivity|].
  split; [discriminate|]. split; [discriminate|]. split; [discriminate|].
  apply (api_run_unknown_mode (λ _, "") unit (λ _, tt) first_k
           [("mode", VStr "attacks")] sample_records VNone sample_packets
           (VStr "attacks") tt []); [reflexivity|reflexivity|discriminate..].
Defined.

Lemma api_run_explore_parameter_errors_witness :
  records_packets (λ _, "") "data/sample_trace.json" 0 sample_records =
    Ok sample_packets ∧
  dict_get [("mode", VStr "explore"); ("random_drop", VInt 0);
            ("seed", VStr "seven")] "mode" = Some (VStr "explore") ∧
  (int_ (get_ [("mode", VStr "explore"); ("random_drop", VInt 0);
               ("seed", VStr "seven")] "random_drop" (VInt 1)) =
     Err (IntLiteralError "seven") ∨
   ∃ random_drop,
     int_ (get_ [("mode", VStr "explore"); ("random_drop", VInt 0);
                 ("seed", VStr "seven")] "random_drop" (VInt 1)) =
       Ok random_drop ∧
     int_ (get_ [("mode", VStr "explore"); ("random_drop", VInt 0);
                 ("seed", VStr "seven")] "seed" (VInt 0)) =
       Err (IntLiteralError "seven")) ∧
  ∃ h', api_run (λ _, "") unit (λ _, tt) first_k
          [("mode", VStr "explore"); ("random_drop", VInt 0);
           ("seed", VStr "seven")] sample_records VNone tt [] =
        Raise (IntLiteralError "seven") h'.
Proof.
  assert (Hbad :
    int_ (get_ [("mode", VStr "explore"); ("random_drop", VInt 0);
                ("seed", VStr "seven")] "random_drop" (VInt 1)) =
      Err (IntLiteralError "seven") ∨
    ∃ random_drop,
      int_ (get_ [("mode", VStr "explore"); ("random_drop", VInt 0);
                  ("seed", VStr "seven")] "random_drop" (VInt 1)) =
        Ok random_drop ∧
      int_ (get_ [("mode", VStr "explore"); ("random_drop", VInt 0);
                  ("seed", VStr "seven")] "seed" (VInt 0)) =
        Err (IntLiteralError "seven")).
  { right. exists 0. split; reflexivity. }
  split; [reflexivity|]. split; [reflexivity|]. split; [exact Hbad|].
  apply (api_run_explore_parameter_errors (λ _, "") unit (λ _, tt) first_k
           [("mode", VStr "explore"); ("random_drop", VInt 0);
            ("seed", VStr "seven")] sample_records VNone sample_packets
           (IntLiteralError "seven") tt []); [reflexivity|reflexivity|exact Hbad].
Defined.

(** ** The packet table *)

Lemma string_length_app (s1 s2 : string) :
  String.length (s1 +:+ s2) = (String.length s1 + String.length s2)%nat.
Proof. induction s1 as [|c s1 IH]; [done|]. simpl. by rewrite IH. Qed.

Lemma repeat_char_length c n : String.length (repeat_char c n) = n.
Proof. induction n as [|n IH]; [done|]. simpl. by rewrite IH. Qed.

Lemma rjust_length w s : String.length (rjust w s) = (w `max` String.length s)%nat.
Proof. unfold rjust. rewrite string_length_app, repeat_char_length. lia. Qed.

Lemma ljust_length w s : String.length (ljust w s) = (w `max` String.length s)%nat.
Proof. unfold ljust. rewrite string_length_app, repeat_char_length. lia. Qed.

Lemma table_line_length idx dir type len seq dropped :
  String.length (table_line idx dir type len seq dropped) =
    (3 `max` String.length idx + 4 `max` String.length dir +
     16 `max` String.length type + 5 `max` String.length len +
     5 `max` String.length seq + 7 `max` String.length dropped + 10)%nat.
Proof.
  unfold table_line.
  rewrite !string_length_app, !rjust_length, ljust_length. simpl. lia.
Qed.

Lemma pretty_N_go_length (k : nat) (x : N) (s : string) :
  (x < 10 ^ N.of_nat k)%N →
  (String.length (pretty_N_go x s) ≤ k + String.length s)%nat.
Proof.
  revert x s. induction k as [|k IH]; intros x s Hx.
  - assert (x = 0%N) as -> by (simpl in Hx; lia). rewrite pretty_N_go_0. lia.
  - destruct (decide (x = 0%N)) as [->|Hx0]; [rewrite pretty_N_go_0; lia|].
    rewrite pretty_N_go_step by lia.
    etrans; [apply IH|simpl; lia].
    apply N.Div0.div_lt_upper_bound.
    by rewrite Nat2N.inj_succ, N.pow_succ_r' in Hx.
Qed.

Lemma str_int_length (k : nat) (n : Z) :
  (0 < k)%nat → 0 ≤ n < 10 ^ Z.of_nat k → (String.length (str_int n) ≤ k)%nat.
Proof.
  intros Hk Hn. unfold str_int, pretty, pretty_Z.
  destruct n as [|p|p]; [simpl; lia| |lia].
  unfold pretty, pretty_positive, pretty, pretty_N.
  rewrite decide_False by done.
  etrans; [apply (pretty_N_go_length k)|simpl; lia].
  apply N2Z.inj_lt. rewrite N2Z.inj_pow, nat_N_Z. simpl. lia.
Qed.

Lemma table_row_length p :
  (50 ≤ String.length (table_row p))%nat ∧
  (fits_columns p → String.length (table_row p) = 50%nat).
Proof.
  unfold table_row. rewrite table_line_length. split; [lia|].
  intros (Hi & Hm & Hl & Hs).
  pose proof (str_int_length 3 (index p) ltac:(lia) ltac:(simpl; lia)).
  pose proof (str_int_length 5 (payload_len p) ltac:(lia) ltac:(simpl; lia)).
  assert (String.length match seq_no p with
                        | None => "?"
                        | Some n => str_int n
                        end ≤ 5)%nat.
  { destruct (seq_no p) as [n|]; [|simpl; lia].
    apply str_int_length; [lia|]. specialize (Hs n eq_refl). simpl. lia. }
  assert (String.length (Direction_value (direction p)) = 4%nat)
    by (by destruct (direction p)).
  assert (String.length (if dropped p then "yes" else "no") ≤ 7)%nat
    by (destruct (dropped p); simpl; lia).
  lia.
Qed.

Lemma print_packet_table_ret h ls ps title :
  points_to h ls ps →
  print_packet_table ls title h =
    Ret (title_lines title ++ [table_header; repeat_char "-" 50] ++
         (table_row <$> ps) ++ [""]) h.
Proof.
  intros Hpt. unfold print_packet_table. cbv zeta.
  fold (title_lines title).
  match goal with
  | |- context [for_ ls ?body ?s] =>
      pose proof (for_fold (λ acc _ p, acc ++ [table_row p]) body h ls ps s) as E
  end.
  rewrite (bind_Ret _ _ _ _ _ (E ltac:(by intros acc l p El; cbv beta; step_load El) Hpt)).
  rewrite (foldl_collect (λ lp : nat * Packet, [table_row lp.2])).
  rewrite (zip_snd_bind (λ p, [table_row p])) by (by eapply points_to_length).
  rewrite bind_singleton.
  change (String.length table_header) with 50%nat.
  unfold mret, M_ret. f_equal. by rewrite <- !app_assoc.
Qed.

(** [X19] [print_packet_table] prints, for packets that exist, the title
    line when a non-empty title is given, the header, a rule as long as the
    header, one row per packet in order and an empty line, and leaves the
    packets as they are.  The header is 50 characters wide; a row is never
    shorter, no field being cut, and exactly as wide when the index is
    below 1000, the message type has at most 16 characters and the payload
    length and the sequence number are below 100000. *)
Theorem print_packet_table_layout h packets ps title :
  points_to h packets ps →
  ∃ rows,
    print_packet_table packets title h =
      Ret (title_lines title ++ [table_header; repeat_char "-" 50] ++
           rows ++ [""]) h ∧
    String.length table_header = 50%nat ∧
    length rows = length packets ∧
    ∀ j p, ps !! j = Some p →
      rows !! j = Some (table_row p) ∧
      (50 ≤ String.length (table_row p))%nat ∧
      (fits_columns p → String.length (table_row p) = 50%nat).
Proof.
  intros Hpt. exists (table_row <$> ps).
  split; [by apply print_packet_table_ret|]. split; [reflexivity|].
  split; [by rewrite length_fmap, (points_to_length _ _ _ Hpt)|].
  intros j p Hp. split; [by rewrite list_lookup_fmap, Hp|].
  apply table_row_length.
Qed.

Lemma print_packet_table_layout_witness :
  points_to sample_packets sample_refs sample_packets ∧
  ∃ rows,
    print_packet_table sample_refs (Some "Baseline") sample_packets =
      Ret (title_lines (Some "Baseline") ++
           [table_header; repeat_char "-" 50] ++ rows ++ [""]) sample_packets ∧
    String.length table_header = 50%nat ∧
    length rows = length sample_refs ∧
    ∀ j p, sample_packets !! j = Some p →
      rows !! j = Some (table_row p) ∧
      (50 ≤ String.length (table_row p))%nat ∧
      (fits_columns p → String.length (table_row p) = 50%nat).
Proof.
  split; [apply points_to_self|].
  apply (print_packet_table_layout sample_packets sample_refs sample_packets
           (Some "Baseline")), points_to_self.
Defined.

(** ** The baseline command *)

Section baseline_command.
Variable py_str : value → string.

(** [X20] [cmd_baseline], like [run_handshake_demo] which it calls,
    prints for a trace that loads the title, the header, the rule and one
    row per record: row [j] shows index [j], the record's direction,
    message type and converted length, as sequence number the number of
    earlier records of the same direction, and ["no"] as [dropped]; no row
    shows ["?"].  A trace that does not load makes it raise the loader's
    error. *)
Theorem cmd_baseline_table pcap raw h :
  match records_packets py_str pcap 0 raw with
  | Ok ps =>
      ∃ rows h',
        cmd_baseline py_str pcap raw h =
          Ret ([String "010" "=== Baseline handshake (no attack) ===";
                table_header; repeat_char "-" 50] ++ rows ++ [""]) h' ∧
        length rows = length raw ∧
        ∀ j p, ps !! j = Some p →
          rows !! j =
            Some (table_line (str_int (Z.of_nat j))
                    (Direction_value (direction p)) (msg_type p)
                    (str_int (payload_len p))
                    (str_int (rank ps j (direction p))) "no")
  | Err e => ∃ h', cmd_baseline py_str pcap raw h = Raise e h'
  end.
Proof.
  pose proof (load_packet_trace_outcome py_str pcap raw h) as E0.
  destruct (records_packets py_str pcap 0 raw) as [ps|e] eqn:Hok.
  - assert (Hpt : points_to (h ++ ps) (seq (length h) (length raw)) ps).
    { rewrite <- (records_packets_length _ _ _ _ _ Hok). apply points_to_fresh. }
    pose proof (compute_sequence_numbers_ret _ _ _ Hpt) as E1.
    assert (Hb : points_to ((h ++ ps) ++ numbered ps)
                   (seq (length (h ++ ps)) (length (seq (length h) (length raw))))
                   (numbered ps)).
    { rewrite length_seq, <- (records_packets_length _ _ _ _ _ Hok),
        <- (numbered_length ps). apply points_to_fresh. }
    exists (table_row <$> numbered ps), ((h ++ ps) ++ numbered ps).
    split; [|split].
    + unfold cmd_baseline, run_handshake_demo.
      rewrite (bind_Ret _ _ _ _ _ E0), (bind_Ret _ _ _ _ _ E1).
      by rewrite (print_packet_table_ret _ _ _ _ Hb).
    + by rewrite length_fmap, numbered_length,
        (records_packets_length _ _ _ _ _ Hok).
    + intros j p Hp.
      rewrite list_lookup_fmap, (numbered_lookup _ _ _ Hp). simpl.
      destruct (records_packets_loaded _ _ _ _ Hok j p Hp) as [Hi Hd].
      unfold table_row. simpl. by rewrite Hi, Hd.
  - destruct E0 as [h' E0]. exists h'.
    unfold cmd_baseline, run_handshake_demo.
    by rewrite (bind_Raise _ _ _ _ _ E0).
Qed.

(** ** The snapshots *)

Lemma serialize_packets_to_json_ret h ls ps :
  points_to h ls ps →
  serialize_packets_to_json ls h = Ret (snapshot_of <$> ps) h.
Proof.
  intros Hpt. unfold serialize_packets_to_json.
  rewrite (for_fold (λ acc _ p, acc ++ [snapshot_of p]) _ h ls ps);
    [|by intros acc l p E; step_load E|done].
  rewrite (foldl_collect (λ lp : nat * Packet, [snapshot_of lp.2])).
  rewrite (zip_snd_bind (λ p, [snapshot_of p])) by (by eapply points_to_length).
  by rewrite bind_singleton.
Qed.

Lemma snapshot_of_fields p :
  record_fields (snapshot_of p) (direction p) (payload_len p) (VStr (msg_type p)).
Proof.
  exists (VStr (Direction_value (direction p))), (VInt (payload_len p)).
  repeat split. by destruct (direction p).
Qed.

(** [X21] The records [serialize_packets_to_json] makes of existing
    packets are records [load_packet_trace] accepts: loading them gives one
    new packet per snapshot with the same direction, payload length and
    message type, while the index is the position in the snapshot, whatever
    index was written, [seq_no] is [None] and [dropped] is [False].  The
    snapshot of a trace in which every packet carries its position as index
    and none is dropped, such as the baseline, so loads into that trace
    without its sequence numbers, and numbering it gives the same numbers
    again. *)
Theorem snapshot_reloads path h packets ps :
  points_to h packets ps →
  ∃ data reloaded,
    serialize_packets_to_json packets h = Ret data h ∧
    load_packet_trace py_str path data h =
      Ret (seq (length h) (length packets)) (h ++ reloaded) ∧
    length reloaded = length packets ∧
    (∀ j p, ps !! j = Some p →
       reloaded !! j =
         Some (mkPacket (Z.of_nat j) (direction p) (payload_len p) (msg_type p)
                 None false)) ∧
    (loaded_trace ps →
     reloaded = set_seq_no None <$> ps ∧ numbered reloaded = numbered ps).
Proof.
  intros Hpt.
  destruct (records_packets_of_fields py_str path (snapshot_of <$> ps) 0)
    as (reloaded & Hre).
  { intros item (p & -> & _)%list_elem_of_fmap. eexists _, _, _.
    apply snapshot_of_fields. }
  pose proof (records_packets_length _ _ _ _ _ Hre) as Hlen.
  rewrite length_fmap in Hlen.
  assert (Hlook : ∀ j p, ps !! j = Some p →
            reloaded !! j =
              Some (mkPacket (Z.of_nat j) (direction p) (payload_len p)
                      (msg_type p) None false)).
  { intros j p Hp.
    destruct (lookup_lt_is_Some_2 reloaded j) as [q Hq].
    { rewrite Hlen. by eapply lookup_lt_Some. }
    destruct (records_packets_lookup _ _ _ _ _ _ _ Hre Hq) as (item & Hitem & Hrec).
    rewrite list_lookup_fmap, Hp in Hitem. injection Hitem as <-.
    rewrite (record_packet_of_fields py_str path _ _ _ _ _ (snapshot_of_fields p))
      in Hrec.
    injection Hrec as <-. rewrite Hq. do 2 f_equal; lia. }
  exists (snapshot_of <$> ps), reloaded.
  split; [by apply serialize_packets_to_json_ret|].
  pose proof (load_packet_trace_outcome py_str path (snapshot_of <$> ps) h) as E.
  rewrite Hre, length_fmap, <- (points_to_length _ _ _ Hpt) in E.
  split; [exact E|]. split; [by rewrite Hlen, (points_to_length _ _ _ Hpt)|].
  split; [exact Hlook|].
  intros Hld.
  assert (Heq : reloaded = set_seq_no None <$> ps).
  { apply list_eq. intros j. rewrite list_lookup_fmap.
    destruct (ps !! j) as [p|] eqn:Hp.
    - rewrite (Hlook j p Hp). destruct (Hld j p Hp) as [Hi Hd]. simpl.
      unfold set_seq_no. by rewrite Hi, Hd.
    - apply lookup_ge_None. rewrite Hlen. by apply lookup_ge_None. }
  split; [exact Heq|]. rewrite Heq. apply numbered_ext.
  apply Forall2_fmap_r, Forall_Forall2_diag, Forall_forall. intros p _. by eexists.
Qed.
End baseline_command.

Lemma cmd_baseline_table_witness :
  ∃ rows h',
    cmd_baseline (λ _, "") "sample_trace.json" sample_records [] =
      Ret ([String "010" "=== Baseline handshake (no attack) ===";
            table_header; repeat_char "-" 50] ++ rows ++ [""]) h' ∧
    length rows = length sample_records ∧
    ∀ j p, sample_packets !! j = Some p →
      rows !! j =
        Some (table_line (str_int (Z.of_nat j))
                (Direction_value (direction p)) (msg_type p)
                (str_int (payload_len p))
                (str_int (rank sample_packets j (direction p))) "no").
Proof.
  exact (cmd_baseline_table (λ _, "") "sample_trace.json" sample_records []).
Defined.

Lemma snapshot_reloads_witness :
  points_to sample_packets sample_refs sample_packets ∧
  ∃ data reloaded,
    serialize_packets_to_json sample_refs sample_packets =
      Ret data sample_packets ∧
    load_packet_trace (λ _, "") "baseline_trace.json" data sample_packets =
      Ret (seq (length sample_packets) (length sample_refs))
        (sample_packets ++ reloaded) ∧
    length reloaded = length sample_refs ∧
    (∀ j p, sample_packets !! j = Some p →
       reloaded !! j =
         Some (mkPacket (Z.of_nat j) (direction p) (payload_len p) (msg_type p)
                 None false)) ∧
    (loaded_trace sample_packets →
     reloaded = set_seq_no None <$> sample_packets ∧
     numbered reloaded = numbered sample_packets).
Proof.
  split; [apply points_to_self|].
  apply (snapshot_reloads (λ _, "") "baseline_trace.json" sample_packets
           sample_refs sample_packets), points_to_self.
Defined.
